(** * TEP_demo backend: a shallow embedding of the live pipeline

    The development follows three source files of the backend:
    - [multi_llm_client.py]  (module [MultiLLM]): the per-backend query
      functions and the parallel dispatch [get_analysis_from_all_models];
    - [independent_llm_manager.py] (module [Manager]): the per-model
      busy / displaying / frozen life cycle;
    - [app.py] (module [App]): the anomaly state tracker, the [/ingest]
      handler with its background analysis task, the [/stream] generator
      and the [/config/runtime] handler.

    Conventions.  Python floats are idealised as rationals ([Qc]); the
    wall clock [time.time()] and the answers of external collaborators
    (the PCA detector, the LLM services, file output) are inputs of the
    functions that consult them.  Python exceptions are values of [exn];
    code that can raise lives in the state-and-exception monad [Py.M]. *)

From stdpp Require Import gmap strings list fin_maps numbers pretty sorting.
From Stdlib Require Import QArith Qcanon Qcabs.

Close Scope Qc_scope.
Close Scope Q_scope.

Set Default Proof Using "Type".

(* ===================================================================== *)
(** ** Python runtime notions shared by the three modules *)
(* ===================================================================== *)

Module Py.

(** Floats as exact rationals. *)
Abbreviation float := Qc.

Definition of_Z (z : Z) : float := Q2Qc (inject_Z z).
Definition of_nat (n : nat) : float := of_Z (Z.of_nat n).

(** The exceptions that occur in the modelled code.  [CancelledError]
    derives from [BaseException] only, the others from [Exception]. *)
Inductive exn : Type :=
| NameError (name : string)
| KeyError (key : string)
| ValueError (msg : string)
| TimeoutError
| Exception (msg : string)
| IndexError (msg : string)
| AttributeError (msg : string)
| HTTPException (status_code : Z) (detail : string)
| CancelledError.

Definition is_Exception (e : exn) : bool :=
  match e with
  | CancelledError => false
  | _ => true
  end.

Definition is_TimeoutError (e : exn) : bool :=
  match e with
  | TimeoutError => true
  | _ => false
  end.

(** [str(e)]. *)
Definition str (e : exn) : string :=
  match e with
  | NameError name => "name '" +:+ name +:+ "' is not defined"
  | KeyError key => "'" +:+ key +:+ "'"
  | ValueError msg => msg
  | TimeoutError => ""
  | Exception msg => msg
  | IndexError msg => msg
  | AttributeError msg => msg
  | HTTPException _ detail => detail
  | CancelledError => ""
  end.

Inductive result (A : Type) : Type :=
| Ok (a : A)
| Raise (e : exn).
Arguments Ok {A} a.
Arguments Raise {A} e.

Definition is_Ok {A} (r : result A) : bool :=
  match r with Ok _ => true | Raise _ => false end.

(** The value of a result known to be [Ok]. *)
Definition from_ok {A} (r : result A) : is_Ok r = true -> A :=
  match r as r0 return is_Ok r0 = true -> A with
  | Ok a => fun _ => a
  | Raise _ => fun H => match Bool.diff_false_true H with end
  end.

(** Pure code that may raise. *)
Definition rbind {A B} (r : result A) (k : A -> result B) : result B :=
  match r with
  | Ok a => k a
  | Raise e => Raise e
  end.

Fixpoint rmapM {A B} (f : A -> result B) (l : list A) : result (list B) :=
  match l with
  | [] => Ok []
  | x :: l' => rbind (f x) (fun y => rbind (rmapM f l') (fun ys => Ok (y :: ys)))
  end.

(** Code that mutates a store of type [S] and may raise: the store
    survives an exception, as Python's globals and attributes do. *)
Definition M (S A : Type) : Type := S -> result A * S.

Definition ret {S A} (a : A) : M S A := fun s => (Ok a, s).
Definition raise {S A} (e : exn) : M S A := fun s => (Raise e, s).
Definition bind {S A B} (m : M S A) (k : A -> M S B) : M S B :=
  fun s => match m s with
           | (Ok a, s') => k a s'
           | (Raise e, s') => (Raise e, s')
           end.
Definition get {S} : M S S := fun s => (Ok s, s).
Definition gets {S A} (f : S -> A) : M S A := fun s => (Ok (f s), s).
Definition modify {S} (f : S -> S) : M S unit := fun s => (Ok tt, f s).
Definition lift {S A} (r : result A) : M S A := fun s => (r, s).

(** [try: body / except <class>: handler], the class given by a
    predicate on exceptions. *)
Definition try_except {S A} (body : M S A) (catches : exn -> bool)
           (handler : exn -> M S A) : M S A :=
  fun s => match body s with
           | (Ok a, s') => (Ok a, s')
           | (Raise e, s') => if catches e then handler e s' else (Raise e, s')
           end.

(** [try: body / finally: cleanup]: the cleanup runs on every exit;
    an exception of the cleanup replaces the pending outcome. *)
Definition try_finally {S A} (body : M S A) (cleanup : M S unit) : M S A :=
  fun s => match body s with
           | (r, s') => match cleanup s' with
                        | (Ok _, s'') => (r, s'')
                        | (Raise e, s'') => (Raise e, s'')
                        end
           end.

(** stdpp's monad notation: [x ← m; k] and [m;; k]. *)
#[export] Instance M_ret {S} : MRet (M S) := fun A a => ret a.
#[export] Instance M_bind {S} : MBind (M S) := fun A B k m => bind m k.

(** [collections.deque] with a bound.  [maxlen] is a natural number:
    the constructor refuses a negative bound. *)
Record deque (A : Type) : Type := Deque { items : list A; maxlen : nat }.
Arguments Deque {A} items maxlen.
Arguments items {A} d.
Arguments maxlen {A} d.

(** The last [n] elements of a list. *)
Definition lastn {A} (n : nat) (l : list A) : list A :=
  drop (length l - n) l.

(** [deque(iterable, maxlen=n)]: keeps the last [n] elements;
    [ValueError] when [n] is negative. *)
Definition deque_new {A} (l : list A) (n : Z) : result (deque A) :=
  if decide (n < 0)%Z then Raise (ValueError "maxlen must be non-negative")
  else Ok (Deque (lastn (Z.to_nat n) l) (Z.to_nat n)).

(** [d.append(x)]: push on the right, then discard from the left while
    the bound is exceeded. *)
Definition append {A} (d : deque A) (x : A) : deque A :=
  Deque (lastn (maxlen d) (items d ++ [x])) (maxlen d).

(** [d.clear()]. *)
Definition clear {A} (d : deque A) : deque A := Deque [] (maxlen d).

(** [len(d)] and [d[-1]]. *)
Definition len {A} (d : deque A) : nat := length (items d).
Definition peek_last {A} (d : deque A) : option A := last (items d).

(** The slice [l[start:]] of Python, for any integer [start]. *)
Definition slice_from {A} (start : Z) (l : list A) : list A :=
  if decide (start < 0)%Z
  then drop (Z.to_nat (Z.max 0 (Z.of_nat (length l) + start))) l
  else drop (Z.to_nat start) l.

(** [d[key]] on a dict. *)
Definition getitem {V} (d : gmap string V) (key : string) : result V :=
  match d !! key with
  | Some v => Ok v
  | None => Raise (KeyError key)
  end.

(** [sum(l)] and the arithmetic mean of a column ([numpy.mean]). *)
Definition fsum (l : list float) : float := foldr Qcplus 0%Qc l.
Definition mean (l : list float) : float := (fsum l / of_nat (length l))%Qc.

(** [max(a, b)] on floats. *)
Definition fmax (a b : float) : float := if bool_decide (a < b)%Qc then b else a.

(** [s.strip() == ""]: only white space. *)
Definition is_space (a : Ascii.ascii) : bool :=
  let n := Ascii.nat_of_ascii a in
  bool_decide (n = 32 \/ (9 <= n /\ n <= 13) \/ (28 <= n /\ n <= 31)).

Fixpoint is_blank (s : string) : bool :=
  match s with
  | EmptyString => true
  | String a s' => is_space a && is_blank s'
  end.

(** [s.lower()] on ASCII letters and the test [needle in hay]. *)
Definition lower_ascii (a : Ascii.ascii) : Ascii.ascii :=
  let n := Ascii.nat_of_ascii a in
  if bool_decide (65 <= n /\ n <= 90) then Ascii.ascii_of_nat (n + 32) else a.

Fixpoint lower (s : string) : string :=
  match s with
  | EmptyString => EmptyString
  | String a s' => String (lower_ascii a) (lower s')
  end.

Fixpoint contains (needle hay : string) : bool :=
  String.prefix needle hay ||
  match hay with
  | EmptyString => false
  | String _ hay' => contains needle hay'
  end.

(** What awaiting a call to an external service can produce: its
    value, [asyncio.TimeoutError] from [asyncio.wait_for], or an
    exception raised by the transport. *)
Inductive awaited (A : Type) : Type :=
| Returned (a : A)
| TimedOut
| Failed (msg : string).
Arguments Returned {A} a.
Arguments TimedOut {A}.
Arguments Failed {A} msg.

Definition await {A} (w : awaited A) : result A :=
  match w with
  | Returned a => Ok a
  | TimedOut => Raise TimeoutError
  | Failed msg => Raise (Exception msg)
  end.

End Py.


(* ===================================================================== *)
(** ** multi_llm_client.py *)
(* ===================================================================== *)

Module MultiLLM.
Import Py.

(** A chat completion of the OpenAI client: [response.choices], each
    with [message.content] (possibly [None]) and the optional attribute
    [message.reasoning] (read with default [''] by [getattr]). *)
Record Message : Type := { content : option string; reasoning : string }.
Record Completion : Type := { choices : list Message }.

(** The external services.  [lmstudio_chat k] is the outcome of the
    [k]-th chat request of one query ([None] is a falsy response
    object); [claude_messages] yields the texts of the content blocks;
    [gemini_generate] yields [response.text]; [elapsed] is the time a
    query of the named model takes on the wall clock. *)
Record Backends : Type := {
  lmstudio_chat : nat -> awaited (option Completion);
  claude_messages : awaited (list string);
  gemini_generate : awaited string;
  elapsed : string -> float
}.

(** [self.clients], [self.usage_stats], and, as instrumentation, the
    number of requests each service has received. *)
Record Client : Type := {
  clients : gset string;
  enabled_models : list string;
  runtime_enabled_models : gset string;
  usage_stats : gmap string Z;
  sent : gmap string nat
}.

(** [get_active_models]: the models enabled in the configuration and
    not disabled at run time, and those enabled at run time. *)
Definition get_active_models (c : Client) : gset string :=
  let config_enabled : gset string :=
    filter (fun model_name => ("disabled_" +:+ model_name) ∉ runtime_enabled_models c)
           (list_to_set (enabled_models c) : gset string) in
  let runtime : gset string :=
    filter (fun item => String.prefix "disabled_" item = false)
           (runtime_enabled_models c) in
  config_enabled ∪ runtime.

Definition client_of (c : Client) (name : string) : result unit :=
  if decide (name ∈ clients c) then Ok tt else Raise (KeyError name).

(** In the query functions the store is the number of requests sent
    so far to the service being queried. *)
Definition send_request : M nat unit := modify S.

(** The body of one attempt of [_query_lmstudio], after the awaited
    request: response validation and the reasoning fallback. *)
Definition lmstudio_validate (response : option Completion) : result string :=
  match response with
  | None => Raise (Exception "LMStudio returned empty response")
  | Some r =>
      match choices r with
      | [] => Raise (Exception "LMStudio returned empty response")
      | message :: _ =>
          let content := default "" (content message) in
          let reasoning := reasoning message in
          if is_blank content then
            if negb (is_blank reasoning) then Ok reasoning
            else Raise (Exception "LMStudio returned empty content and reasoning")
          else Ok content
      end
  end.

Definition max_retries : Z := 1.

(** The loop [for attempt in range(max_retries)] of [_query_lmstudio];
    [None] is the value of falling off the end of the loop. *)
Fixpoint lmstudio_attempts (chat : nat -> awaited (option Completion))
         (attempts : list nat) : M nat (option string) :=
  match attempts with
  | [] => mret None
  | attempt :: rest =>
      send_request;;
      match rbind (await (chat attempt)) lmstudio_validate with
      | Ok content => mret (Some content)
      | Raise e =>
          if is_TimeoutError e then
            if decide (Z.of_nat attempt < max_retries - 1)%Z
            then lmstudio_attempts chat rest
            else raise (Exception ("LMStudio timeout after " +:+ pretty max_retries
                          +:+ " attempt(s) (45s each - check if model is loaded)"))
          else if is_Exception e then
            if decide (Z.of_nat attempt < max_retries - 1)%Z
            then lmstudio_attempts chat rest
            else raise (Exception ("LMStudio failed after " +:+ pretty max_retries
                          +:+ " attempts: " +:+ str e))
          else raise e
      end
  end.

Definition _query_lmstudio (c : Client) (b : Backends) : M nat (option string) :=
  _ ← lift (client_of c "lmstudio");
  lmstudio_attempts (lmstudio_chat b) (seq 0 (Z.to_nat max_retries)).

(** [_query_claude]: one awaited request, [response.content[0].text]. *)
Definition _query_claude (c : Client) (b : Backends) : M nat (option string) :=
  _ ← lift (client_of c "anthropic");
  try_except
    (send_request;;
     content ← lift (await (claude_messages b));
     match content with
     | [] => raise (IndexError "list index out of range")
     | block :: _ => mret (Some block)
     end)
    (fun e => is_TimeoutError e || is_Exception e)
    (fun e => if is_TimeoutError e
              then raise (Exception "Claude timeout after 30 seconds")
              else raise (Exception ("Claude failed: " +:+ str e))).

(** [_query_gemini]: one request, its time limit set in the client. *)
Definition _query_gemini (c : Client) (b : Backends) : M nat (option string) :=
  _ ← lift (client_of c "gemini");
  try_except
    (send_request;;
     text ← lift (await (gemini_generate b));
     mret (Some text))
    is_Exception
    (fun e => let error_msg := str e in
              if contains "timeout" (lower error_msg) || contains "deadline" (lower error_msg)
              then raise (Exception "Gemini timeout after 60 seconds")
              else raise (Exception ("Gemini failed: " +:+ error_msg))).

(** One entry of the [results] dict. *)
Record ModelResult : Type := {
  analysis : option string;
  response_time : float;
  status : string
}.

(** The [if]/[elif] chain of [query_model]: which query a name runs. *)
Definition query_backend (c : Client) (b : Backends) (model_name : string)
  : M nat (option string) :=
  if decide (model_name = "lmstudio") then _query_lmstudio c b
  else if decide (model_name = "anthropic") then _query_claude c b
  else if decide (model_name = "gemini") then _query_gemini c b
  else mret (Some ("Unknown model: " +:+ model_name)).

(** Run a query against the named service and record its requests. *)
Definition run_query {A} (model_name : string) (q : M nat A) : M Client A :=
  fun c => match q 0 with
           | (r, n) =>
               (r, {| clients := clients c;
                      enabled_models := enabled_models c;
                      runtime_enabled_models := runtime_enabled_models c;
                      usage_stats := usage_stats c;
                      sent := <[model_name := default 0 (sent c !! model_name) + n]> (sent c) |})
           end.

Definition count_usage (model_name : string) : M Client unit :=
  modify (fun c => {| clients := clients c;
                      enabled_models := enabled_models c;
                      runtime_enabled_models := runtime_enabled_models c;
                      usage_stats := <[model_name := (default 0 (usage_stats c !! model_name) + 1)%Z]>
                                       (usage_stats c);
                      sent := sent c |}).

(** The nested coroutine [query_model]. *)
Definition query_model (b : Backends) (model_name : string)
  : M Client (string * ModelResult) :=
  try_except
    (c ← get;
     response ← run_query model_name (query_backend c b model_name);
     count_usage model_name;;
     mret (model_name, {| analysis := response;
                          response_time := elapsed b model_name;
                          status := "success" |}))
    is_Exception
    (fun e => mret (model_name, {| analysis := Some ("Error: " +:+ str e);
                                   response_time := elapsed b model_name;
                                   status := "error" |})).

(** The entry that [query_model] produces for a model, read off the
    outcome of its query. *)
Definition settled (c : Client) (b : Backends) (model_name : string) : ModelResult :=
  match (query_backend c b model_name 0).1 with
  | Ok response => {| analysis := response;
                      response_time := elapsed b model_name;
                      status := "success" |}
  | Raise e => {| analysis := Some ("Error: " +:+ str e);
                  response_time := elapsed b model_name;
                  status := "error" |}
  end.

(** [asyncio.gather] with [return_exceptions=True]: every task is run
    to its end and its value or exception is kept as a result.  The
    tasks share only the counters, so they are run one after another. *)
Fixpoint gather {A} (tasks : list (M Client A)) : M Client (list (result A)) :=
  match tasks with
  | [] => mret []
  | t :: ts => fun c => match t c with
                        | (r, c') => match gather ts c' with
                                     | (rs, c'') => (rbind rs (fun l => Ok (r :: l)), c'')
                                     end
                        end
  end.

(** The loop that collects the gathered results into a dict. *)
Fixpoint collect (model_results : list (result (string * ModelResult)))
         (results : gmap string ModelResult) : gmap string ModelResult :=
  match model_results with
  | [] => results
  | Raise _ :: rest => collect rest results
  | Ok (model_name, model_result) :: rest =>
      collect rest (<[model_name := model_result]> results)
  end.

(** The returned dict: [error] is present only when no model is
    active, [models_queried] only otherwise. *)
Record Bundle : Type := {
  error : option string;
  results : gmap string ModelResult;
  models_queried : list string
}.

(** [get_analysis_from_all_models]. *)
Definition get_analysis_from_all_models (b : Backends) : M Client Bundle :=
  active_models ← gets get_active_models;
  if decide (elements active_models = []) then
    mret {| error := Some "No models enabled"; results := ∅; models_queried := [] |}
  else
    let tasks := map (query_model b) (elements active_models) in
    model_results ← gather tasks;
    mret {| error := None;
            results := collect model_results ∅;
            models_queried := elements active_models |}.

(** One entry of [llm_analyses] and of [performance_summary]. *)
Record Analysis : Type := {
  a_analysis : option string;
  a_response_time : float;
  a_status : string
}.

Record Formatted : Type := {
  llm_analyses : gmap string Analysis
}.

(** [format_comparative_results]; [None] stands for the empty dict the
    caller passes after an overall timeout.  The word count of the
    summary calls [.split()] on the analysis, which raises on [None].
    The comparison text is carried through unchanged and is left out. *)
Definition format_comparative_results (results : option Bundle) : result Formatted :=
  let entries := match results with
                 | Some bundle => map_to_list (MultiLLM.results bundle)
                 | None => []
                 end in
  rbind (rmapM (fun '(model_name, result) =>
                  match analysis result with
                  | Some _ => Ok (model_name, {| a_analysis := analysis result;
                                                 a_response_time := response_time result;
                                                 a_status := status result |})
                  | None => Raise (AttributeError "'NoneType' object has no attribute 'split'")
                  end) entries)
        (fun l => Ok {| llm_analyses := list_to_map l |}).

End MultiLLM.

(* ===================================================================== *)
(** ** independent_llm_manager.py *)
(* ===================================================================== *)

Module Manager.
Import Py.

(** [is_displaying] holds [False], [True] or the string ["frozen"]. *)
Inductive Displaying : Type := DFalse | DTrue | DFrozen.

Definition truthy (d : Displaying) : bool :=
  match d with
  | DFalse => false
  | DTrue | DFrozen => true
  end.

(** The dict returned by [analyze_fault] on the two paths that reach
    the model. *)
Record AnalysisResult : Type := {
  r_model_name : string;
  response : option string;
  analysis_duration : float;
  status : string
}.

(** [IndependentModelManager]; [timers] counts the [_display_timer]
    tasks created and still asleep. *)
Record IndependentModelManager : Type := {
  model_name : string;
  display_duration : float;
  is_analyzing : bool;
  is_displaying : Displaying;
  last_analysis_time : float;
  current_result : option AnalysisResult;
  result_timestamp : option float;
  timers : nat
}.

Definition init (name : string) (duration : float) : IndependentModelManager :=
  {| model_name := name; display_duration := duration;
     is_analyzing := false; is_displaying := DFalse;
     last_analysis_time := 0%Qc; current_result := None;
     result_timestamp := None; timers := 0 |}.

Definition can_accept_request (m : IndependentModelManager) : bool :=
  negb (is_analyzing m || truthy (is_displaying m)).

Definition _get_retry_time (now : float) (m : IndependentModelManager) : float :=
  if is_analyzing m then 0%Qc
  else match is_displaying m, result_timestamp m with
       | (DTrue | DFrozen), Some ts =>
           if bool_decide (ts = 0%Qc) then 0%Qc
           else fmax 0%Qc (display_duration m - (now - ts))%Qc
       | _, _ => 0%Qc
       end.

(** What [analyze_fault] returns. *)
Inductive Reply : Type :=
| Busy (can_retry_after : float)
| Analysed (r : AnalysisResult).

Definition reply_status (r : Reply) : string :=
  match r with
  | Busy _ => "busy"
  | Analysed a => status a
  end.

(** The call of the client made for a model name. *)
Definition query (c : MultiLLM.Client) (b : MultiLLM.Backends) (name : string)
  : result (option string) :=
  if decide (name = "mistral")
  then Raise (AttributeError "'MultiLLMClient' object has no attribute '_query_mistral'")
  else if decide (name = "gemini") then (MultiLLM._query_gemini c b 0).1
  else if decide (name = "lmstudio") then (MultiLLM._query_lmstudio c b 0).1
  else if decide (name = "anthropic") then (MultiLLM._query_claude c b 0).1
  else Raise (ValueError ("Unknown model: " +:+ name)).

(** [analyze_fault] up to its [await]: the busy check, then the
    analysing flag.  [inr] carries the busy reply. *)
Definition analyze_fault_begin (now : float) (m : IndependentModelManager)
  : IndependentModelManager + Reply :=
  if negb (can_accept_request m) then inr (Busy (_get_retry_time now m))
  else inl {| model_name := model_name m; display_duration := display_duration m;
              is_analyzing := true; is_displaying := is_displaying m;
              last_analysis_time := last_analysis_time m;
              current_result := current_result m;
              result_timestamp := result_timestamp m; timers := timers m |}.

(** [analyze_fault] from the value or exception of the awaited query
    to its [return]; [duration] is the measured time and [now] the
    clock at that moment.  [_save_to_md] catches its own exceptions
    and touches only the log file. *)
Definition analyze_fault_resume (outcome : result (option string))
           (duration now : float) (m : IndependentModelManager)
  : result Reply * IndependentModelManager :=
  match outcome with
  | Ok response =>
      let result := {| r_model_name := model_name m; response := response;
                       analysis_duration := duration; status := "success" |} in
      (Ok (Analysed result),
       {| model_name := model_name m; display_duration := display_duration m;
          is_analyzing := false; is_displaying := DTrue;
          last_analysis_time := last_analysis_time m;
          current_result := Some result;
          result_timestamp := Some now; timers := S (timers m) |})
  | Raise e =>
      if is_Exception e then
        let error_result := {| r_model_name := model_name m;
                               response := Some ("Error: " +:+ str e);
                               analysis_duration := 0%Qc; status := "error" |} in
        (Ok (Analysed error_result),
         {| model_name := model_name m; display_duration := display_duration m;
            is_analyzing := false; is_displaying := is_displaying m;
            last_analysis_time := last_analysis_time m;
            current_result := current_result m;
            result_timestamp := result_timestamp m; timers := timers m |})
      else (Raise e, m)
  end.

(** [_display_timer] when its sleep of [display_duration] ends. *)
Definition _display_timer (now : float) (m : IndependentModelManager)
  : IndependentModelManager :=
  {| model_name := model_name m; display_duration := display_duration m;
     is_analyzing := is_analyzing m; is_displaying := DFalse;
     last_analysis_time := now;
     current_result := current_result m;
     result_timestamp := result_timestamp m; timers := pred (timers m) |}.

Definition freeze_display (m : IndependentModelManager) : IndependentModelManager :=
  if truthy (is_displaying m)
  then {| model_name := model_name m; display_duration := display_duration m;
          is_analyzing := is_analyzing m; is_displaying := DFrozen;
          last_analysis_time := last_analysis_time m;
          current_result := current_result m;
          result_timestamp := result_timestamp m; timers := timers m |}
  else m.

Definition unfreeze_display (now : float) (m : IndependentModelManager)
  : IndependentModelManager :=
  match is_displaying m with
  | DFrozen =>
      {| model_name := model_name m; display_duration := display_duration m;
         is_analyzing := is_analyzing m; is_displaying := DFalse;
         last_analysis_time := now;
         current_result := current_result m;
         result_timestamp := result_timestamp m; timers := timers m |}
  | _ => m
  end.

(** The life-cycle state read off the two flags. *)
Inductive Lifecycle : Type := Idle | Analyzing | Displaying_ | Frozen.

Definition lifecycle (m : IndependentModelManager) : Lifecycle :=
  if is_analyzing m then Analyzing
  else match is_displaying m with
       | DFalse => Idle
       | DTrue => Displaying_
       | DFrozen => Frozen
       end.

(** What may happen to a manager while one of its analyses is awaiting
    the model: another request (refused as busy), an operator's freeze
    or unfreeze, or the wake-up of a timer left by an earlier cycle. *)
Inductive Event : Type :=
| EvRequest (now : float)
| EvFreeze
| EvUnfreeze (now : float)
| EvTimer (now : float).

Definition step (ev : Event) (m : IndependentModelManager) : IndependentModelManager :=
  match ev with
  | EvRequest now => match analyze_fault_begin now m with
                     | inl m' => m'
                     | inr _ => m
                     end
  | EvFreeze => freeze_display m
  | EvUnfreeze now => unfreeze_display now m
  | EvTimer now => _display_timer now m
  end.

Definition steps (evs : list Event) (m : IndependentModelManager) : IndependentModelManager :=
  foldl (fun m ev => step ev m) m evs.

End Manager.

(* ===================================================================== *)
(** ** app.py *)
(* ===================================================================== *)

Module App.
Import Py.

Definition FEATURE_COLUMNS : list string :=
  [ "A Feed"; "D Feed"; "E Feed"; "A and C Feed"; "Recycle Flow";
    "Reactor Feed Rate"; "Reactor Pressure"; "Reactor Level"; "Reactor Temperature";
    "Purge Rate"; "Product Sep Temp"; "Product Sep Level"; "Product Sep Pressure";
    "Product Sep Underflow"; "Stripper Level"; "Stripper Pressure"; "Stripper Underflow";
    "Stripper Temp"; "Stripper Steam Flow"; "Compressor Work"; "Reactor Coolant Temp";
    "Separator Coolant Temp";
    "D feed load"; "E feed load"; "A feed load"; "A and C feed load";
    "Compressor recycle valve"; "Purge valve"; "Separator liquid load";
    "Stripper liquid load"; "Stripper steam valve"; "Reactor coolant load";
    "Condenser coolant load" ].

(** *** AnomalyStateTracker (the fields the live path reads) *)

Record AnomalyStateTracker : Type := {
  check_interval : float;
  min_llm_interval : float;
  last_llm_request_time : float;
  is_analyzing : bool
}.

Definition set_check_interval (v : float) (s : AnomalyStateTracker) : AnomalyStateTracker :=
  {| check_interval := v;
     min_llm_interval := min_llm_interval s;
     last_llm_request_time := last_llm_request_time s;
     is_analyzing := is_analyzing s |}.

Definition set_min_llm_interval (v : float) (s : AnomalyStateTracker) : AnomalyStateTracker :=
  {| check_interval := check_interval s;
     min_llm_interval := v;
     last_llm_request_time := last_llm_request_time s;
     is_analyzing := is_analyzing s |}.

Definition set_last_llm_request_time (v : float) (s : AnomalyStateTracker) : AnomalyStateTracker :=
  {| check_interval := check_interval s;
     min_llm_interval := min_llm_interval s;
     last_llm_request_time := v;
     is_analyzing := is_analyzing s |}.

Definition set_is_analyzing (v : bool) (s : AnomalyStateTracker) : AnomalyStateTracker :=
  {| check_interval := check_interval s;
     min_llm_interval := min_llm_interval s;
     last_llm_request_time := last_llm_request_time s;
     is_analyzing := v |}.

Definition tracker_init (check min_llm : float) : AnomalyStateTracker :=
  {| check_interval := check; min_llm_interval := min_llm;
     last_llm_request_time := 0%Qc; is_analyzing := false |}.

(** [f'{x:.1f}']: the number rounded to one decimal, ties to even.
    The digits printed are those of the count of tenths. *)
Definition tenths (x : float) : Z :=
  let y := (x * of_Z 10)%Qc in
  let n := Qnum y in
  let d := Zpos (Qden y) in
  let f := (n / d)%Z in
  let twice := (2 * (n mod d))%Z in
  if decide (twice < d)%Z then f
  else if decide (d < twice)%Z then (f + 1)%Z
  else if Z.even f then f else (f + 1)%Z.

(** The reason text of [can_send_llm_request], by the numbers that it
    interpolates: "Too soon (wait {remaining:.1f}s more, min interval:
    {min_llm_interval}s)" and "OK (last request {time_since_last_llm:.1f}s
    ago)".  A number printed with [.1f] is given in tenths. *)
Inductive Reason : Type :=
| TooSoon (wait_tenths : Z) (min_interval : float)
| SendOK (ago_tenths : Z).

(** [can_send_llm_request]: the flag and the reason. *)
Definition can_send_llm_request (current_time : float) (t : AnomalyStateTracker)
  : bool * Reason :=
  let time_since_last_llm := (current_time - last_llm_request_time t)%Qc in
  if bool_decide (time_since_last_llm < min_llm_interval t)%Qc
  then let remaining := (min_llm_interval t - time_since_last_llm)%Qc in
       (false, TooSoon (tenths remaining) (min_llm_interval t))
  else (true, SendOK (tenths time_since_last_llm)).

Definition mark_llm_request_sent (current_time : float) (t : AnomalyStateTracker)
  : AnomalyStateTracker :=
  set_last_llm_request_time current_time t.

(** *** Live state *)

(** An aggregated row as stored in [live_buffer]: the feature means and
    the keys [t2_stat], [anomaly], [time], [threshold]. *)
Record AggregatedRow : Type := {
  features : gmap string float;
  t2_stat : float;
  anomaly : bool;
  time : Z;
  threshold : float
}.

(** What the closure [background_llm_analysis] captures. *)
Record BackgroundTask : Type := { bt_top_features : list string }.

(** An entry of [_analysis_history]. *)
Record Snapshot : Type := {
  snap_id : Z;
  snap_time : float;
  snap_formatted : MultiLLM.Formatted
}.

(** The module globals of app.py that the live path uses, the client
    and the per-model managers, and the tasks handed to the event loop. *)
Record State : Type := {
  topkfeatures : Z;
  LIVE_WINDOW_SIZE : Z;
  consecutive_anomalies_required : Z;
  decimation_N : Z;
  llm_min_interval_seconds : Z;
  feature_shift_jaccard_threshold : float;
  feature_shift_min_interval_seconds : Z;
  _consecutive_anomalies : Z;
  _last_analysis_result : option MultiLLM.Formatted;
  _last_llm_trigger_time : float;
  _last_llm_top_features : list string;
  _analysis_history : deque Snapshot;
  live_buffer : deque AggregatedRow;
  _recent_raw_rows : deque (gmap string float);
  _aggregated_count : Z;
  anomaly_state_tracker : AnomalyStateTracker;
  multi_llm_client : MultiLLM.Client;
  managers : gmap string Manager.IndependentModelManager;
  loop_tasks : list BackgroundTask
}.

Definition set_topkfeatures (v : Z) (s : State) : State :=
  {| topkfeatures := v;
     LIVE_WINDOW_SIZE := LIVE_WINDOW_SIZE s;
     consecutive_anomalies_required := consecutive_anomalies_required s;
     decimation_N := decimation_N s;
     llm_min_interval_seconds := llm_min_interval_seconds s;
     feature_shift_jaccard_threshold := feature_shift_jaccard_threshold s;
     feature_shift_min_interval_seconds := feature_shift_min_interval_seconds s;
     _consecutive_anomalies := _consecutive_anomalies s;
     _last_analysis_result := _last_analysis_result s;
     _last_llm_trigger_time := _last_llm_trigger_time s;
     _last_llm_top_features := _last_llm_top_features s;
     _analysis_history := _analysis_history s;
     live_buffer := live_buffer s;
     _recent_raw_rows := _recent_raw_rows s;
     _aggregated_count := _aggregated_count s;
     anomaly_state_tracker := anomaly_state_tracker s;
     multi_llm_client := multi_llm_client s;
     managers := managers s;
     loop_tasks := loop_tasks s |}.

Definition set_LIVE_WINDOW_SIZE (v : Z) (s : State) : State :=
  {| topkfeatures := topkfeatures s;
     LIVE_WINDOW_SIZE := v;
     consecutive_anomalies_required := consecutive_anomalies_required s;
     decimation_N := decimation_N s;
     llm_min_interval_seconds := llm_min_interval_seconds s;
     feature_shift_jaccard_threshold := feature_shift_jaccard_threshold s;
     feature_shift_min_interval_seconds := feature_shift_min_interval_seconds s;
     _consecutive_anomalies := _consecutive_anomalies s;
     _last_analysis_result := _last_analysis_result s;
     _last_llm_trigger_time := _last_llm_trigger_time s;
     _last_llm_top_features := _last_llm_top_features s;
     _analysis_history := _analysis_history s;
     live_buffer := live_buffer s;
     _recent_raw_rows := _recent_raw_rows s;
     _aggregated_count := _aggregated_count s;
     anomaly_state_tracker := anomaly_state_tracker s;
     multi_llm_client := multi_llm_client s;
     managers := managers s;
     loop_tasks := loop_tasks s |}.

Definition set_consecutive_anomalies_required (v : Z) (s : State) : State :=
  {| topkfeatures := topkfeatures s;
     LIVE_WINDOW_SIZE := LIVE_WINDOW_SIZE s;
     consecutive_anomalies_required := v;
     decimation_N := decimation_N s;
     llm_min_interval_seconds := llm_min_interval_seconds s;
     feature_shift_jaccard_threshold := feature_shift_jaccard_threshold s;
     feature_shift_min_interval_seconds := feature_shift_min_interval_seconds s;
     _consecutive_anomalies := _consecutive_anomalies s;
     _last_analysis_result := _last_analysis_result s;
     _last_llm_trigger_time := _last_llm_trigger_time s;
     _last_llm_top_features := _last_llm_top_features s;
     _analysis_history := _analysis_history s;
     live_buffer := live_buffer s;
     _recent_raw_rows := _recent_raw_rows s;
     _aggregated_count := _aggregated_count s;
     anomaly_state_tracker := anomaly_state_tracker s;
     multi_llm_client := multi_llm_client s;
     managers := managers s;
     loop_tasks := loop_tasks s |}.

Definition set_decimation_N (v : Z) (s : State) : State :=
  {| topkfeatures := topkfeatures s;
     LIVE_WINDOW_SIZE := LIVE_WINDOW_SIZE s;
     consecutive_anomalies_required := consecutive_anomalies_required s;
     decimation_N := v;
     llm_min_interval_seconds := llm_min_interval_seconds s;
     feature_shift_jaccard_threshold := feature_shift_jaccard_threshold s;
     feature_shift_min_interval_seconds := feature_shift_min_interval_seconds s;
     _consecutive_anomalies := _consecutive_anomalies s;
     _last_analysis_result := _last_analysis_result s;
     _last_llm_trigger_time := _last_llm_trigger_time s;
     _last_llm_top_features := _last_llm_top_features s;
     _analysis_history := _analysis_history s;
     live_buffer := live_buffer s;
     _recent_raw_rows := _recent_raw_rows s;
     _aggregated_count := _aggregated_count s;
     anomaly_state_tracker := anomaly_state_tracker s;
     multi_llm_client := multi_llm_client s;
     managers := managers s;
     loop_tasks := loop_tasks s |}.

Definition set_llm_min_interval_seconds (v : Z) (s : State) : State :=
  {| topkfeatures := topkfeatures s;
     LIVE_WINDOW_SIZE := LIVE_WINDOW_SIZE s;
     consecutive_anomalies_required := consecutive_anomalies_required s;
     decimation_N := decimation_N s;
     llm_min_interval_seconds := v;
     feature_shift_jaccard_threshold := feature_shift_jaccard_threshold s;
     feature_shift_min_interval_seconds := feature_shift_min_interval_seconds s;
     _consecutive_anomalies := _consecutive_anomalies s;
     _last_analysis_result := _last_analysis_result s;
     _last_llm_trigger_time := _last_llm_trigger_time s;
     _last_llm_top_features := _last_llm_top_features s;
     _analysis_history := _analysis_history s;
     live_buffer := live_buffer s;
     _recent_raw_rows := _recent_raw_rows s;
     _aggregated_count := _aggregated_count s;
     anomaly_state_tracker := anomaly_state_tracker s;
     multi_llm_client := multi_llm_client s;
     managers := managers s;
     loop_tasks := loop_tasks s |}.

Definition set_feature_shift_jaccard_threshold (v : float) (s : State) : State :=
  {| topkfeatures := topkfeatures s;
     LIVE_WINDOW_SIZE := LIVE_WINDOW_SIZE s;
     consecutive_anomalies_required := consecutive_anomalies_required s;
     decimation_N := decimation_N s;
     llm_min_interval_seconds := llm_min_interval_seconds s;
     feature_shift_jaccard_threshold := v;
     feature_shift_min_interval_seconds := feature_shift_min_interval_seconds s;
     _consecutive_anomalies := _consecutive_anomalies s;
     _last_analysis_result := _last_analysis_result s;
     _last_llm_trigger_time := _last_llm_trigger_time s;
     _last_llm_top_features := _last_llm_top_features s;
     _analysis_history := _analysis_history s;
     live_buffer := live_buffer s;
     _recent_raw_rows := _recent_raw_rows s;
     _aggregated_count := _aggregated_count s;
     anomaly_state_tracker := anomaly_state_tracker s;
     multi_llm_client := multi_llm_client s;
     managers := managers s;
     loop_tasks := loop_tasks s |}.

Definition set_feature_shift_min_interval_seconds (v : Z) (s : State) : State :=
  {| topkfeatures := topkfeatures s;
     LIVE_WINDOW_SIZE := LIVE_WINDOW_SIZE s;
     consecutive_anomalies_required := consecutive_anomalies_required s;
     decimation_N := decimation_N s;
     llm_min_interval_seconds := llm_min_interval_seconds s;
     feature_shift_jaccard_threshold := feature_shift_jaccard_threshold s;
     feature_shift_min_interval_seconds := v;
     _consecutive_anomalies := _consecutive_anomalies s;
     _last_analysis_result := _last_analysis_result s;
     _last_llm_trigger_time := _last_llm_trigger_time s;
     _last_llm_top_features := _last_llm_top_features s;
     _analysis_history := _analysis_history s;
     live_buffer := live_buffer s;
     _recent_raw_rows := _recent_raw_rows s;
     _aggregated_count := _aggregated_count s;
     anomaly_state_tracker := anomaly_state_tracker s;
     multi_llm_client := multi_llm_client s;
     managers := managers s;
     loop_tasks := loop_tasks s |}.

Definition set__consecutive_anomalies (v : Z) (s : State) : State :=
  {| topkfeatures := topkfeatures s;
     LIVE_WINDOW_SIZE := LIVE_WINDOW_SIZE s;
     consecutive_anomalies_required := consecutive_anomalies_required s;
     decimation_N := decimation_N s;
     llm_min_interval_seconds := llm_min_interval_seconds s;
     feature_shift_jaccard_threshold := feature_shift_jaccard_threshold s;
     feature_shift_min_interval_seconds := feature_shift_min_interval_seconds s;
     _consecutive_anomalies := v;
     _last_analysis_result := _last_analysis_result s;
     _last_llm_trigger_time := _last_llm_trigger_time s;
     _last_llm_top_features := _last_llm_top_features s;
     _analysis_history := _analysis_history s;
     live_buffer := live_buffer s;
     _recent_raw_rows := _recent_raw_rows s;
     _aggregated_count := _aggregated_count s;
     anomaly_state_tracker := anomaly_state_tracker s;
     multi_llm_client := multi_llm_client s;
     managers := managers s;
     loop_tasks := loop_tasks s |}.

Definition set__last_analysis_result (v : option MultiLLM.Formatted) (s : State) : State :=
  {| topkfeatures := topkfeatures s;
     LIVE_WINDOW_SIZE := LIVE_WINDOW_SIZE s;
     consecutive_anomalies_required := consecutive_anomalies_required s;
     decimation_N := decimation_N s;
     llm_min_interval_seconds := llm_min_interval_seconds s;
     feature_shift_jaccard_threshold := feature_shift_jaccard_threshold s;
     feature_shift_min_interval_seconds := feature_shift_min_interval_seconds s;
     _consecutive_anomalies := _consecutive_anomalies s;
     _last_analysis_result := v;
     _last_llm_trigger_time := _last_llm_trigger_time s;
     _last_llm_top_features := _last_llm_top_features s;
     _analysis_history := _analysis_history s;
     live_buffer := live_buffer s;
     _recent_raw_rows := _recent_raw_rows s;
     _aggregated_count := _aggregated_count s;
     anomaly_state_tracker := anomaly_state_tracker s;
     multi_llm_client := multi_llm_client s;
     managers := managers s;
     loop_tasks := loop_tasks s |}.

Definition set__last_llm_trigger_time (v : float) (s : State) : State :=
  {| topkfeatures := topkfeatures s;
     LIVE_WINDOW_SIZE := LIVE_WINDOW_SIZE s;
     consecutive_anomalies_required := consecutive_anomalies_required s;
     decimation_N := decimation_N s;
     llm_min_interval_seconds := llm_min_interval_seconds s;
     feature_shift_jaccard_threshold := feature_shift_jaccard_threshold s;
     feature_shift_min_interval_seconds := feature_shift_min_interval_seconds s;
     _consecutive_anomalies := _consecutive_anomalies s;
     _last_analysis_result := _last_analysis_result s;
     _last_llm_trigger_time := v;
     _last_llm_top_features := _last_llm_top_features s;
     _analysis_history := _analysis_history s;
     live_buffer := live_buffer s;
     _recent_raw_rows := _recent_raw_rows s;
     _aggregated_count := _aggregated_count s;
     anomaly_state_tracker := anomaly_state_tracker s;
     multi_llm_client := multi_llm_client s;
     managers := managers s;
     loop_tasks := loop_tasks s |}.

Definition set__last_llm_top_features (v : list string) (s : State) : State :=
  {| topkfeatures := topkfeatures s;
     LIVE_WINDOW_SIZE := LIVE_WINDOW_SIZE s;
     consecutive_anomalies_required := consecutive_anomalies_required s;
     decimation_N := decimation_N s;
     llm_min_interval_seconds := llm_min_interval_seconds s;
     feature_shift_jaccard_threshold := feature_shift_jaccard_threshold s;
     feature_shift_min_interval_seconds := feature_shift_min_interval_seconds s;
     _consecutive_anomalies := _consecutive_anomalies s;
     _last_analysis_result := _last_analysis_result s;
     _last_llm_trigger_time := _last_llm_trigger_time s;
     _last_llm_top_features := v;
     _analysis_history := _analysis_history s;
     live_buffer := live_buffer s;
     _recent_raw_rows := _recent_raw_rows s;
     _aggregated_count := _aggregated_count s;
     anomaly_state_tracker := anomaly_state_tracker s;
     multi_llm_client := multi_llm_client s;
     managers := managers s;
     loop_tasks := loop_tasks s |}.

Definition set__analysis_history (v : deque Snapshot) (s : State) : State :=
  {| topkfeatures := topkfeatures s;
     LIVE_WINDOW_SIZE := LIVE_WINDOW_SIZE s;
     consecutive_anomalies_required := consecutive_anomalies_required s;
     decimation_N := decimation_N s;
     llm_min_interval_seconds := llm_min_interval_seconds s;
     feature_shift_jaccard_threshold := feature_shift_jaccard_threshold s;
     feature_shift_min_interval_seconds := feature_shift_min_interval_seconds s;
     _consecutive_anomalies := _consecutive_anomalies s;
     _last_analysis_result := _last_analysis_result s;
     _last_llm_trigger_time := _last_llm_trigger_time s;
     _last_llm_top_features := _last_llm_top_features s;
     _analysis_history := v;
     live_buffer := live_buffer s;
     _recent_raw_rows := _recent_raw_rows s;
     _aggregated_count := _aggregated_count s;
     anomaly_state_tracker := anomaly_state_tracker s;
     multi_llm_client := multi_llm_client s;
     managers := managers s;
     loop_tasks := loop_tasks s |}.

Definition set_live_buffer (v : deque AggregatedRow) (s : State) : State :=
  {| topkfeatures := topkfeatures s;
     LIVE_WINDOW_SIZE := LIVE_WINDOW_SIZE s;
     consecutive_anomalies_required := consecutive_anomalies_required s;
     decimation_N := decimation_N s;
     llm_min_interval_seconds := llm_min_interval_seconds s;
     feature_shift_jaccard_threshold := feature_shift_jaccard_threshold s;
     feature_shift_min_interval_seconds := feature_shift_min_interval_seconds s;
     _consecutive_anomalies := _consecutive_anomalies s;
     _last_analysis_result := _last_analysis_result s;
     _last_llm_trigger_time := _last_llm_trigger_time s;
     _last_llm_top_features := _last_llm_top_features s;
     _analysis_history := _analysis_history s;
     live_buffer := v;
     _recent_raw_rows := _recent_raw_rows s;
     _aggregated_count := _aggregated_count s;
     anomaly_state_tracker := anomaly_state_tracker s;
     multi_llm_client := multi_llm_client s;
     managers := managers s;
     loop_tasks := loop_tasks s |}.

Definition set__recent_raw_rows (v : deque (gmap string float)) (s : State) : State :=
  {| topkfeatures := topkfeatures s;
     LIVE_WINDOW_SIZE := LIVE_WINDOW_SIZE s;
     consecutive_anomalies_required := consecutive_anomalies_required s;
     decimation_N := decimation_N s;
     llm_min_interval_seconds := llm_min_interval_seconds s;
     feature_shift_jaccard_threshold := feature_shift_jaccard_threshold s;
     feature_shift_min_interval_seconds := feature_shift_min_interval_seconds s;
     _consecutive_anomalies := _consecutive_anomalies s;
     _last_analysis_result := _last_analysis_result s;
     _last_llm_trigger_time := _last_llm_trigger_time s;
     _last_llm_top_features := _last_llm_top_features s;
     _analysis_history := _analysis_history s;
     live_buffer := live_buffer s;
     _recent_raw_rows := v;
     _aggregated_count := _aggregated_count s;
     anomaly_state_tracker := anomaly_state_tracker s;
     multi_llm_client := multi_llm_client s;
     managers := managers s;
     loop_tasks := loop_tasks s |}.

Definition set__aggregated_count (v : Z) (s : State) : State :=
  {| topkfeatures := topkfeatures s;
     LIVE_WINDOW_SIZE := LIVE_WINDOW_SIZE s;
     consecutive_anomalies_required := consecutive_anomalies_required s;
     decimation_N := decimation_N s;
     llm_min_interval_seconds := llm_min_interval_seconds s;
     feature_shift_jaccard_threshold := feature_shift_jaccard_threshold s;
     feature_shift_min_interval_seconds := feature_shift_min_interval_seconds s;
     _consecutive_anomalies := _consecutive_anomalies s;
     _last_analysis_result := _last_analysis_result s;
     _last_llm_trigger_time := _last_llm_trigger_time s;
     _last_llm_top_features := _last_llm_top_features s;
     _analysis_history := _analysis_history s;
     live_buffer := live_buffer s;
     _recent_raw_rows := _recent_raw_rows s;
     _aggregated_count := v;
     anomaly_state_tracker := anomaly_state_tracker s;
     multi_llm_client := multi_llm_client s;
     managers := managers s;
     loop_tasks := loop_tasks s |}.

Definition set_anomaly_state_tracker (v : AnomalyStateTracker) (s : State) : State :=
  {| topkfeatures := topkfeatures s;
     LIVE_WINDOW_SIZE := LIVE_WINDOW_SIZE s;
     consecutive_anomalies_required := consecutive_anomalies_required s;
     decimation_N := decimation_N s;
     llm_min_interval_seconds := llm_min_interval_seconds s;
     feature_shift_jaccard_threshold := feature_shift_jaccard_threshold s;
     feature_shift_min_interval_seconds := feature_shift_min_interval_seconds s;
     _consecutive_anomalies := _consecutive_anomalies s;
     _last_analysis_result := _last_analysis_result s;
     _last_llm_trigger_time := _last_llm_trigger_time s;
     _last_llm_top_features := _last_llm_top_features s;
     _analysis_history := _analysis_history s;
     live_buffer := live_buffer s;
     _recent_raw_rows := _recent_raw_rows s;
     _aggregated_count := _aggregated_count s;
     anomaly_state_tracker := v;
     multi_llm_client := multi_llm_client s;
     managers := managers s;
     loop_tasks := loop_tasks s |}.

Definition set_multi_llm_client (v : MultiLLM.Client) (s : State) : State :=
  {| topkfeatures := topkfeatures s;
     LIVE_WINDOW_SIZE := LIVE_WINDOW_SIZE s;
     consecutive_anomalies_required := consecutive_anomalies_required s;
     decimation_N := decimation_N s;
     llm_min_interval_seconds := llm_min_interval_seconds s;
     feature_shift_jaccard_threshold := feature_shift_jaccard_threshold s;
     feature_shift_min_interval_seconds := feature_shift_min_interval_seconds s;
     _consecutive_anomalies := _consecutive_anomalies s;
     _last_analysis_result := _last_analysis_result s;
     _last_llm_trigger_time := _last_llm_trigger_time s;
     _last_llm_top_features := _last_llm_top_features s;
     _analysis_history := _analysis_history s;
     live_buffer := live_buffer s;
     _recent_raw_rows := _recent_raw_rows s;
     _aggregated_count := _aggregated_count s;
     anomaly_state_tracker := anomaly_state_tracker s;
     multi_llm_client := v;
     managers := managers s;
     loop_tasks := loop_tasks s |}.

Definition set_managers (v : gmap string Manager.IndependentModelManager) (s : State) : State :=
  {| topkfeatures := topkfeatures s;
     LIVE_WINDOW_SIZE := LIVE_WINDOW_SIZE s;
     consecutive_anomalies_required := consecutive_anomalies_required s;
     decimation_N := decimation_N s;
     llm_min_interval_seconds := llm_min_interval_seconds s;
     feature_shift_jaccard_threshold := feature_shift_jaccard_threshold s;
     feature_shift_min_interval_seconds := feature_shift_min_interval_seconds s;
     _consecutive_anomalies := _consecutive_anomalies s;
     _last_analysis_result := _last_analysis_result s;
     _last_llm_trigger_time := _last_llm_trigger_time s;
     _last_llm_top_features := _last_llm_top_features s;
     _analysis_history := _analysis_history s;
     live_buffer := live_buffer s;
     _recent_raw_rows := _recent_raw_rows s;
     _aggregated_count := _aggregated_count s;
     anomaly_state_tracker := anomaly_state_tracker s;
     multi_llm_client := multi_llm_client s;
     managers := v;
     loop_tasks := loop_tasks s |}.

Definition set_loop_tasks (v : list BackgroundTask) (s : State) : State :=
  {| topkfeatures := topkfeatures s;
     LIVE_WINDOW_SIZE := LIVE_WINDOW_SIZE s;
     consecutive_anomalies_required := consecutive_anomalies_required s;
     decimation_N := decimation_N s;
     llm_min_interval_seconds := llm_min_interval_seconds s;
     feature_shift_jaccard_threshold := feature_shift_jaccard_threshold s;
     feature_shift_min_interval_seconds := feature_shift_min_interval_seconds s;
     _consecutive_anomalies := _consecutive_anomalies s;
     _last_analysis_result := _last_analysis_result s;
     _last_llm_trigger_time := _last_llm_trigger_time s;
     _last_llm_top_features := _last_llm_top_features s;
     _analysis_history := _analysis_history s;
     live_buffer := live_buffer s;
     _recent_raw_rows := _recent_raw_rows s;
     _aggregated_count := _aggregated_count s;
     anomaly_state_tracker := anomaly_state_tracker s;
     multi_llm_client := multi_llm_client s;
     managers := managers s;
     loop_tasks := v |}.

(** The answer of the PCA detector for one aggregated row:
    [pca_model.process_data_point] and [pca_model.t2_threshold]. *)
Record Verdict : Type := { v_t2 : float; v_is_anom : bool; v_threshold : float }.

(** *** Responses of [/ingest] *)

Inductive LlmStatus : Type :=
| analyzing_in_progress
| rate_limited (reason : Reason)
| triggered (top_features : list string)
| not_triggered.

Record IngestResult : Type := {
  res_t2_stat : float;
  res_anomaly : bool;
  res_threshold : float;
  res_consecutive_anomalies : Z;
  res_aggregated_index : Z;
  res_llm : LlmStatus
}.

Inductive Ack : Type :=
| Ignored (present : list string)
| Aggregating (have : nat) (need : Z)
| Processed (r : IngestResult).

(** *** Aggregation *)

(** [arr.mean(axis=0)]: the mean of every column of a row-major array. *)
Definition mean_axis0 (arr : list (list float)) : list float :=
  map (fun j => mean (map (fun r => default 0%Qc (r !! j)) arr))
      (seq 0 (length (default [] (head arr)))).

(** The aggregated row of the buffered raw rows. *)
Definition aggregate (rows : list (gmap string float)) : result (gmap string float) :=
  rbind (rmapM (fun r => rmapM (getitem r) FEATURE_COLUMNS) rows)
        (fun arr => Ok (list_to_map (zip FEATURE_COLUMNS (mean_axis0 arr)))).

(** *** Top contributing features *)

(** Insertion into a list sorted by decreasing value; equal values keep
    their order of arrival. *)
Fixpoint insert_desc (x : string * float) (l : list (string * float))
  : list (string * float) :=
  match l with
  | [] => [x]
  | y :: l' => if bool_decide (y.2 < x.2)%Qc then x :: y :: l'
               else y :: insert_desc x l'
  end.

Definition sort_values_desc (l : list (string * float)) : list (string * float) :=
  foldr insert_desc [] l.

(** The absolute deviation of the last row from the buffer mean, per
    feature column. *)
Definition deltas (buf : list AggregatedRow) : list (string * float) :=
  match last buf with
  | None => []
  | Some last_row =>
      map (fun c => (c, Qcabs (default 0%Qc (features last_row !! c)
                               - mean (map (fun r => default 0%Qc (features r !! c)) buf))%Qc))
          FEATURE_COLUMNS
  end.

Definition top_features_of (topk : Z) (buf : list AggregatedRow) : list string :=
  take (Z.to_nat topk) (map fst (sort_values_desc (deltas buf))).

(** *** The [/ingest] handler *)

(** Line 803 reads the name [now]; [ingest_live_point] never binds it
    and the module has no global of that name. *)
Definition read_now : M State float := raise (NameError "now").

(** Lines 602-615, decimation: the raw row joins [_recent_raw_rows];
    once [max(1, decimation_N)] rows are there, their mean is the new
    aggregated row and the accumulator is cleared.  [None]: still
    aggregating. *)
Definition aggregate_step (raw_row : gmap string float)
  : M State (option (gmap string float)) :=
  modify (fun s => set__recent_raw_rows (append (_recent_raw_rows s) raw_row) s);;
  s ← get;
  if decide (Z.of_nat (len (_recent_raw_rows s)) < Z.max 1 (decimation_N s))%Z
  then mret None
  else
    row ← lift (aggregate (items (_recent_raw_rows s)));
    modify (fun s => set__recent_raw_rows (clear (_recent_raw_rows s)) s);;
    modify (fun s => set__aggregated_count (_aggregated_count s + 1)%Z s);;
    mret (Some row).

(** Lines 617-641: the row with the detector's verdict enters
    [live_buffer], the run of consecutive anomalies is counted, and the
    [result] dict is built (all of it but its key [llm]). *)
Definition score_step (row : gmap string float) (v : Verdict)
  : M State (LlmStatus -> IngestResult) :=
  let t2 := v_t2 v in
  let is_anom := v_is_anom v in
  s ← get;
  let row_with_stats :=
    {| features := row; t2_stat := t2; anomaly := is_anom;
       time := _aggregated_count s; threshold := v_threshold v |} in
  modify (fun s => set_live_buffer (append (live_buffer s) row_with_stats) s);;
  modify (fun s => set__consecutive_anomalies
                     (if is_anom then (_consecutive_anomalies s + 1)%Z else 0%Z) s);;
  s ← get;
  mret (fun llm =>
          {| res_t2_stat := t2; res_anomaly := is_anom; res_threshold := v_threshold v;
             res_consecutive_anomalies := _consecutive_anomalies s;
             res_aggregated_index := _aggregated_count s;
             res_llm := llm |}).

(** The condition of line 648, with [enough_context] of line 645. *)
Definition gate_open (is_anom : bool) (s : State) : bool :=
  let enough_context :=
    bool_decide (Z.max 5 (Z.quot (LIVE_WINDOW_SIZE s) 2) ≤ Z.of_nat (len (live_buffer s)))%Z in
  is_anom
  && bool_decide (Z.max 1 (consecutive_anomalies_required s) ≤ _consecutive_anomalies s)%Z
  && enough_context.

(** Lines 643-806: the gate of the LLM trigger; its value is the key
    [llm] of the result. *)
Definition gate_step (v : Verdict) (current_time : float) : M State LlmStatus :=
  s ← get;
  if gate_open (v_is_anom v) s
  then
    if is_analyzing (anomaly_state_tracker s)
    then mret analyzing_in_progress
    else
      match can_send_llm_request current_time (anomaly_state_tracker s) with
      | (false, interval_reason) => mret (rate_limited interval_reason)
      | (true, _) =>
          let top_features := top_features_of (topkfeatures s) (items (live_buffer s)) in
          modify (fun s => set_loop_tasks
                             (loop_tasks s ++ [ {| bt_top_features := top_features |} ]) s);;
          modify (set__consecutive_anomalies 0%Z);;
          now ← read_now;
          modify (set__last_llm_trigger_time now);;
          modify (set__last_llm_top_features top_features);;
          mret (triggered top_features)
      end
  else mret not_triggered.

(** Line 597: the entries of the data point under a required feature. *)
Definition raw_row_of (data_point : gmap string float) : gmap string float :=
  filter (fun kv => kv.1 ∈ FEATURE_COLUMNS) data_point.

Definition ingest_body (data_point : gmap string float) (v : Verdict)
           (current_time : float) : M State Ack :=
  let raw_row := raw_row_of data_point in
  if decide (size raw_row ≠ length FEATURE_COLUMNS)
  then mret (Ignored (map fst (map_to_list raw_row)))
  else
    emitted ← aggregate_step raw_row;
    match emitted with
    | None =>
        s ← get;
        mret (Aggregating (len (_recent_raw_rows s)) (decimation_N s))
    | Some row =>
        result ← score_step row v;
        llm ← gate_step v current_time;
        mret (Processed (result llm))
    end.

(** [ingest_live_point]: the body under [try] / [except Exception]. *)
Definition ingest_live_point (data_point : gmap string float) (v : Verdict)
           (current_time : float) : M State Ack :=
  try_except (ingest_body data_point v current_time)
             is_Exception
             (fun e => raise (HTTPException 500 (str e))).

(** One request to [/ingest]: the posted data point, the detector's
    answer should the request complete an aggregated row, and the clock. *)
Record Request : Type := {
  data_point : gmap string float;
  verdict : Verdict;
  clock : float
}.

(** The state after a sequence of requests, and the responses. *)
Definition ingest_all (reqs : list Request) (s : State) : State :=
  foldl (fun s r => (ingest_live_point (data_point r) (verdict r) (clock r) s).2) s reqs.

Fixpoint responses (reqs : list Request) (s : State) : list (result Ack) :=
  match reqs with
  | [] => []
  | r :: reqs' =>
      let out := ingest_live_point (data_point r) (verdict r) (clock r) s in
      out.1 :: responses reqs' out.2
  end.

(** *** The background analysis task *)

(** How the awaited dispatch, bounded by [asyncio.wait_for] at 180 s,
    ends: it returns, the bound expires, or the task is cancelled. *)
Inductive Waited : Type := Completed | OverallTimeout | Cancelled.

(** What the outside world does during one cycle: the end of the
    awaited dispatch, the services, the exceptions of the Markdown saver
    (per model) and of the history files, and the clock at the end. *)
Record Cycle : Type := {
  waited : Waited;
  backends : MultiLLM.Backends;
  save_raises : string -> option exn;
  history_raises : option exn;
  finished_at : float
}.

(** Run a computation of the client on [multi_llm_client]. *)
Definition on_client {A} (m : M MultiLLM.Client A) : M State A :=
  fun s => match m (multi_llm_client s) with
           | (r, c) => (r, set_multi_llm_client c s)
           end.

(** File output: raises what the outside world says, changes nothing. *)
Definition io (raises : option exn) : M State unit :=
  match raises with
  | Some e => raise e
  | None => mret tt
  end.

(** [int(x)] on a float: truncation. *)
Definition int_of_float (x : float) : Z := Z.quot (Qnum x) (Zpos (Qden x)).

(** [await asyncio.wait_for(get_analysis_from_all_models(...), 180)].
    The counters of a dispatch cut short are left as they were. *)
Definition dispatch (cy : Cycle) : M State MultiLLM.Bundle :=
  match waited cy with
  | Completed => on_client (MultiLLM.get_analysis_from_all_models (backends cy))
  | OverallTimeout => raise TimeoutError
  | Cancelled => raise CancelledError
  end.

(** The loop over [llm_analyses] that saves each successful analysis
    and refreshes the manager of its model. *)
Fixpoint save_loop (task : BackgroundTask) (cy : Cycle)
         (entries : list (string * MultiLLM.Analysis)) : M State unit :=
  match entries with
  | [] => mret tt
  | (model_name, analysis_data) :: rest =>
      (if decide (MultiLLM.a_status analysis_data = "success") then
         io (save_raises cy model_name);;
         modify (fun s =>
           match managers s !! model_name with
           | Some manager =>
               let corrected_data :=
                 {| Manager.r_model_name := model_name;
                    Manager.response :=
                      Some (default "No response available" (MultiLLM.a_analysis analysis_data));
                    Manager.analysis_duration := MultiLLM.a_response_time analysis_data;
                    Manager.status := MultiLLM.a_status analysis_data |} in
               set_managers
                 (<[model_name :=
                      {| Manager.model_name := Manager.model_name manager;
                         Manager.display_duration := Manager.display_duration manager;
                         Manager.is_analyzing := Manager.is_analyzing manager;
                         Manager.is_displaying := Manager.is_displaying manager;
                         Manager.last_analysis_time := Manager.last_analysis_time manager;
                         Manager.current_result := Some corrected_data;
                         Manager.result_timestamp := Some (finished_at cy);
                         Manager.timers := Manager.timers manager |}]> (managers s)) s
           | None => s
           end)
       else mret tt);;
      save_loop task cy rest
  end.

(** The first statements of the task, up to its [await]. *)
Definition bg_prologue (start_time : float) : M State unit :=
  modify (fun s => set_anomaly_state_tracker
                     (mark_llm_request_sent start_time
                        (set_is_analyzing true (anomaly_state_tracker s))) s).

(** The task from its [await] to the end of the [try] block. *)
Definition bg_analysis (task : BackgroundTask) (cy : Cycle) : M State unit :=
  llm_results ← try_except (bundle ← dispatch cy; mret (Some bundle))
                           is_TimeoutError
                           (fun _ => mret None);
  formatted ← lift (MultiLLM.format_comparative_results llm_results);
  try_except (save_loop task cy (map_to_list (MultiLLM.llm_analyses formatted)))
             is_Exception
             (fun _ => mret tt);;
  modify (set__last_analysis_result (Some formatted));;
  now ← read_now;
  let snap := {| snap_id := int_of_float (finished_at cy * of_Z 1000)%Qc;
                 snap_time := now;
                 snap_formatted := formatted |} in
  modify (fun s => set__analysis_history (append (_analysis_history s) snap) s);;
  try_except (io (history_raises cy)) is_Exception (fun _ => mret tt).

(** The [except asyncio.TimeoutError], [except Exception] and
    [finally] clauses around the task body. *)
Definition bg_guard (body : M State unit) : M State unit :=
  try_finally
    (try_except body (fun e => is_TimeoutError e || is_Exception e) (fun _ => mret tt))
    (modify (fun s => if is_analyzing (anomaly_state_tracker s)
                      then set_anomaly_state_tracker
                             (set_is_analyzing false (anomaly_state_tracker s)) s
                      else s)).

(** [background_llm_analysis], run from start to end. *)
Definition background_llm_analysis (task : BackgroundTask) (start_time : float)
           (cy : Cycle) : M State unit :=
  bg_guard (bg_prologue start_time;; bg_analysis task cy).

(** The same task in two steps: until it awaits the dispatch, and from
    the answer of the dispatch to its end. *)
Definition bg_begin (start_time : float) (s : State) : State :=
  (bg_prologue start_time s).2.

Definition bg_resume (task : BackgroundTask) (cy : Cycle) : M State unit :=
  bg_guard (bg_analysis task cy).

(** *** The [/stream] generator *)

(** The frames a subscriber receives: [data: <row as JSON>]. *)
Inductive Frame : Type := Data (row : AggregatedRow).

(** One turn of the [while True] loop of [event_generator], between
    two sleeps of one second; the local [last_time_seen] is the
    subscriber's state. *)
Definition event_generator_turn (buf : deque AggregatedRow) (last_time_seen : option Z)
  : list Frame * option Z :=
  match peek_last buf with
  | Some row =>
      let current_time_val := time row in
      if decide (Some current_time_val ≠ last_time_seen)
      then ([Data row], Some current_time_val)
      else ([], last_time_seen)
  | None => ([], last_time_seen)
  end.

(** What a subscriber's generator goes through: the ingest handler
    appends an aggregated row to [live_buffer], or the generator takes a
    turn of its loop. *)
Inductive StreamAction : Type :=
| Push (row : AggregatedRow)
| Turn.

(** The frames sent to the subscriber over a sequence of actions. *)
Fixpoint stream (actions : list StreamAction) (buf : deque AggregatedRow)
         (last_time_seen : option Z) : list Frame :=
  match actions with
  | [] => []
  | Push row :: rest => stream rest (append buf row) last_time_seen
  | Turn :: rest =>
      let out := event_generator_turn buf last_time_seen in
      out.1 ++ stream rest buf out.2
  end.

Definition frame_time (f : Frame) : Z :=
  match f with Data row => time row end.

(** *** The [/config/runtime] handler *)

(** The payload: each key present or not, numbers already parsed. *)
Record Payload : Type := {
  p_pca_window_size : option Z;
  p_fault_trigger_consecutive_step : option Z;
  p_decimation_N : option Z;
  p_llm_min_interval_seconds : option Z;
  p_feature_shift_jaccard_threshold : option float;
  p_feature_shift_min_interval_seconds : option Z
}.

Definition when {A} (o : option A) (k : A -> M State unit) : M State unit :=
  match o with
  | Some a => k a
  | None => mret tt
  end.

Definition update_runtime_config (payload : Payload) : M State unit :=
  when (p_pca_window_size payload) (fun w =>
    modify (set_LIVE_WINDOW_SIZE w);;
    s ← get;
    let prev := items (live_buffer s) in
    d ← lift (deque_new (slice_from (- LIVE_WINDOW_SIZE s) prev) (LIVE_WINDOW_SIZE s));
    modify (set_live_buffer d));;
  when (p_fault_trigger_consecutive_step payload) (fun n =>
    modify (set_consecutive_anomalies_required n));;
  when (p_decimation_N payload) (fun n =>
    modify (set_decimation_N (Z.max 1 n));;
    s ← get;
    let prev_raw := items (_recent_raw_rows s) in
    let start := if decide (1 < decimation_N s)%Z then (- decimation_N s + 1)%Z else 0%Z in
    d ← lift (deque_new (slice_from start prev_raw) (decimation_N s));
    modify (set__recent_raw_rows d));;
  when (p_llm_min_interval_seconds payload) (fun n =>
    modify (set_llm_min_interval_seconds (Z.max 0 n));;
    modify (fun s => set_anomaly_state_tracker
                       (set_min_llm_interval (of_Z (llm_min_interval_seconds s))
                          (anomaly_state_tracker s)) s));;
  when (p_feature_shift_jaccard_threshold payload) (fun x =>
    modify (set_feature_shift_jaccard_threshold x));;
  when (p_feature_shift_min_interval_seconds payload) (fun n =>
    modify (set_feature_shift_min_interval_seconds n)).

(** *** Start-up *)

(** The keys of config.json read by the live path; [None] is an absent
    key with a default. *)
Record Config : Type := {
  cfg_fault_trigger_consecutive_step : Z;
  cfg_topkfeatures : Z;
  cfg_pca_window_size : option Z;
  cfg_decimation_N : option Z;
  cfg_llm_min_interval_seconds : option float;
  cfg_feature_shift_jaccard_threshold : option float;
  cfg_feature_shift_min_interval_seconds : option Z
}.

(** The checks of [load_config] on these keys. *)
Definition load_config (cfg : Config) : result Config :=
  if decide (cfg_fault_trigger_consecutive_step cfg < 1)%Z
  then Raise (ValueError "Invalid fault_trigger_consecutive_step")
  else if decide (1 ≤ cfg_topkfeatures cfg ≤ 20)%Z then Ok cfg
  else Raise (ValueError "Invalid topkfeatures").

(** The module-level initialisation of the live state. *)
Definition startup (cfg : Config) (client : MultiLLM.Client)
           (mgrs : gmap string Manager.IndependentModelManager) : result State :=
  rbind (load_config cfg) (fun config =>
  let window := default 20%Z (cfg_pca_window_size config) in
  let n := default 1%Z (cfg_decimation_N config) in
  rbind (deque_new [] window) (fun live =>
  rbind (deque_new [] n) (fun raw =>
  Ok {| topkfeatures := cfg_topkfeatures config;
        LIVE_WINDOW_SIZE := window;
        consecutive_anomalies_required := cfg_fault_trigger_consecutive_step config;
        decimation_N := n;
        llm_min_interval_seconds :=
          int_of_float (default (of_Z 10) (cfg_llm_min_interval_seconds config));
        feature_shift_jaccard_threshold :=
          default (Q2Qc (6 # 10)) (cfg_feature_shift_jaccard_threshold config);
        feature_shift_min_interval_seconds :=
          default 120%Z (cfg_feature_shift_min_interval_seconds config);
        _consecutive_anomalies := 0;
        _last_analysis_result := None;
        _last_llm_trigger_time := 0%Qc;
        _last_llm_top_features := [];
        _analysis_history := Deque [] 6;
        live_buffer := live;
        _recent_raw_rows := raw;
        _aggregated_count := 0;
        anomaly_state_tracker :=
          tracker_init (of_Z 5) (default (of_Z 30) (cfg_llm_min_interval_seconds config));
        multi_llm_client := client;
        managers := mgrs;
        loop_tasks := [] |}))).

(** *** The service as a whole *)

(** What happens to the service, one thing at a time: a request to
    [/ingest]; the event loop starting the oldest created task, which
    runs to its [await]; an awaiting task resuming and running to its
    end; a request to [/config/runtime]. *)
Inductive Event : Type :=
| Ingest (r : Request)
| StartTask (start_time : float)
| ResumeTask (task : BackgroundTask) (cy : Cycle)
| Reconfigure (payload : Payload).

Definition step (ev : Event) (s : State) : State :=
  match ev with
  | Ingest r => (ingest_live_point (data_point r) (verdict r) (clock r) s).2
  | StartTask start_time =>
      match loop_tasks s with
      | [] => s
      | _ :: rest => bg_begin start_time (set_loop_tasks rest s)
      end
  | ResumeTask task cy => (bg_resume task cy s).2
  | Reconfigure payload => (update_runtime_config payload s).2
  end.

Definition run (evs : list Event) (s : State) : State :=
  foldl (fun s ev => step ev s) s evs.

End App.

(* ===================================================================== *)
(** ** Notions of the specification *)
(* ===================================================================== *)

(** Definitions that follow the words of the specification where the
    source has no function of its own to compare with. *)
Module Spec.
Import Py.

(** An empty or invalid response of a service (sections 4.3 and 6):
    no response object, no choice or content block, or only blank text. *)
Definition empty_completion (r : option MultiLLM.Completion) : bool :=
  match r with
  | None => true
  | Some completion =>
      match MultiLLM.choices completion with
      | [] => true
      | message :: _ =>
          is_blank (default "" (MultiLLM.content message))
          && is_blank (MultiLLM.reasoning message)
      end
  end.

(** A backend call failure: timeout, transport error, or empty
    response, for each of the three services. *)
Definition call_fails (b : MultiLLM.Backends) (model_name : string) : bool :=
  if decide (model_name = "lmstudio") then
    match MultiLLM.lmstudio_chat b 0 with
    | TimedOut | Failed _ => true
    | Returned r => empty_completion r
    end
  else if decide (model_name = "anthropic") then
    match MultiLLM.claude_messages b with
    | TimedOut | Failed _ => true
    | Returned blocks => match blocks with
                         | [] => true
                         | text :: _ => is_blank text
                         end
    end
  else if decide (model_name = "gemini") then
    match MultiLLM.gemini_generate b with
    | TimedOut | Failed _ => true
    | Returned text => is_blank text
    end
  else false.

(** A feature-complete raw row (section 4.1): every required feature
    has a value. *)
Definition feature_complete (row : gmap string float) : Prop :=
  ∀ c, c ∈ App.FEATURE_COLUMNS -> is_Some (row !! c).

(** The groups of [n] consecutive rows of a sequence: the [k]-th group
    holds the rows [k*n .. k*n + n - 1]; an incomplete tail is no group. *)
Definition groups {A} (n : nat) (l : list A) : list (list A) :=
  map (fun k => take n (drop (k * n) l)) (seq 0 (length l / n)).

(** [agg] is the per-feature arithmetic mean of the [n] rows of a group:
    for every feature, the sum of its values divided by [n]. *)
Definition is_mean_of (n : nat) (agg : gmap string float)
           (group : list (gmap string float)) : Prop :=
  ∀ c, agg !! c =
       if decide (c ∈ App.FEATURE_COLUMNS)
       then Some (fsum (map (fun row => default 0%Qc (row !! c)) group) / of_nat n)%Qc
       else None.

(** Jaccard similarity of two sets of feature names (section 4.2,
    step 4): the size of the intersection over the size of the union. *)
Definition jaccard (a b : list string) : float :=
  let sa : gset string := list_to_set a in
  let sb : gset string := list_to_set b in
  (of_nat (size (sa ∩ sb)) / of_nat (size (sa ∪ sb)))%Qc.

End Spec.

(* ===================================================================== *)
(** ** Intermediate states of one request *)
(* ===================================================================== *)

(** Names for the states a request to [/ingest] goes through, used to
    state what the handler does on each of its paths. *)
Module Path.
Import Py App.

(** After line 603: the raw row has joined the accumulator. *)
Definition accumulated (raw_row : gmap string float) (s : State) : State :=
  set__recent_raw_rows (append (_recent_raw_rows s) raw_row) s.

(** After line 632: the accumulator is cleared, the aggregated row
    [row] with the verdict [v] is in [live_buffer], the aggregated count
    and the run of consecutive anomalies are updated. *)
Definition scored (row : gmap string float) (v : Verdict) (s1 : State) : State :=
  let s2 := set__aggregated_count (_aggregated_count s1 + 1)%Z
              (set__recent_raw_rows (clear (_recent_raw_rows s1)) s1) in
  set__consecutive_anomalies
    (if v_is_anom v then (_consecutive_anomalies s2 + 1)%Z else 0%Z)
    (set_live_buffer
       (append (live_buffer s2)
          {| features := row; t2_stat := v_t2 v; anomaly := v_is_anom v;
             time := _aggregated_count s2; threshold := v_threshold v |}) s2).

(** After line 802: the background task is created and the run of
    consecutive anomalies is reset. *)
Definition task_created (s : State) : State :=
  set__consecutive_anomalies 0%Z
    (set_loop_tasks
       (loop_tasks s ++
          [ {| bt_top_features := top_features_of (topkfeatures s) (items (live_buffer s)) |} ])
       s).

(** The part of the state that a request only reads. *)
Definition same_settings (s s' : State) : Prop :=
  topkfeatures s' = topkfeatures s
  ∧ LIVE_WINDOW_SIZE s' = LIVE_WINDOW_SIZE s
  ∧ consecutive_anomalies_required s' = consecutive_anomalies_required s
  ∧ decimation_N s' = decimation_N s
  ∧ anomaly_state_tracker s' = anomaly_state_tracker s
  ∧ maxlen (live_buffer s') = maxlen (live_buffer s)
  ∧ maxlen (_recent_raw_rows s') = maxlen (_recent_raw_rows s).

(** The window and its capacity agree: the deque is within its bound,
    and the bound is [LIVE_WINDOW_SIZE]. *)
Definition window_ok (s : State) : Prop :=
  (len (live_buffer s) ≤ maxlen (live_buffer s))%nat
  ∧ Z.of_nat (maxlen (live_buffer s)) = LIVE_WINDOW_SIZE s.

(** A computation that leaves the window and its capacity alone. *)
Definition keeps_window {A} (m : M State A) : Prop :=
  ∀ s, live_buffer (m s).2 = live_buffer s
       ∧ LIVE_WINDOW_SIZE (m s).2 = LIVE_WINDOW_SIZE s.

(** A reconfiguration whose window size, when present, is a capacity. *)
Definition window_size_valid (ev : Event) : Prop :=
  match ev with
  | Reconfigure payload =>
      match p_pca_window_size payload with
      | Some w => (0 ≤ w)%Z
      | None => True
      end
  | _ => True
  end.

(** The rows pushed by a sequence of actions carry strictly increasing
    sequence indices, all above [hi]. *)
Fixpoint ascending (hi : Z) (actions : list StreamAction) : Prop :=
  match actions with
  | [] => True
  | Turn :: rest => ascending hi rest
  | Push row :: rest => (hi < time row)%Z ∧ ascending (time row) rest
  end.

(** One turn of the generator after every new row. *)
Definition one_turn_per_row (rows : list AggregatedRow) : list StreamAction :=
  concat (map (fun row => [Push row; Turn]) rows).

End Path.

(* ===================================================================== *)
(** ** Concrete configurations used in the examples *)
(* ===================================================================== *)

Module Scenario.
Import Py.

(** A client with the three services configured and enabled. *)
Definition client0 : MultiLLM.Client :=
  {| MultiLLM.clients := {[ "lmstudio"; "anthropic"; "gemini" ]};
     MultiLLM.enabled_models := ["lmstudio"; "anthropic"; "gemini"];
     MultiLLM.runtime_enabled_models := ∅;
     MultiLLM.usage_stats := ∅;
     MultiLLM.sent := ∅ |}.

(** Fault injection: every service times out. *)
Definition all_timeout : MultiLLM.Backends :=
  {| MultiLLM.lmstudio_chat := fun _ => TimedOut;
     MultiLLM.claude_messages := TimedOut;
     MultiLLM.gemini_generate := Failed "504 Deadline Exceeded";
     MultiLLM.elapsed := fun _ => of_Z 45 |}.

(** Every service answers. *)
Definition all_answer : MultiLLM.Backends :=
  {| MultiLLM.lmstudio_chat := fun _ =>
       Returned (Some {| MultiLLM.choices :=
                           [ {| MultiLLM.content := Some "feed loss";
                                MultiLLM.reasoning := "" |} ] |});
     MultiLLM.claude_messages := Returned ["valve stuck"];
     MultiLLM.gemini_generate := Returned "cooling failure";
     MultiLLM.elapsed := fun _ => of_Z 3 |}.

(** The hosted services answer, Gemini with an empty text. *)
Definition gemini_empty : MultiLLM.Backends :=
  {| MultiLLM.lmstudio_chat := MultiLLM.lmstudio_chat all_answer;
     MultiLLM.claude_messages := MultiLLM.claude_messages all_answer;
     MultiLLM.gemini_generate := Returned "";
     MultiLLM.elapsed := MultiLLM.elapsed all_answer |}.

(** The manager of one model, as [IndependentLLMSystem] creates it. *)
Definition manager0 : Manager.IndependentModelManager := Manager.init "gemini" (of_Z 7).

(** A data point with the value [base] under every feature, but for
    the listed ones. *)
Definition point (base : Z) (others : list (string * Z)) : gmap string float :=
  list_to_map (map (fun kv => (kv.1, of_Z kv.2)) others
               ++ map (fun c => (c, of_Z base)) App.FEATURE_COLUMNS).

(** The detector flags the row. *)
Definition anomalous : App.Verdict :=
  {| App.v_t2 := of_Z 50; App.v_is_anom := true; App.v_threshold := of_Z 20 |}.

Definition request (dp : gmap string float) (t : Z) : App.Request :=
  {| App.data_point := dp; App.verdict := anomalous; App.clock := of_Z t |}.

(** A configuration in the manner of section 8: three consecutive
    anomalies required, a window of ten rows, the two top features, no
    decimation, thirty seconds between analyses. *)
Definition config : App.Config :=
  {| App.cfg_fault_trigger_consecutive_step := 3;
     App.cfg_topkfeatures := 2;
     App.cfg_pca_window_size := Some 10%Z;
     App.cfg_decimation_N := None;
     App.cfg_llm_min_interval_seconds := Some (of_Z 30);
     App.cfg_feature_shift_jaccard_threshold := None;
     App.cfg_feature_shift_min_interval_seconds := None |}.

Definition boot : result App.State :=
  App.startup config client0 {[ "gemini" := manager0 ]}.

Definition state0 : App.State := from_ok boot eq_refl.

(** Rows 1-4 are anomalous and flat; row 5 is anomalous with the
    reactor temperature and pressure away from the window mean. *)
Definition first_rows : list App.Request :=
  [ request (point 10 []) 1001; request (point 10 []) 1002;
    request (point 10 []) 1003; request (point 10 []) 1004 ].

Definition row5 : App.Request :=
  request (point 10 [("Reactor Temperature", 20%Z); ("Reactor Pressure", 18%Z)]) 1005.

(** One complete analysis cycle in which every service times out. *)
Definition cycle_all_timeout : App.Cycle :=
  {| App.waited := App.Completed;
     App.backends := all_timeout;
     App.save_raises := fun _ => None;
     App.history_raises := None;
     App.finished_at := of_Z 1006 |}.

(** Rows 6-7 are anomalous and flat; row 8, three seconds after the
    analysis started, is anomalous with the reactor feed rate and level
    away from the window mean. *)
Definition next_rows : list App.Request :=
  [ request (point 10 []) 1006; request (point 10 []) 1007 ].

Definition row8 : App.Request :=
  request (point 10 [("Reactor Feed Rate", 30%Z); ("Reactor Level", 25%Z)]) 1008.

(** The service after row 5 (the first trigger), after the analysis it
    started has run from 1005 to its end, and after rows 6-7. *)
Definition state5 : App.State := App.ingest_all (first_rows ++ [row5]) state0.

Definition state6 : App.State :=
  App.run [ App.StartTask (of_Z 1005);
            App.ResumeTask
              {| App.bt_top_features := ["Reactor Temperature"; "Reactor Pressure"] |}
              cycle_all_timeout ] state5.

Definition state7 : App.State := App.ingest_all next_rows state6.

(** The service reconfigured to average the raw rows in pairs, and
    five raw rows for it. *)
Definition pairs : App.Payload :=
  {| App.p_pca_window_size := None;
     App.p_fault_trigger_consecutive_step := None;
     App.p_decimation_N := Some 2%Z;
     App.p_llm_min_interval_seconds := None;
     App.p_feature_shift_jaccard_threshold := None;
     App.p_feature_shift_min_interval_seconds := None |}.

Definition state_pairs : App.State := App.run [App.Reconfigure pairs] state0.

Definition five_raw_rows : list App.Request :=
  [ request (point 10 []) 2001; request (point 20 []) 2002;
    request (point 30 [("Reactor Level", 50%Z)]) 2003; request (point 40 []) 2004;
    request (point 50 []) 2005 ].

(** Shrinking the window to three rows. *)
Definition shrink : App.Payload :=
  {| App.p_pca_window_size := Some 3%Z;
     App.p_fault_trigger_consecutive_step := None;
     App.p_decimation_N := None;
     App.p_llm_min_interval_seconds := None;
     App.p_feature_shift_jaccard_threshold := None;
     App.p_feature_shift_min_interval_seconds := None |}.

(** A request to [/config/runtime] with a negative window size, and
    one with negative values for the two sibling settings. *)
Definition negative_window : App.Payload :=
  {| App.p_pca_window_size := Some (-1)%Z;
     App.p_fault_trigger_consecutive_step := None;
     App.p_decimation_N := None;
     App.p_llm_min_interval_seconds := None;
     App.p_feature_shift_jaccard_threshold := None;
     App.p_feature_shift_min_interval_seconds := None |}.

Definition negative_siblings : App.Payload :=
  {| App.p_pca_window_size := None;
     App.p_fault_trigger_consecutive_step := None;
     App.p_decimation_N := Some (-1)%Z;
     App.p_llm_min_interval_seconds := Some (-1)%Z;
     App.p_feature_shift_jaccard_threshold := None;
     App.p_feature_shift_min_interval_seconds := None |}.

(** Aggregated rows with the sequence indices 1 to 5, and an empty
    window of ten rows. *)
Definition numbered (t : Z) : App.AggregatedRow :=
  {| App.features := ∅; App.t2_stat := of_Z 1; App.anomaly := false;
     App.time := t; App.threshold := of_Z 20 |}.

Definition five_rows : list App.AggregatedRow :=
  [ numbered 1; numbered 2; numbered 3; numbered 4; numbered 5 ].

Definition empty_window : deque App.AggregatedRow := Deque [] 10.

End Scenario.


(* ===================================================================== *)
(** ** The callers of [/ingest] *)
(* ===================================================================== *)

(** The two programs that post data points to [/ingest]:
    tep_faultexplainer_bridge.py ([TEPFaultExplainerBridge]) and
    unified_console.py ([TEPDataBridge]).  A simulation record is a dict
    from column names to numbers. *)
Module Bridge.
Import Py.

(** [TEPFaultExplainerBridge.variable_mapping]. *)
Definition variable_mapping : list (string * string) :=
  [ ("XMEAS_1", "A Feed"); ("XMEAS_2", "D Feed"); ("XMEAS_3", "E Feed");
    ("XMEAS_4", "A and C Feed"); ("XMEAS_5", "Recycle Flow");
    ("XMEAS_6", "Reactor Feed Rate"); ("XMEAS_7", "Reactor Pressure");
    ("XMEAS_8", "Reactor Level"); ("XMEAS_9", "Reactor Temperature");
    ("XMEAS_10", "Purge Rate"); ("XMEAS_11", "Product Sep Temp");
    ("XMEAS_12", "Product Sep Level"); ("XMEAS_13", "Product Sep Pressure");
    ("XMEAS_14", "Product Sep Underflow"); ("XMEAS_15", "Stripper Level");
    ("XMEAS_16", "Stripper Pressure"); ("XMEAS_17", "Stripper Underflow");
    ("XMEAS_18", "Stripper Temp"); ("XMEAS_19", "Stripper Steam Flow");
    ("XMEAS_20", "Compressor Work"); ("XMEAS_21", "Reactor Coolant Temp");
    ("XMEAS_22", "Separator Coolant Temp") ].

(** [map_tep_to_faultexplainer]; [now] is [time.time()]. *)
Definition map_tep_to_faultexplainer (now : float) (tep_data : gmap string float)
  : gmap string float :=
  let has_xmeas := existsb (String.prefix "XMEAS_") (map fst (map_to_list tep_data)) in
  let mapped_data : gmap string float :=
    if has_xmeas then
      foldl (fun mapped_data '(tep_name, fe_name) =>
               match tep_data !! tep_name with
               | Some value => <[fe_name := value]> mapped_data
               | None => mapped_data
               end) ∅ variable_mapping
    else
      foldl (fun mapped_data fe_name =>
               match tep_data !! fe_name with
               | Some value => <[fe_name := value]> mapped_data
               | None => mapped_data
               end) ∅ (map snd variable_mapping) in
  let mapped_data := <["timestamp" := default now (tep_data !! "timestamp")]> mapped_data in
  <["step" := default (default 0%Qc (tep_data !! "time")) (tep_data !! "step")]> mapped_data.

(** The [data_point] that [process_data_point] posts to [/ingest]. *)
Definition process_data_point (now : float) (tep_data : gmap string float)
  : gmap string float :=
  let mapped_data := map_tep_to_faultexplainer now tep_data in
  filter (fun kv => kv.1 ∈ map snd variable_mapping) mapped_data.

(** [TEPDataBridge.map_to_faultexplainer_features] of unified_console.py:
    its two tables and the row it builds. *)
Definition xmeas_to_name : list (Z * string) :=
  [ (1, "A Feed"); (2, "D Feed"); (3, "E Feed"); (4, "A and C Feed"); (5, "Recycle Flow");
    (6, "Reactor Feed Rate"); (7, "Reactor Pressure"); (8, "Reactor Level");
    (9, "Reactor Temperature"); (10, "Purge Rate"); (11, "Product Sep Temp");
    (12, "Product Sep Level"); (13, "Product Sep Pressure"); (14, "Product Sep Underflow");
    (15, "Stripper Level"); (16, "Stripper Pressure"); (17, "Stripper Underflow");
    (18, "Stripper Temp"); (19, "Stripper Steam Flow"); (20, "Compressor Work");
    (21, "Reactor Coolant Temp"); (22, "Separator Coolant Temp");
    (23, "Component A to Reactor"); (24, "Component B to Reactor");
    (25, "Component C to Reactor"); (26, "Component D to Reactor");
    (27, "Component E to Reactor"); (28, "Component F to Reactor");
    (29, "Component A in Purge"); (30, "Component B in Purge");
    (31, "Component C in Purge"); (32, "Component D in Purge");
    (33, "Component E in Purge"); (34, "Component F in Purge");
    (35, "Component G in Purge"); (36, "Component H in Purge");
    (37, "Component D in Product"); (38, "Component E in Product");
    (39, "Component F in Product"); (40, "Component G in Product");
    (41, "Component H in Product") ]%Z.

Definition xmv_to_name : list (Z * string) :=
  [ (1, "D feed load"); (2, "E feed load"); (3, "A feed load"); (4, "A and C feed load");
    (5, "Compressor recycle valve"); (6, "Purge valve"); (7, "Separator liquid load");
    (8, "Stripper liquid load"); (9, "Stripper steam valve"); (10, "Reactor coolant load");
    (11, "Condenser coolant load") ]%Z.

Definition map_to_faultexplainer_features (data_point : gmap string float)
  : gmap string float :=
  let row : gmap string float :=
    foldl (fun row '(i, name) =>
             <[name := default 0%Qc (data_point !! ("XMEAS_" +:+ pretty i))]> row)
          ∅ xmeas_to_name in
  foldl (fun row '(i, name) =>
           <[name := default 0%Qc (data_point !! ("XMV_" +:+ pretty i))]> row)
        row xmv_to_name.

End Bridge.


(* ===================================================================== *)
(** ** Invariants of the live pipeline *)
(* ===================================================================== *)

(** Predicates on the state of the service that the handlers keep, and
    the state a reconfiguration leaves behind. *)
Module Inv.
Import Py App.

(** What the background analysis task never writes: the settings of
    the pipeline, its two buffers and its counters. *)
Definition pipeline (s : State) :=
  (LIVE_WINDOW_SIZE s, decimation_N s, llm_min_interval_seconds s,
   min_llm_interval (anomaly_state_tracker s), live_buffer s, _recent_raw_rows s,
   _aggregated_count s, _consecutive_anomalies s, loop_tasks s).

(** The state after [update_runtime_config] has run to its end, key by
    key in the order of the handler. *)
Definition reconfigured (payload : Payload) (s : State) : State :=
  let s1 := match p_pca_window_size payload with
            | Some w =>
                set_live_buffer
                  (Deque (lastn (Z.to_nat w) (slice_from (- w) (items (live_buffer s))))
                     (Z.to_nat w))
                  (set_LIVE_WINDOW_SIZE w s)
            | None => s
            end in
  let s2 := match p_fault_trigger_consecutive_step payload with
            | Some n => set_consecutive_anomalies_required n s1
            | None => s1
            end in
  let s3 := match p_decimation_N payload with
            | Some n =>
                let N := Z.max 1 n in
                let start := if decide (1 < N)%Z then (- N + 1)%Z else 0%Z in
                set__recent_raw_rows
                  (Deque (lastn (Z.to_nat N) (slice_from start (items (_recent_raw_rows s2))))
                     (Z.to_nat N))
                  (set_decimation_N N s2)
            | None => s2
            end in
  let s4 := match p_llm_min_interval_seconds payload with
            | Some n =>
                set_anomaly_state_tracker
                  (set_min_llm_interval (of_Z (Z.max 0 n)) (anomaly_state_tracker s3))
                  (set_llm_min_interval_seconds (Z.max 0 n) s3)
            | None => s3
            end in
  let s5 := match p_feature_shift_jaccard_threshold payload with
            | Some x => set_feature_shift_jaccard_threshold x s4
            | None => s4
            end in
  match p_feature_shift_min_interval_seconds payload with
  | Some n => set_feature_shift_min_interval_seconds n s5
  | None => s5
  end.

(** The rows of the window carry strictly increasing sequence indices,
    between 1 and [_aggregated_count], and the newest row carries
    [_aggregated_count] itself. *)
Definition indices_ok (s : State) : Prop :=
  StronglySorted Z.lt (map time (items (live_buffer s)))
  ∧ Forall (fun row => (1 ≤ time row ≤ _aggregated_count s)%Z) (items (live_buffer s))
  ∧ (0 ≤ _aggregated_count s)%Z
  ∧ ∀ row, peek_last (live_buffer s) = Some row -> time row = _aggregated_count s.





End Inv.


Module Examples.
Import Py.

(** A configuration whose decimation size is zero. *)
Definition config_zero : App.Config :=
  {| App.cfg_fault_trigger_consecutive_step := 3;
     App.cfg_topkfeatures := 2;
     App.cfg_pca_window_size := Some 10%Z;
     App.cfg_decimation_N := Some 0%Z;
     App.cfg_llm_min_interval_seconds := Some (of_Z 30);
     App.cfg_feature_shift_jaccard_threshold := None;
     App.cfg_feature_shift_min_interval_seconds := None |}.

Definition boot_zero : result App.State :=
  App.startup config_zero Scenario.client0 {[ "gemini" := Scenario.manager0 ]}.

Definition state_zero : App.State := from_ok boot_zero eq_refl.


End Examples.


(* ===================================================================== *)
(** ** app.py: the other users of the rate limiter *)
(* ===================================================================== *)

Module Limiter.
Import Py App.

(** The reply of [/reset_lmstudio] on its normal path. *)
Record ResetReply : Type := {
  rr_status : string;
  rr_rate_limit_cleared : bool;
  rr_min_llm_interval : float
}.

(** [reset_lmstudio]: the time of the last request is set back to 0.
    Nothing in its [try] block can raise. *)
Definition reset_lmstudio : M State ResetReply :=
  modify (fun s => set_anomaly_state_tracker
                     (set_last_llm_request_time 0%Qc (anomaly_state_tracker s)) s);;
  s ← get;
  mret {| rr_status := "success";
          rr_rate_limit_cleared := true;
          rr_min_llm_interval := min_llm_interval (anomaly_state_tracker s) |}.

(** The first statements of [explain] (lines 1730-1743): the request
    is refused with status 429 inside the interval, with the reason of
    the limiter and its whole interval as [retry_after], and marks the
    limiter otherwise.  The clock is read once by the check and once
    more by the mark. *)
Inductive Admission : Type :=
| Refused (status_code : Z) (reason : Reason) (retry_after : float)
| Passed.

Definition explain_admission (checked_at marked_at : float) : M State Admission :=
  s ← get;
  match can_send_llm_request checked_at (anomaly_state_tracker s) with
  | (false, reason) =>
      mret (Refused 429 reason (min_llm_interval (anomaly_state_tracker s)))
  | (true, _) =>
      modify (fun s => set_anomaly_state_tracker
                         (mark_llm_request_sent marked_at (anomaly_state_tracker s)) s);;
      mret Passed
  end.

End Limiter.


(* ===================================================================== *)
(** ** app.py: detection of a change of the anomaly state *)
(* ===================================================================== *)

(** [AnomalyStateTracker.has_state_changed] with [_compute_state_hash],
    and the handler of [/check_anomaly_change] that calls it. *)
Module Change.
Import Py.

(** The order of [sorted] on strings: lexicographic by character code. *)
Definition str_le (a b : string) : Prop := String.leb a b = true.

#[export] Instance str_le_dec (a b : string) : Decision (str_le a b).
Proof. unfold str_le. apply _. Defined.

Definition sorted (l : list string) : list string := merge_sort str_le l.

(** [sep.join(parts)]. *)
Fixpoint join (sep : string) (parts : list string) : string :=
  match parts with
  | [] => ""
  | [p] => p
  | p :: rest => p +:+ sep +:+ join sep rest
  end.

(** [min] and [max] of a non-empty list of floats. *)
Definition fmin (a b : float) : float := if bool_decide (b < a)%Qc then b else a.

Definition min_list (l : list float) : float :=
  match l with
  | [] => 0%Qc
  | x :: l' => foldl fmin x l'
  end.

Definition max_list (l : list float) : float :=
  match l with
  | [] => 0%Qc
  | x :: l' => foldl fmax x l'
  end.

(** The summary of a series in [state_repr['data_summary']]. *)
Record Summary : Type := { s_mean : float; s_min : float; s_max : float }.

(** [state_repr]. *)
Record StateRepr : Type := {
  r_features : list string;
  r_feature_count : nat;
  r_data_summary : gmap string Summary
}.

(** The fields of [AnomalyStateTracker] used by the change detection. *)
Record Tracker : Type := {
  check_interval : float;
  last_state_hash : option string;
  last_check_time : float;
  last_anomaly_features : list string;
  last_anomaly_data : gmap string (list float)
}.

(** [AnomalyStateTracker(check_interval=...)], before any check. *)
Definition tracker_init (check : float) : Tracker :=
  {| check_interval := check; last_state_hash := None; last_check_time := 0%Qc;
     last_anomaly_features := []; last_anomaly_data := ∅ |}.

(** What [has_state_changed] answers: the flag and the reason, the
    seconds in place of their text in the two "No change" reasons. *)
Inductive Reason : Type :=
| FirstDetection
| StateChanged (text : string)
| NoChangeSkipping (time_since_last : float)
| NoChangeRecent (time_since_last : float).

Section Hashing.

(** [round(x, ndigits)], and the MD5 digest of the JSON text of a
    state (the dump is made with [sort_keys=True], so it depends on the
    mapping only). *)
Variable round : float -> Z -> float.
Variable digest : StateRepr -> string.

Definition summary_of (values : list float) : Summary :=
  let recent_values :=
    if decide (5 ≤ length values)%nat then slice_from (-5) values else values in
  {| s_mean := round (fsum recent_values / of_nat (length recent_values))%Qc 4;
     s_min := round (min_list recent_values) 4;
     s_max := round (max_list recent_values) 4 |}.

Definition _compute_state_hash (anomaly_features : list string)
           (anomaly_data : gmap string (list float)) : string :=
  let sorted_features := sorted anomaly_features in
  let data_summary :=
    foldl (fun summary feature =>
             match anomaly_data !! feature with
             | Some values =>
                 if decide (0 < length values)%nat
                 then <[feature := summary_of values]> summary
                 else summary
             | None => summary
             end) ∅ sorted_features in
  digest {| r_features := sorted_features;
            r_feature_count := length sorted_features;
            r_data_summary := data_summary |}.

(** The text of the reason when the hash differs. *)
Definition change_reason (anomaly_features last : list string) : string :=
  let new_features : gset string := list_to_set anomaly_features ∖ list_to_set last in
  let removed_features : gset string := list_to_set last ∖ list_to_set anomaly_features in
  let reason_parts :=
    (if decide (elements new_features = []) then []
     else ["New anomalies: " +:+ join ", " (sorted (elements new_features))])
    ++ (if decide (elements removed_features = []) then []
        else ["Resolved: " +:+ join ", " (sorted (elements removed_features))]) in
  let reason_parts :=
    if decide (elements new_features = [] ∧ elements removed_features = [])
    then reason_parts ++ ["Anomaly values changed significantly"]
    else reason_parts in
  join "; " reason_parts.

Definition has_state_changed (current_time : float) (anomaly_features : list string)
           (anomaly_data : gmap string (list float)) (t : Tracker)
  : (bool * Reason) * Tracker :=
  let current_hash := _compute_state_hash anomaly_features anomaly_data in
  let updated := {| check_interval := check_interval t;
                    last_state_hash := Some current_hash;
                    last_check_time := current_time;
                    last_anomaly_features := anomaly_features;
                    last_anomaly_data := anomaly_data |} in
  match last_state_hash t with
  | None => ((true, FirstDetection), updated)
  | Some last_hash =>
      let time_since_last := (current_time - last_check_time t)%Qc in
      if decide (current_hash ≠ last_hash)
      then ((true, StateChanged (change_reason anomaly_features (last_anomaly_features t))),
            updated)
      else if bool_decide (check_interval t ≤ time_since_last)%Qc
      then ((false, NoChangeSkipping time_since_last), t)
      else ((false, NoChangeRecent time_since_last), t)
  end.

(** The dict returned by [check_anomaly_change] on its normal path. *)
Record ChangeReply : Type := {
  should_analyze : bool;
  reason : Reason;
  reply_last_check_time : float;
  time_since_last : float;
  current_anomaly_count : nat;
  previous_anomaly_count : nat
}.

(** The loop of [check_anomaly_change] over the items of the request's
    dict: the features with a non-empty series are the anomaly features. *)
Definition collect_anomalies (data : list (string * list float))
  : list string * gmap string (list float) :=
  foldl (fun '(anomaly_features, anomaly_data) '(feature, values) =>
           if decide (0 < length values)%nat
           then (anomaly_features ++ [feature], <[feature := values]> anomaly_data)
           else (anomaly_features, anomaly_data))
        ([], ∅) data.

(** [check_anomaly_change]; nothing in its [try] block can raise. *)
Definition check_anomaly_change (current_time : float)
           (data : list (string * list float)) (t : Tracker) : ChangeReply * Tracker :=
  let '(anomaly_features, anomaly_data) := collect_anomalies data in
  match has_state_changed current_time anomaly_features anomaly_data t with
  | ((has_changed, why), t') =>
      ({| should_analyze := has_changed;
          reason := why;
          reply_last_check_time := last_check_time t';
          time_since_last := round (current_time - last_check_time t')%Qc 2;
          current_anomaly_count := length anomaly_features;
          previous_anomaly_count := length (last_anomaly_features t') |}, t')
  end.

End Hashing.

End Change.

Module ChangeExamples.
Import Py.

(** Stand-ins for the two library functions, and two reports of the
    same anomaly state. *)
Definition plain_round (x : float) (ndigits : Z) : float := x.

Definition names_digest (r : Change.StateRepr) : string :=
  Change.join "," (Change.r_features r).

Definition report1 : list (string * list float) :=
  [ ("Reactor Pressure", [of_Z 2705; of_Z 2710]); ("Purge Rate", []);
    ("Reactor Level", [of_Z 75]) ].

Definition report2 : list (string * list float) :=
  [ ("Reactor Level", [of_Z 75]); ("Reactor Pressure", [of_Z 2705; of_Z 2710]) ].

End ChangeExamples.


(* ===================================================================== *)
(** ** multi_llm_client.py: run-time toggles and the premium session *)
(* ===================================================================== *)

Module Toggle.
Import Py MultiLLM.

(** [MultiLLMClient.__init__] on [config["models"]], given as the list
    of its items with the value of [enabled] (default [False]): a client
    is created for the three known names, and those enabled are listed.
    The constructors of the three clients are taken to return. *)
Definition known_models : list string := ["lmstudio"; "anthropic"; "gemini"].

Definition client_init (models : list (string * bool)) : Client :=
  let known := filter (fun kv => kv.1 ∈ known_models) models in
  {| clients := list_to_set (map fst known);
     enabled_models := map fst (filter (fun kv => kv.2 = true) known);
     runtime_enabled_models := ∅;
     usage_stats := ∅;
     sent := ∅ |}.

Definition set_runtime_enabled_models (v : gset string) (c : Client) : Client :=
  {| clients := clients c;
     enabled_models := enabled_models c;
     runtime_enabled_models := v;
     usage_stats := usage_stats c;
     sent := sent c |}.

(** The client together with the state of its premium session:
    [premium_session_start] (a date, in seconds) and the configured
    duration in minutes. *)
Record Session : Type := {
  client : Client;
  premium_session_start : option float;
  premium_session_duration_minutes : float
}.

Definition set_client (v : Client) (s : Session) : Session :=
  {| client := v;
     premium_session_start := premium_session_start s;
     premium_session_duration_minutes := premium_session_duration_minutes s |}.

Definition set_premium_session_start (v : option float) (s : Session) : Session :=
  {| client := client s;
     premium_session_start := v;
     premium_session_duration_minutes := premium_session_duration_minutes s |}.

(** [MultiLLMClient.__init__]; [duration] is the value found for
    [premium_session_duration_minutes] (30 by default). *)
Definition session_init (models : list (string * bool)) (duration : float) : Session :=
  {| client := client_init models;
     premium_session_start := None;
     premium_session_duration_minutes := duration |}.

Definition _is_premium_model (model_name : string) : bool :=
  bool_decide (model_name ∈ ["anthropic"; "gemini"]).

Definition _start_premium_session_timer (now : float) (s : Session) : Session :=
  match premium_session_start s with
  | None => set_premium_session_start (Some now) s
  | Some _ => s
  end.

(** The dict returned by [toggle_model]. *)
Inductive ToggleReply : Type :=
| ToggleError (error : string)
| ToggleSuccess (model : string) (enabled : bool) (active_models : gset string).

Definition runtime_add (x : string) : M Session unit :=
  modify (fun s => set_client
            (set_runtime_enabled_models ({[ x ]} ∪ runtime_enabled_models (client s))
               (client s)) s).

Definition runtime_discard (x : string) : M Session unit :=
  modify (fun s => set_client
            (set_runtime_enabled_models (runtime_enabled_models (client s) ∖ {[ x ]})
               (client s)) s).

(** [toggle_model]; [now] is [datetime.now()]. *)
Definition toggle_model (now : float) (model_name : string) (enabled : bool)
  : M Session ToggleReply :=
  try_except
    (s ← get;
     if decide (model_name ∉ clients (client s))
     then mret (ToggleError ("Model " +:+ model_name +:+ " not available"))
     else
       let is_config_enabled := bool_decide (model_name ∈ enabled_models (client s)) in
       (if enabled then
          (if negb is_config_enabled then runtime_add model_name else mret tt);;
          runtime_discard ("disabled_" +:+ model_name);;
          (if _is_premium_model model_name
           then modify (_start_premium_session_timer now)
           else mret tt)
        else
          if is_config_enabled
          then runtime_add ("disabled_" +:+ model_name)
          else runtime_discard model_name);;
       s ← get;
       mret (ToggleSuccess model_name enabled (get_active_models (client s))))
    is_Exception
    (fun e => mret (ToggleError (str e))).

(** The dict returned by [get_session_status]; the last three keys are
    absent while no premium session has started. *)
Record SessionStatus : Type := {
  premium_session_active : bool;
  elapsed_time_minutes : option Z;
  remaining_time_minutes : Z;
  auto_shutdown : option bool
}.

Definition get_session_status (now : float) (s : Session) : SessionStatus :=
  match premium_session_start s with
  | None =>
      {| premium_session_active := false; elapsed_time_minutes := None;
         remaining_time_minutes := 0; auto_shutdown := None |}
  | Some start =>
      let elapsed := ((now - start) / of_Z 60)%Qc in
      let remaining := fmax 0%Qc (premium_session_duration_minutes s - elapsed)%Qc in
      {| premium_session_active := true;
         elapsed_time_minutes := Some (App.int_of_float elapsed);
         remaining_time_minutes := App.int_of_float remaining;
         auto_shutdown := Some (bool_decide (remaining ≤ 0)%Qc) |}
  end.

(** A toggle request, and the session after a sequence of them. *)
Record Request : Type := { at_ : float; model : string; on : bool }.

Definition toggles (reqs : list Request) (s : Session) : Session :=
  foldl (fun s r => (toggle_model (at_ r) (model r) (on r) s).2) s reqs.

(** The clients of a session are the known ones, the models enabled in
    the configuration have a client, and the run-time set holds names of
    clients that the configuration does not enable and "disabled_" marks
    of models that it does. *)
Definition well_formed (c : Client) : Prop :=
  (∀ m, m ∈ clients c -> m ∈ known_models)
  ∧ (∀ m, m ∈ enabled_models c -> m ∈ clients c)
  ∧ ∀ x, x ∈ runtime_enabled_models c ->
      (x ∈ clients c ∧ x ∉ enabled_models c)
      ∨ ∃ m, m ∈ enabled_models c ∧ x = "disabled_" +:+ m.

End Toggle.

Module ToggleExamples.
Import Py.

(** The three services configured, LM Studio and Gemini enabled. *)
Definition session0 : Toggle.Session :=
  Toggle.session_init [("lmstudio", true); ("anthropic", false); ("gemini", true)] (of_Z 30).

End ToggleExamples.


(* ===================================================================== *)
(** ** independent_llm_manager.py: the system of managers *)
(* ===================================================================== *)

Module System.
Import Py Manager.

(** The table [display_durations] of [IndependentLLMSystem.__init__]. *)
Definition display_durations : list (string * float) :=
  [("mistral", of_Z 7); ("lmstudio", of_Z 10); ("gemini", of_Z 7); ("anthropic", of_Z 7)].

Definition display_duration_of (model_name : string) : float :=
  default (of_Z 7) ((list_to_map display_durations : gmap string float) !! model_name).

(** [IndependentLLMSystem.__init__]: one manager for each model that
    the configuration enables. *)
Definition system_init (c : MultiLLM.Client) : gmap string IndependentModelManager :=
  foldl (fun managers model_name =>
           <[model_name := init model_name (display_duration_of model_name)]> managers)
        ∅ (MultiLLM.enabled_models c).

(** What [analyze_with_model] returns without reaching the model. *)
Inductive Refusal : Type :=
| NotAvailable (message : string)
| Refused (reply : Reply).

(** [analyze_with_model] up to the [await] inside [analyze_fault]. *)
Definition analyze_with_model_begin (now : float) (model_name : string)
           (managers : gmap string IndependentModelManager)
  : gmap string IndependentModelManager + Refusal :=
  match managers !! model_name with
  | None => inr (NotAvailable ("Model " +:+ model_name +:+ " not available"))
  | Some manager =>
      match analyze_fault_begin now manager with
      | inl manager' => inl (<[model_name := manager']> managers)
      | inr reply => inr (Refused reply)
      end
  end.

Definition freeze_model_display (model_name : string)
           (managers : gmap string IndependentModelManager)
  : gmap string IndependentModelManager :=
  match managers !! model_name with
  | Some manager => <[model_name := freeze_display manager]> managers
  | None => managers
  end.

Definition unfreeze_model_display (now : float) (model_name : string)
           (managers : gmap string IndependentModelManager)
  : gmap string IndependentModelManager :=
  match managers !! model_name with
  | Some manager => <[model_name := unfreeze_display now manager]> managers
  | None => managers
  end.

End System.

(* ===================================================================== *)
(** ** app.py: the endpoint /models/toggle *)
(* ===================================================================== *)

Module Endpoint.
Import Py Toggle.

(** The request body: the keys [model_name] and [enabled], either of
    which may be absent. *)
Record TogglePayload : Type := {
  p_model_name : option string;
  p_enabled : option bool
}.

(** The endpoint [toggle_model] of app.py.  [HTTPException] is an
    [Exception], so the handler at the end of the function also receives
    the two that the body raises. *)
Definition toggle_model (now : float) (payload : TogglePayload) : M Session ToggleReply :=
  try_except
    (let enabled := default false (p_enabled payload) in
     match p_model_name payload with
     | None => raise (HTTPException 400 "model_name is required")
     | Some model_name =>
         if decide (model_name = "")
         then raise (HTTPException 400 "model_name is required")
         else
           result ← Toggle.toggle_model now model_name enabled;
           match result with
           | ToggleError error => raise (HTTPException 400 error)
           | ToggleSuccess _ _ _ => mret result
           end
     end)
    is_Exception
    (fun e => raise (HTTPException 500 (str e))).

End Endpoint.

(* ===================================================================== *)
(** * Properties *)
(* ===================================================================== *)

Import Py.

(** ** Retry budget of the query functions *)

Section RetryBudget.
Import MultiLLM.
Variables (c : Client) (b : Backends).

(** Every attempt of the loop sends one request; with the list of
    attempts [seq 0 1] there is exactly one. *)
Lemma lmstudio_attempts_sent (chat : nat -> awaited (option Completion))
      (attempts : list nat) (n : nat) :
  ((lmstudio_attempts chat attempts n).2 ≤ n + length attempts)%nat.
Proof.
  revert n. induction attempts as [|a rest IH]; intros n; simpl.
  - cbn. lia.
  - unfold mbind, M_bind, bind, send_request, modify; simpl.
    destruct (rbind (await (chat a)) lmstudio_validate) as [txt|e]; simpl.
    + cbn. lia.
    + destruct (is_TimeoutError e); [|destruct (is_Exception e)];
        repeat case_decide; simpl; try (specialize (IH (S n)); lia); cbn; lia.
Qed.

Lemma query_lmstudio_sent : ((_query_lmstudio c b 0).2 ≤ 1)%nat.
Proof.
  pose proof (lmstudio_attempts_sent (lmstudio_chat b) (seq 0 (Z.to_nat max_retries)) 0) as Hsent.
  rewrite length_seq in Hsent.
  unfold _query_lmstudio, mbind, M_bind, bind, lift, client_of.
  case_decide; [|simpl; lia].
  change (Z.to_nat max_retries) with 1%nat in *.
  destruct (lmstudio_attempts _ _ 0) as [[?|?] ?]; simpl in *; lia.
Qed.

Lemma query_claude_sent : ((_query_claude c b 0).2 ≤ 1)%nat.
Proof.
  unfold _query_claude, mbind, M_bind, bind, lift, client_of, try_except, send_request, modify.
  case_decide; simpl; [|lia].
  destruct (claude_messages b) as [[|blk l]| |msg]; simpl; lia.
Qed.

Lemma query_gemini_sent : ((_query_gemini c b 0).2 ≤ 1)%nat.
Proof.
  unfold _query_gemini, mbind, M_bind, bind, lift, client_of, try_except, send_request, modify.
  case_decide; simpl; [|lia].
  destruct (gemini_generate b) as [txt| |msg]; simpl; repeat case_match; simpl; lia.
Qed.

(** Whatever the name, the call made for it sends at most one request. *)
Lemma query_backend_sent (m : string) : ((query_backend c b m 0).2 ≤ 1)%nat.
Proof.
  unfold query_backend. repeat case_decide.
  - apply query_lmstudio_sent.
  - apply query_claude_sent.
  - apply query_gemini_sent.
  - simpl. lia.
Qed.

End RetryBudget.

(** ** The per-model life cycle *)

Section Lifecycle.
Import Manager.

(** While an analysis awaits its model the two flags do not move,
    whatever else happens to the manager. *)
Lemma step_while_analyzing (ev : Event) (m : IndependentModelManager) :
  is_analyzing m = true -> is_displaying m = DFalse ->
  is_analyzing (step ev m) = true ∧ is_displaying (step ev m) = DFalse.
Proof.
  intros Ha Hd. destruct ev as [now| |now|now]; simpl.
  - unfold analyze_fault_begin, can_accept_request. rewrite Ha. simpl. done.
  - unfold freeze_display. rewrite Hd. simpl. done.
  - unfold unfreeze_display. rewrite Hd. done.
  - done.
Qed.

Lemma steps_while_analyzing (evs : list Event) (m : IndependentModelManager) :
  is_analyzing m = true -> is_displaying m = DFalse ->
  is_analyzing (steps evs m) = true ∧ is_displaying (steps evs m) = DFalse.
Proof.
  revert m. induction evs as [|ev evs IH]; intros m Ha Hd; [done|].
  unfold steps. simpl. destruct (step_while_analyzing ev m Ha Hd) as [Ha' Hd'].
  exact (IH _ Ha' Hd').
Qed.

(** A successful analysis ends in Displaying with one timer started,
    and the timer returns an unfrozen display to Idle. *)
Lemma success_then_display (m : IndependentModelManager) (text : option string)
      (duration now later : float) :
  is_analyzing m = true ->
  let m' := (analyze_fault_resume (Ok text) duration now m).2 in
  lifecycle m' = Displaying_ ∧ timers m' = S (timers m)
  ∧ lifecycle (_display_timer later m') = Idle.
Proof. intros _. simpl. done. Qed.

(** The timer clears [is_displaying] whatever it holds. *)
Lemma display_timer_clears (now : float) (m : IndependentModelManager) :
  is_displaying (_display_timer now m) = DFalse.
Proof. reflexivity. Qed.

End Lifecycle.

(** C8, the code at the failing input.  A successful analysis puts the
    manager in Displaying; the operator freezes the display; when the
    sleep of [_display_timer] ends the manager is Idle again and accepts
    requests, although [unfreeze_display] was never called. *)
Theorem C8_frozen_left_by_timer :
  let m1 := match Manager.analyze_fault_begin (of_Z 0) Scenario.manager0 with
            | inl m => m
            | inr _ => Scenario.manager0
            end in
  let m2 := (Manager.analyze_fault_resume (Ok (Some "cooling failure")) (of_Z 3) (of_Z 3) m1).2 in
  let m3 := Manager.freeze_display m2 in
  let m4 := Manager._display_timer (of_Z 10) m3 in
  Manager.lifecycle m1 = Manager.Analyzing
  ∧ Manager.lifecycle m2 = Manager.Displaying_
  ∧ Manager.timers m2 = 1%nat
  ∧ Manager.lifecycle m3 = Manager.Frozen
  ∧ Manager.lifecycle m4 = Manager.Idle
  ∧ Manager.can_accept_request m4 = true.
Proof. repeat split. Qed.

(** C10. When the awaited query of a manual single-model analysis raises
    an exception, [analyze_fault] returns a result with status "error"
    instead of raising, starts no display timer and leaves
    [is_displaying] false, and the manager is Idle at once:
    [can_accept_request] answers true.  This holds whatever happens to
    the manager while the query is awaited. *)
Theorem C10_error_returns_to_idle (m : Manager.IndependentModelManager)
        (evs : list Manager.Event) (e : exn) (start duration now : float) :
  Manager.can_accept_request m = true ->
  is_Exception e = true ->
  ∃ m1 r m3,
    Manager.analyze_fault_begin start m = inl m1
    ∧ Manager.lifecycle m1 = Manager.Analyzing
    ∧ Manager.analyze_fault_resume (Raise e) duration now (Manager.steps evs m1)
      = (Ok (Manager.Analysed r), m3)
    ∧ Manager.status r = "error"
    ∧ Manager.response r = Some ("Error: " +:+ str e)
    ∧ Manager.timers m3 = Manager.timers (Manager.steps evs m1)
    ∧ Manager.is_displaying m3 = Manager.DFalse
    ∧ Manager.lifecycle m3 = Manager.Idle
    ∧ Manager.can_accept_request m3 = true.
Proof.
  intros Hacc He.
  assert (Hd : Manager.is_displaying m = Manager.DFalse).
  { unfold Manager.can_accept_request in Hacc.
    destruct (Manager.is_analyzing m), (Manager.is_displaying m); simpl in Hacc; congruence. }
  unfold Manager.analyze_fault_begin. rewrite Hacc. simpl.
  eexists _, _, _. split; [reflexivity|]. split; [reflexivity|].
  match goal with |- context [Manager.steps evs ?m1] =>
    destruct (steps_while_analyzing evs m1 eq_refl Hd) as [Ha' Hd'] end.
  unfold Manager.analyze_fault_resume. rewrite He.
  split; [reflexivity|]. split; [reflexivity|]. split; [reflexivity|].
  unfold Manager.lifecycle, Manager.can_accept_request. simpl. rewrite Hd'. done.
Qed.

Lemma C10_error_returns_to_idle_witness :
  Manager.can_accept_request Scenario.manager0 = true
  ∧ is_Exception (Exception "Gemini failed: connection reset") = true
  ∧ ∃ m1 r m3,
      Manager.analyze_fault_begin (of_Z 0) Scenario.manager0 = inl m1
      ∧ Manager.lifecycle m1 = Manager.Analyzing
      ∧ Manager.analyze_fault_resume (Raise (Exception "Gemini failed: connection reset"))
          (of_Z 2) (of_Z 2)
          (Manager.steps [Manager.EvRequest (of_Z 1); Manager.EvFreeze; Manager.EvTimer (of_Z 1)] m1)
        = (Ok (Manager.Analysed r), m3)
      ∧ Manager.status r = "error"
      ∧ Manager.response r = Some ("Error: " +:+ str (Exception "Gemini failed: connection reset"))
      ∧ Manager.timers m3 =
          Manager.timers
            (Manager.steps [Manager.EvRequest (of_Z 1); Manager.EvFreeze; Manager.EvTimer (of_Z 1)] m1)
      ∧ Manager.is_displaying m3 = Manager.DFalse
      ∧ Manager.lifecycle m3 = Manager.Idle
      ∧ Manager.can_accept_request m3 = true.
Proof.
  split; [reflexivity|]. split; [reflexivity|].
  apply (C10_error_returns_to_idle Scenario.manager0
           [Manager.EvRequest (of_Z 1); Manager.EvFreeze; Manager.EvTimer (of_Z 1)]
           (Exception "Gemini failed: connection reset") (of_Z 0) (of_Z 2) (of_Z 2));
    reflexivity.
Defined.

(** ** The parallel dispatch *)

Section Dispatch.
Import MultiLLM.

Lemma lmstudio_validate_Exception (r : option Completion) (e : exn) :
  lmstudio_validate r = Raise e -> is_Exception e = true.
Proof.
  unfold lmstudio_validate. destruct r as [[[|msg l]]|]; simpl;
    repeat case_match; intros; simplify_eq; done.
Qed.

(** The queries raise only exceptions of class [Exception]. *)
Lemma query_backend_Exception (c : Client) (b : Backends) (m : string) (e : exn) :
  (query_backend c b m 0).1 = Raise e -> is_Exception e = true.
Proof.
  unfold query_backend. repeat case_decide; subst.
  - unfold _query_lmstudio, client_of, mbind, M_bind, bind, lift.
    case_decide; simpl; [|intros; simplify_eq; done].
    unfold mbind, M_bind, bind, send_request, modify; simpl.
    destruct (lmstudio_chat b 0) as [r| |msg]; simpl.
    + destruct (lmstudio_validate r) as [txt|e'] eqn:Hv; simpl; [done|].
      pose proof (lmstudio_validate_Exception _ _ Hv) as He'.
      destruct (is_TimeoutError e'); simpl; [intros; simplify_eq; done|].
      rewrite He'. simpl. intros; simplify_eq; done.
    + intros; simplify_eq; done.
    + intros; simplify_eq; done.
  - unfold _query_claude, client_of, mbind, M_bind, bind, lift, try_except, send_request, modify.
    case_decide; simpl; [|intros; simplify_eq; done].
    destruct (claude_messages b) as [[|blk l]| |msg]; simpl; intros; simplify_eq; done.
  - unfold _query_gemini, client_of, mbind, M_bind, bind, lift, try_except, send_request, modify.
    case_decide; simpl; [|intros; simplify_eq; done].
    destruct (gemini_generate b) as [txt| |msg]; simpl;
      repeat case_match; unfold raise; simpl; intros; simplify_eq; done.
  - simpl. done.
Qed.

(** The configuration part of the client, which a dispatch only reads. *)
Definition same_setup (c c' : Client) : Prop :=
  clients c = clients c' ∧ enabled_models c = enabled_models c'
  ∧ runtime_enabled_models c = runtime_enabled_models c'.

Lemma query_backend_setup (c c' : Client) (b : Backends) (m : string) :
  same_setup c c' -> query_backend c b m = query_backend c' b m.
Proof.
  intros (Hc & _ & _).
  unfold query_backend, _query_lmstudio, _query_claude, _query_gemini, client_of.
  rewrite Hc. reflexivity.
Qed.

Lemma settled_setup (c c' : Client) (b : Backends) (m : string) :
  same_setup c c' -> settled c b m = settled c' b m.
Proof. intros H. unfold settled. by rewrite (query_backend_setup c c' b m H). Qed.

(** [query_model] never raises: it returns the settled entry. *)
Lemma query_model_settles (b : Backends) (m : string) (c : Client) :
  ∃ c', query_model b m c = (Ok (m, settled c b m), c') ∧ same_setup c c'.
Proof.
  unfold query_model, settled, try_except, mbind, M_bind, bind, get, run_query, count_usage, modify.
  destruct (query_backend c b m 0) as [[response|e] n] eqn:Hq; simpl.
  - eexists. split; [reflexivity|]. done.
  - assert (He : is_Exception e = true).
    { apply (query_backend_Exception c b m). by rewrite Hq. }
    rewrite He. eexists. split; [reflexivity|]. done.
Qed.

Lemma gather_settles (b : Backends) (names : list string) (c : Client) :
  ∃ c', gather (map (query_model b) names) c
        = (Ok (map (fun m => Ok (m, settled c b m)) names), c')
        ∧ same_setup c c'.
Proof.
  revert c. induction names as [|m names IH]; intros c; simpl.
  - eexists. split; [reflexivity|]. done.
  - destruct (query_model_settles b m c) as (c1 & Hq & Hs1). rewrite Hq.
    destruct (IH c1) as (c2 & Hg & Hs2). rewrite Hg. simpl.
    eexists. split.
    + f_equal. f_equal. f_equal. apply map_ext. intros m'.
      by rewrite (settled_setup c c1 b m' Hs1).
    + destruct Hs1 as (?&?&?), Hs2 as (?&?&?). repeat split; congruence.
Qed.

Lemma collect_lookup (f : string -> ModelResult) (names : list string)
      (acc : gmap string ModelResult) (m : string) :
  collect (map (fun n => Ok (n, f n)) names) acc !! m
  = if decide (m ∈ names) then Some (f m) else acc !! m.
Proof.
  revert acc. induction names as [|n names IH]; intros acc; simpl.
  - done.
  - rewrite IH. destruct (decide (m ∈ names)) as [Hin|Hnin].
    + rewrite decide_True; [done|]. set_solver.
    + destruct (decide (m = n)) as [->|Hne].
      * rewrite lookup_insert_eq. rewrite decide_True; [done|]. set_solver.
      * rewrite lookup_insert_ne by done. rewrite decide_False; [done|].
        rewrite elem_of_cons. tauto.
Qed.

(** What the dispatch does on every input: it returns a bundle and does
    not raise; the bundle has one entry for each active model and no
    other, and the entry of a model whose query raised carries the status
    "error" and the text of the exception. *)
Lemma dispatch_settles_every_call (b : Backends) (c : Client) :
  ∃ bundle c',
    get_analysis_from_all_models b c = (Ok bundle, c')
    ∧ same_setup c c'
    ∧ dom (results bundle) = get_active_models c
    ∧ ∀ m, m ∈ get_active_models c ->
        results bundle !! m = Some (settled c b m)
        ∧ ∀ e, (query_backend c b m 0).1 = Raise e ->
            status (settled c b m) = "error"
            ∧ analysis (settled c b m) = Some ("Error: " +:+ str e).
Proof.
  unfold get_analysis_from_all_models, mbind, M_bind, bind, gets. simpl.
  case_decide as Hempty.
  - eexists _, _. split; [reflexivity|]. split; [done|]. simpl.
    apply elements_empty_inv in Hempty. apply leibniz_equiv in Hempty.
    rewrite Hempty. split; [by rewrite dom_empty_L|]. set_solver.
  - destruct (gather_settles b (elements (get_active_models c)) c) as (c' & Hg & Hs).
    rewrite Hg. simpl. eexists _, _. split; [reflexivity|]. split; [exact Hs|]. simpl.
    assert (Hlk : ∀ m, collect (map (fun m0 => Ok (m0, settled c b m0))
                                    (elements (get_active_models c))) ∅ !! m
                       = if decide (m ∈ get_active_models c) then Some (settled c b m) else None).
    { intros m. rewrite collect_lookup. rewrite lookup_empty.
      destruct (decide (m ∈ elements (get_active_models c))) as [Hin|Hnin];
        rewrite elem_of_elements in *; [by rewrite decide_True | by rewrite decide_False]. }
    split.
    + apply set_eq. intros m. rewrite elem_of_dom, Hlk.
      case_decide as Hm; split; intros Hx; [done | by eexists | by destruct Hx | done].
    + intros m Hm. rewrite Hlk, decide_True by done. split; [done|].
      intros e He. unfold settled. rewrite He. done.
Qed.

(** Failures that the query functions notice end as "error" entries:
    every failure of LM Studio, and the timeouts, transport errors and
    missing content blocks of the hosted services. *)
Lemma lmstudio_failure_captured (c : Client) (b : Backends) :
  Spec.call_fails b "lmstudio" = true -> status (settled c b "lmstudio") = "error".
Proof.
  unfold Spec.call_fails, settled, query_backend. simpl.
  unfold _query_lmstudio, client_of, mbind, M_bind, bind, lift.
  case_decide; simpl; [|done].
  unfold mbind, M_bind, bind, send_request, modify; simpl.
  destruct (lmstudio_chat b 0) as [r| |msg]; simpl; [|done|done].
  unfold Spec.empty_completion, lmstudio_validate.
  destruct r as [[[|msg l]]|]; simpl; [done| |done].
  destruct (is_blank (default "" (content msg))); simpl; [|done].
  destruct (is_blank (reasoning msg)); simpl; done.
Qed.

Lemma hosted_failure_captured (c : Client) (b : Backends) :
  (claude_messages b = TimedOut ∨ (∃ msg, claude_messages b = Failed msg)
   ∨ claude_messages b = Returned [] -> status (settled c b "anthropic") = "error")
  ∧ (gemini_generate b = TimedOut ∨ (∃ msg, gemini_generate b = Failed msg)
     -> status (settled c b "gemini") = "error").
Proof.
  split.
  - unfold settled, query_backend. simpl.
    unfold _query_claude, client_of, mbind, M_bind, bind, lift, try_except, send_request, modify.
    case_decide; simpl; [|done].
    intros [->|[[msg ->]| ->]]; done.
  - unfold settled, query_backend. simpl.
    unfold _query_gemini, client_of, mbind, M_bind, bind, lift, try_except, send_request, modify.
    case_decide; simpl; [|done].
    intros [->|[msg ->]]; simpl; [reflexivity|].
    destruct (contains "timeout" (lower msg) || contains "deadline" (lower msg)); reflexivity.
Qed.

End Dispatch.

(** ** Requests sent in one dispatch *)

Section DispatchRequests.
Import MultiLLM.

(** One query adds the requests of its backend call to the counter of
    its model, whether the call returns or raises. *)
Lemma query_model_sent (b : Backends) (m : string) (c : Client) :
  sent (query_model b m c).2
  = <[m := (default 0 (sent c !! m) + (query_backend c b m 0).2)%nat]> (sent c).
Proof.
  unfold query_model, try_except, mbind, M_bind, bind, get, run_query, count_usage, modify.
  destruct (query_backend c b m 0) as [[response|e] n] eqn:Hq; simpl.
  - done.
  - assert (He : is_Exception e = true).
    { apply (query_backend_Exception c b m). by rewrite Hq. }
    rewrite He. done.
Qed.

Lemma gather_sent (b : Backends) (names : list string) (c : Client) (m : string) :
  NoDup names ->
  sent (gather (map (query_model b) names) c).2 !! m
  = if decide (m ∈ names)
    then Some (default 0 (sent c !! m) + (query_backend c b m 0).2)%nat
    else sent c !! m.
Proof.
  revert c. induction names as [|n names IH]; intros c Hnd.
  - cbn [map gather]. case_decide as Hin; [by apply elem_of_nil in Hin|done].
  - apply NoDup_cons in Hnd as [Hn Hnd]. cbn [map gather].
    destruct (query_model_settles b n c) as (c1 & Hq & Hs1).
    pose proof (query_model_sent b n c) as Hu. rewrite Hq in Hu |- *. cbn [snd] in Hu.
    destruct (gather (map (query_model b) names) c1) as [rs c2] eqn:Hg. cbn [snd].
    specialize (IH c1 Hnd). rewrite Hg in IH. cbn [snd] in IH. rewrite IH.
    rewrite <- (query_backend_setup c c1 b m Hs1). rewrite Hu.
    destruct (decide (m = n)) as [->|Hne].
    + rewrite (decide_False (P := n ∈ names)) by done.
      rewrite lookup_insert_eq. rewrite decide_True; [done|]. by left.
    + rewrite lookup_insert_ne by done.
      destruct (decide (m ∈ names)) as [Hin|Hnin].
      * rewrite decide_True; [done|]. by right.
      * rewrite decide_False; [done|]. rewrite elem_of_cons. tauto.
Qed.

Lemma dispatch_sent (b : Backends) (c : Client) (m : string) :
  sent (get_analysis_from_all_models b c).2 !! m
  = if decide (m ∈ get_active_models c)
    then Some (default 0 (sent c !! m) + (query_backend c b m 0).2)%nat
    else sent c !! m.
Proof.
  unfold get_analysis_from_all_models, mbind, M_bind, bind, gets. cbn [fst snd].
  case_decide as Hempty.
  - cbn [snd]. apply elements_empty_inv in Hempty. apply leibniz_equiv in Hempty.
    rewrite Hempty. rewrite decide_False; [done|]. apply not_elem_of_empty.
  - pose proof (gather_sent b (elements (get_active_models c)) c m (NoDup_elements _)) as Hu.
    destruct (gather _ c) as [rs c'] eqn:Hg. cbn [snd] in Hu.
    assert (Hsnd : ∀ X (k : X -> Bundle) (r : result X),
               (match r with
                | Ok a => (mret (k a) : M Client Bundle) c'
                | Raise e => (Raise e, c')
                end).2 = c') by (by intros X k [a|e]).
    rewrite Hsnd, Hu. clear Hu Hsnd Hg.
    destruct (decide (m ∈ get_active_models c)) as [Hin|Hnin].
    + rewrite decide_True; [done|]. by rewrite elem_of_elements.
    + rewrite decide_False; [done|]. by rewrite elem_of_elements.
Qed.

End DispatchRequests.

(** C7.  The retry budget of a dispatch cycle.  Every backend call, for
    whatever model, sends at most one request: no request is repeated,
    neither after a transport failure (the one retry that the claim
    allows is not used) nor after a timeout.  A request that times out or
    fails ends the call at once: one request has been sent and the call
    raises.  Within one dispatch each active model is called exactly once
    and no other model is called, so the requests a model receives in the
    cycle are those of that one call; the entry of a call that raised is
    final for the cycle, with the status "error". *)
Theorem C7_retry_budget (c : MultiLLM.Client) (b : MultiLLM.Backends) :
  let out := MultiLLM.get_analysis_from_all_models b c in
  (∀ m, ((MultiLLM.query_backend c b m 0).2 ≤ 1)%nat)
  ∧ ("lmstudio" ∈ MultiLLM.clients c ->
       (MultiLLM.lmstudio_chat b 0 = TimedOut ->
          MultiLLM.query_backend c b "lmstudio" 0 =
            (Raise (Exception
               "LMStudio timeout after 1 attempt(s) (45s each - check if model is loaded)"),
             1%nat))
       ∧ (∀ msg, MultiLLM.lmstudio_chat b 0 = Failed msg ->
            MultiLLM.query_backend c b "lmstudio" 0 =
              (Raise (Exception ("LMStudio failed after 1 attempts: " +:+ msg)), 1%nat)))
  ∧ ("anthropic" ∈ MultiLLM.clients c ->
       (MultiLLM.claude_messages b = TimedOut ->
          MultiLLM.query_backend c b "anthropic" 0 =
            (Raise (Exception "Claude timeout after 30 seconds"), 1%nat))
       ∧ (∀ msg, MultiLLM.claude_messages b = Failed msg ->
            MultiLLM.query_backend c b "anthropic" 0 =
              (Raise (Exception ("Claude failed: " +:+ msg)), 1%nat)))
  ∧ ("gemini" ∈ MultiLLM.clients c ->
       ∀ msg, MultiLLM.gemini_generate b = Failed msg ->
         ∃ text, MultiLLM.query_backend c b "gemini" 0 = (Raise (Exception text), 1%nat))
  ∧ (∀ m, MultiLLM.sent out.2 !! m
          = if decide (m ∈ MultiLLM.get_active_models c)
            then Some (default 0 (MultiLLM.sent c !! m)
                       + (MultiLLM.query_backend c b m 0).2)%nat
            else MultiLLM.sent c !! m)
  ∧ (∀ m e, m ∈ MultiLLM.get_active_models c ->
            (MultiLLM.query_backend c b m 0).1 = Raise e ->
            ∃ bundle, out.1 = Ok bundle
                      ∧ MultiLLM.results bundle !! m = Some (MultiLLM.settled c b m)
                      ∧ MultiLLM.status (MultiLLM.settled c b m) = "error").
Proof.
  cbv zeta. split; [apply query_backend_sent|].
  split; [|split; [|split; [|split]]].
  - intros Hlm. unfold MultiLLM.query_backend. rewrite decide_True by done.
    unfold MultiLLM._query_lmstudio, mbind, M_bind, bind, lift, MultiLLM.client_of.
    rewrite decide_True by done. simpl.
    unfold mbind, M_bind, bind, MultiLLM.send_request, modify. simpl.
    split; [intros ->; reflexivity|intros msg ->; reflexivity].
  - intros Hcl. unfold MultiLLM.query_backend. rewrite decide_False by done.
    rewrite decide_True by done.
    unfold MultiLLM._query_claude, mbind, M_bind, bind, lift, MultiLLM.client_of, try_except.
    rewrite decide_True by done. simpl.
    unfold MultiLLM.send_request, modify. simpl.
    split; [intros ->; reflexivity|intros msg ->; reflexivity].
  - intros Hge msg Hfail. unfold MultiLLM.query_backend.
    rewrite decide_False by done. rewrite decide_False by done. rewrite decide_True by done.
    unfold MultiLLM._query_gemini, mbind, M_bind, bind, lift, MultiLLM.client_of, try_except.
    rewrite decide_True by done. simpl.
    unfold MultiLLM.send_request, modify. simpl. rewrite Hfail. simpl.
    case_match; eexists; reflexivity.
  - apply dispatch_sent.
  - intros m e Hm He.
    destruct (dispatch_settles_every_call b c) as (bundle & c' & Hrun & _ & _ & Hall).
    exists bundle. rewrite Hrun. split; [done|].
    destruct (Hall m Hm) as [Hlk Herr]. split; [exact Hlk|].
    by destruct (Herr e He) as [Hst _].
Qed.

Lemma C7_retry_budget_witness :
  let out := MultiLLM.get_analysis_from_all_models Scenario.all_timeout Scenario.client0 in
  "lmstudio" ∈ MultiLLM.clients Scenario.client0
  ∧ "anthropic" ∈ MultiLLM.clients Scenario.client0
  ∧ MultiLLM.lmstudio_chat Scenario.all_timeout 0 = TimedOut
  ∧ MultiLLM.claude_messages Scenario.all_timeout = TimedOut
  ∧ MultiLLM.query_backend Scenario.client0 Scenario.all_timeout "lmstudio" 0 =
      (Raise (Exception
         "LMStudio timeout after 1 attempt(s) (45s each - check if model is loaded)"), 1%nat)
  ∧ MultiLLM.query_backend Scenario.client0 Scenario.all_timeout "anthropic" 0 =
      (Raise (Exception "Claude timeout after 30 seconds"), 1%nat)
  ∧ ∀ m, MultiLLM.sent out.2 !! m
         = if decide (m ∈ MultiLLM.get_active_models Scenario.client0)
           then Some (default 0 (MultiLLM.sent Scenario.client0 !! m)
                      + (MultiLLM.query_backend Scenario.client0 Scenario.all_timeout m 0).2)%nat
           else MultiLLM.sent Scenario.client0 !! m.
Proof.
  cbv zeta.
  assert (Hlm : "lmstudio" ∈ MultiLLM.clients Scenario.client0) by (simpl; set_solver).
  assert (Hcl : "anthropic" ∈ MultiLLM.clients Scenario.client0) by (simpl; set_solver).
  destruct (C7_retry_budget Scenario.client0 Scenario.all_timeout)
    as (_ & Hl & Hc & _ & Hsent & _).
  split; [exact Hlm|]. split; [exact Hcl|].
  split; [reflexivity|]. split; [reflexivity|].
  split; [apply (Hl Hlm); reflexivity|].
  split; [apply (Hc Hcl); reflexivity|].
  exact Hsent.
Defined.

(** C4, the code at the failing input.  Gemini answers with an empty
    text, which the specification counts as a backend call failure.  The
    dispatch returns normally and has an entry for every active model,
    but the entry of Gemini carries the status "success" and the empty
    text: [_query_gemini] does not check its response as
    [_query_lmstudio] does. *)
Theorem C4_empty_text_reported_as_success :
  Spec.call_fails Scenario.gemini_empty "gemini" = true
  ∧ match MultiLLM.get_analysis_from_all_models Scenario.gemini_empty Scenario.client0 with
    | (Ok bundle, _) =>
        dom (MultiLLM.results bundle) = {[ "lmstudio"; "anthropic"; "gemini" ]}
        ∧ MultiLLM.status <$> (MultiLLM.results bundle !! "gemini") = Some "success"
        ∧ MultiLLM.analysis <$> (MultiLLM.results bundle !! "gemini") = Some (Some "")
    | (Raise _, _) => False
    end.
Proof.
  split; [reflexivity|].
  destruct (dispatch_settles_every_call Scenario.gemini_empty Scenario.client0)
    as (bundle & c' & Hrun & _ & Hdom & Hentries).
  rewrite Hrun.
  assert (Hactive : MultiLLM.get_active_models Scenario.client0
                    = {[ "lmstudio"; "anthropic"; "gemini" ]}).
  { apply (bool_decide_unpack _). vm_compute. exact I. }
  split; [by rewrite Hdom|].
  destruct (Hentries "gemini") as [Hg _]; [rewrite Hactive; set_solver|].
  rewrite Hg. split; reflexivity.
Qed.

(** ** Bounded deques *)

Section Deques.
Context {A : Type}.
Implicit Types (l : list A) (d : deque A).

Lemma lastn_length (n : nat) l : length (lastn n l) = Nat.min n (length l).
Proof. unfold lastn. rewrite length_drop. lia. Qed.

Lemma lastn_all (n : nat) l : (length l ≤ n)%nat -> lastn n l = l.
Proof. intros H. unfold lastn. replace (length l - n)%nat with 0%nat by lia. done. Qed.

Lemma lastn_0 l : lastn 0 l = [].
Proof. unfold lastn. rewrite Nat.sub_0_r. apply drop_all. Qed.

Lemma lastn_app_lastn (n : nat) l l' : lastn n (lastn n l ++ l') = lastn n (l ++ l').
Proof.
  destruct (decide (length l ≤ n)%nat) as [Hle|Hgt]; [by rewrite (lastn_all n l)|].
  unfold lastn at 1 3. rewrite !length_app, lastn_length.
  replace (Nat.min n (length l)) with n by lia.
  unfold lastn. rewrite !drop_app, !length_drop, drop_drop.
  f_equal; [f_equal; lia|f_equal; lia].
Qed.

Lemma len_append (d : deque A) (x : A) : (len (append d x) ≤ maxlen (append d x))%nat.
Proof. unfold len, append. simpl. rewrite lastn_length. lia. Qed.

Lemma deque_new_bounded l (n : Z) d :
  deque_new l n = Ok d -> (0 ≤ n)%Z ∧ maxlen d = Z.to_nat n ∧ items d = lastn (Z.to_nat n) l.
Proof. unfold deque_new. case_decide; intros; simplify_eq. simpl. split; [lia|done]. Qed.

(** [l[-n:]] keeps the last [n] elements when [n] is positive and the
    whole list when [n] is zero. *)
Lemma slice_from_neg l (n : Z) :
  (0 < n)%Z -> slice_from (- n) l = lastn (Z.to_nat n) l.
Proof.
  intros Hn. unfold slice_from, lastn. rewrite decide_True by lia. f_equal. lia.
Qed.

Lemma slice_from_0 l : slice_from 0 l = l.
Proof. reflexivity. Qed.

End Deques.

(** ** Aggregation of raw rows *)

Section Aggregation.
Import App.

Lemma NoDup_FEATURE_COLUMNS : NoDup FEATURE_COLUMNS.
Proof. apply (bool_decide_unpack _). vm_compute. exact I. Qed.

Lemma raw_lookup (dp : gmap string float) (c : string) :
  c ∈ FEATURE_COLUMNS -> raw_row_of dp !! c = dp !! c.
Proof.
  intros Hc. apply option_eq. intros x. unfold raw_row_of.
  rewrite map_lookup_filter_Some. simpl. tauto.
Qed.

Lemma raw_dom_subseteq (dp : gmap string float) :
  dom (raw_row_of dp) ⊆ (list_to_set FEATURE_COLUMNS : gset string).
Proof.
  intros c. rewrite elem_of_dom, elem_of_list_to_set.
  intros [x Hx]. unfold raw_row_of in Hx.
  apply map_lookup_filter_Some in Hx. simpl in Hx. tauto.
Qed.

Lemma size_FEATURE_COLUMNS :
  size (list_to_set FEATURE_COLUMNS : gset string) = length FEATURE_COLUMNS.
Proof. apply size_list_to_set, NoDup_FEATURE_COLUMNS. Qed.

(** The length test of line 598 accepts exactly the feature-complete
    data points. *)
Lemma complete_iff_size (dp : gmap string float) :
  Spec.feature_complete dp ↔ size (raw_row_of dp) = length FEATURE_COLUMNS.
Proof.
  rewrite <- size_dom, <- size_FEATURE_COLUMNS. split.
  - intros Hc. f_equal. apply set_eq. intros c. split; [apply raw_dom_subseteq|].
    rewrite elem_of_list_to_set, elem_of_dom. intros Hin.
    rewrite raw_lookup by done. by apply Hc.
  - intros Hsz c Hc.
    destruct (decide (dom (raw_row_of dp) = (list_to_set FEATURE_COLUMNS : gset string)))
      as [Heq|Hne].
    + rewrite <- raw_lookup by done. apply elem_of_dom. rewrite Heq.
      by apply elem_of_list_to_set.
    + assert (Hsub : dom (raw_row_of dp) ⊂ (list_to_set FEATURE_COLUMNS : gset string)).
      { split; [apply raw_dom_subseteq|]. intros Hsup. apply Hne.
        apply set_eq. intros x. split; [apply raw_dom_subseteq | apply Hsup]. }
      apply subset_size in Hsub. lia.
Qed.

Lemma raw_complete (dp : gmap string float) :
  Spec.feature_complete dp -> Spec.feature_complete (raw_row_of dp).
Proof. intros Hc c Hin. rewrite raw_lookup by done. by apply Hc. Qed.

Lemma rmapM_ok {X Y} (f : X -> result Y) (g : X -> Y) (l : list X) :
  (∀ x, x ∈ l -> f x = Ok (g x)) -> rmapM f l = Ok (map g l).
Proof.
  induction l as [|x l IH]; intros H; simpl; [done|].
  rewrite (H x) by set_solver. simpl. rewrite IH by set_solver. done.
Qed.

Lemma mean_axis0_columns {X} (h : X -> string -> float) (cols : list string) (rows : list X) :
  rows ≠ [] ->
  mean_axis0 (map (fun r => map (h r) cols) rows)
  = map (fun c => mean (map (fun r => h r c) rows)) cols.
Proof.
  intros Hne. unfold mean_axis0.
  assert (Hlen : length (default [] (head (map (fun r => map (h r) cols) rows)))
                 = length cols).
  { destruct rows as [|r0 rows]; [done|]. simpl. by rewrite length_map. }
  rewrite Hlen.
  apply list_eq. intros i. rewrite !list_lookup_fmap.
  destruct (cols !! i) as [c|] eqn:Hc.
  - rewrite lookup_seq_lt by (by eapply lookup_lt_Some). simpl. f_equal. f_equal.
    rewrite map_map. apply map_ext. intros r.
    rewrite list_lookup_fmap, Hc. done.
  - rewrite lookup_seq_ge; [done|]. by apply lookup_ge_None.
Qed.

Lemma lookup_zip_columns (f : string -> float) (cols : list string) (c : string) :
  (list_to_map (zip cols (map f cols)) : gmap string float) !! c
  = if decide (c ∈ cols) then Some (f c) else None.
Proof.
  induction cols as [|c0 cols IH]; simpl.
  - rewrite lookup_empty. done.
  - destruct (decide (c0 = c)) as [->|Hne].
    + rewrite lookup_insert_eq. rewrite decide_True; [done|]. set_solver.
    + rewrite lookup_insert_ne by done. rewrite IH.
      destruct (decide (c ∈ cols)) as [Hin|Hnin].
      * rewrite decide_True; [done|]. rewrite elem_of_cons. by right.
      * rewrite decide_False; [done|]. rewrite elem_of_cons. intros [?|?]; congruence.
Qed.

(** The aggregated row of complete rows is their per-feature mean, and
    building it raises nothing. *)
Lemma aggregate_mean (rows : list (gmap string float)) :
  rows ≠ [] -> Forall Spec.feature_complete rows ->
  ∃ agg, aggregate rows = Ok agg ∧ Spec.is_mean_of (length rows) agg rows.
Proof.
  intros Hne Hall. unfold aggregate.
  rewrite (rmapM_ok _ (fun r => map (fun c => default 0%Qc (r !! c)) FEATURE_COLUMNS)).
  - unfold rbind. eexists. split; [reflexivity|].
    rewrite (mean_axis0_columns (fun r c => default 0%Qc (r !! c))) by done.
    intros c. rewrite lookup_zip_columns. case_decide; [|done].
    unfold mean. by rewrite length_map.
  - intros r Hr. rewrite Forall_forall in Hall. specialize (Hall r Hr).
    apply rmapM_ok. intros c Hc. unfold getitem.
    destruct (Hall c Hc) as [x Hx]. cbv beta. rewrite Hx. reflexivity.
Qed.

Lemma is_mean_of_raw (n : nat) (agg : gmap string float) (dps : list (gmap string float)) :
  Spec.is_mean_of n agg (map (fun dp => raw_row_of dp) dps) -> Spec.is_mean_of n agg dps.
Proof.
  intros H c. rewrite (H c). case_decide; [|done].
  do 3 f_equal. rewrite map_map. apply map_ext. intros dp. by rewrite raw_lookup.
Qed.

End Aggregation.

(** ** The steps of the ingest handler *)

Section IngestSteps.
Import App.

Lemma aggregate_step_run (raw : gmap string float) (s : State) :
  aggregate_step raw s =
  let s1 := set__recent_raw_rows (append (_recent_raw_rows s) raw) s in
  if decide (Z.of_nat (len (_recent_raw_rows s1)) < Z.max 1 (decimation_N s))%Z
  then (Ok None, s1)
  else match aggregate (items (_recent_raw_rows s1)) with
       | Ok row =>
           (Ok (Some row),
            set__aggregated_count (_aggregated_count s + 1)%Z
              (set__recent_raw_rows (clear (_recent_raw_rows s1)) s1))
       | Raise e => (Raise e, s1)
       end.
Proof.
  unfold aggregate_step, mbind, M_bind, bind, modify, get, lift, mret, M_ret, ret.
  cbv zeta. cbn [fst snd]. case_decide as Hlt.
  - rewrite decide_True by exact Hlt. reflexivity.
  - rewrite decide_False by exact Hlt.
    destruct (aggregate _) as [row|e]; reflexivity.
Qed.

Lemma score_step_run (row : gmap string float) (v : Verdict) (s : State) :
  ∃ result,
    score_step row v s =
    (Ok result,
     set__consecutive_anomalies
       (if v_is_anom v then (_consecutive_anomalies s + 1)%Z else 0%Z)
       (set_live_buffer
          (append (live_buffer s)
             {| features := row; t2_stat := v_t2 v; anomaly := v_is_anom v;
                time := _aggregated_count s; threshold := v_threshold v |}) s))
    ∧ ∀ llm, res_llm (result llm) = llm.
Proof.
  cbv [score_step mbind M_bind bind modify get mret M_ret ret].
  eexists. split; [reflexivity|]. done.
Qed.

Lemma gate_step_run (v : Verdict) (t : float) (s : State) :
  gate_step v t s =
  if gate_open (v_is_anom v) s then
    if is_analyzing (anomaly_state_tracker s) then (Ok analyzing_in_progress, s)
    else if (can_send_llm_request t (anomaly_state_tracker s)).1 then
      (Raise (NameError "now"),
       set__consecutive_anomalies 0%Z
         (set_loop_tasks
            (loop_tasks s ++
               [ {| bt_top_features := top_features_of (topkfeatures s) (items (live_buffer s)) |} ])
            s))
    else (Ok (rate_limited (can_send_llm_request t (anomaly_state_tracker s)).2), s)
  else (Ok not_triggered, s).
Proof.
  unfold gate_step, mbind, M_bind, bind, get. cbn [fst snd].
  destruct (gate_open (v_is_anom v) s); [|reflexivity].
  destruct (is_analyzing (anomaly_state_tracker s)); [reflexivity|].
  destruct (can_send_llm_request t (anomaly_state_tracker s)) as [[|] seconds]; reflexivity.
Qed.

End IngestSteps.

(** ** The ingest handler, path by path *)

Section IngestPaths.
Import App Path.

(** The handler on each of its paths: the response and the state left
    behind.  On the path that creates the background task the response
    is the error of the unbound name [now]. *)
Lemma ingest_run (dp : gmap string float) (v : Verdict) (t : float) (s : State) :
  let raw := raw_row_of dp in
  let out := ingest_live_point dp v t s in
  let s1 := accumulated raw s in
  if decide (size raw ≠ length FEATURE_COLUMNS)
  then out = (Ok (Ignored (map fst (map_to_list raw))), s)
  else if decide (Z.of_nat (len (_recent_raw_rows s1)) < Z.max 1 (decimation_N s))%Z
  then out = (Ok (Aggregating (len (_recent_raw_rows s1)) (decimation_N s)), s1)
  else match aggregate (items (_recent_raw_rows s1)) with
       | Raise e =>
           out = (if is_Exception e then Raise (HTTPException 500 (str e)) else Raise e, s1)
       | Ok row =>
           let s2 := scored row v s1 in
           ∃ result, (∀ llm, res_llm (result llm) = llm) ∧
             out =
             if gate_open (v_is_anom v) s2 then
               if is_analyzing (anomaly_state_tracker s2)
               then (Ok (Processed (result analyzing_in_progress)), s2)
               else if (can_send_llm_request t (anomaly_state_tracker s2)).1
               then (Raise (HTTPException 500 "name 'now' is not defined"), task_created s2)
               else (Ok (Processed
                           (result (rate_limited
                                      (can_send_llm_request t (anomaly_state_tracker s2)).2))),
                     s2)
             else (Ok (Processed (result not_triggered)), s2)
       end.
Proof.
  cbv zeta.
  unfold ingest_live_point, ingest_body, try_except. cbv zeta.
  case_decide as Hsize; [reflexivity|].
  unfold mbind, M_bind, bind. rewrite aggregate_step_run. cbv zeta.
  fold (accumulated (raw_row_of dp) s).
  case_decide as Hlt; [reflexivity|].
  destruct (aggregate _) as [row|e]; [|destruct (is_Exception e); reflexivity].
  destruct (score_step_run row v
              (set__aggregated_count (_aggregated_count s + 1)%Z
                 (set__recent_raw_rows (clear (_recent_raw_rows (accumulated (raw_row_of dp) s)))
                    (accumulated (raw_row_of dp) s)))) as (result & Hscore & Hllm).
  rewrite Hscore. exists result. split; [exact Hllm|].
  rewrite gate_step_run.
  change (set__consecutive_anomalies _ (set_live_buffer _ _))
    with (scored row v (accumulated (raw_row_of dp) s)).
  destruct (gate_open _ _); [|reflexivity].
  destruct (is_analyzing _); [reflexivity|].
  destruct (can_send_llm_request _ _) as [[|] sec]; reflexivity.
Qed.

End IngestPaths.

Section IngestFrame.
Import App Path.

Lemma same_settings_refl (s : State) : same_settings s s.
Proof. repeat split. Qed.

Lemma same_settings_accumulated (raw : gmap string float) (s : State) :
  same_settings s (accumulated raw s).
Proof. repeat split. Qed.

Lemma same_settings_scored (row : gmap string float) (v : Verdict) (s : State) :
  same_settings s (scored row v s).
Proof. repeat split. Qed.

Lemma same_settings_task_created (s : State) : same_settings s (task_created s).
Proof. repeat split. Qed.

Lemma same_settings_trans (s1 s2 s3 : State) :
  same_settings s1 s2 -> same_settings s2 s3 -> same_settings s1 s3.
Proof.
  unfold same_settings. intros (?&?&?&?&?&?&?) (?&?&?&?&?&?&?).
  repeat split; congruence.
Qed.

(** A request leaves the settings, the tracker and the bounds of the
    two deques as they were. *)
Lemma ingest_same_settings (dp : gmap string float) (v : Verdict) (t : float) (s : State) :
  same_settings s (ingest_live_point dp v t s).2.
Proof.
  pose proof (ingest_run dp v t s) as Hrun. cbv zeta in Hrun.
  case_decide; [rewrite Hrun; apply same_settings_refl|].
  case_decide; [rewrite Hrun; apply same_settings_accumulated|].
  destruct (aggregate _) as [row|e]; [|rewrite Hrun; apply same_settings_accumulated].
  destruct Hrun as (result & _ & ->).
  pose proof (same_settings_trans _ _ _ (same_settings_accumulated (raw_row_of dp) s)
                (same_settings_scored row v _)) as Hs.
  repeat case_match; exact Hs.
Qed.

(** The list of created tasks after a request: one more on the trigger
    path, unchanged on every other path. *)
Lemma ingest_tasks (dp : gmap string float) (v : Verdict) (t : float) (s : State) :
  let out := ingest_live_point dp v t s in
  loop_tasks out.2 = loop_tasks s
  ∨ (∃ task, loop_tasks out.2 = loop_tasks s ++ [task])
    ∧ out.1 = Raise (HTTPException 500 "name 'now' is not defined")
    ∧ is_analyzing (anomaly_state_tracker s) = false
    ∧ (can_send_llm_request t (anomaly_state_tracker s)).1 = true.
Proof.
  cbv zeta. pose proof (ingest_run dp v t s) as Hrun. cbv zeta in Hrun.
  case_decide; [rewrite Hrun; by left|].
  case_decide; [rewrite Hrun; by left|].
  destruct (aggregate _) as [row|e]; [|rewrite Hrun; by left].
  destruct Hrun as (result & _ & ->).
  destruct (gate_open _ _); [|by left].
  destruct (is_analyzing (anomaly_state_tracker _)) eqn:Hflag; [by left|].
  destruct (can_send_llm_request t _).1 eqn:Hsend; [|by left].
  right. split; [by eexists|]. done.
Qed.

End IngestFrame.

(** ** The trigger path of the ingest handler *)

(** Whenever a request creates the background task, its response is the
    error raised by the unbound name, not an acknowledgment. *)
Lemma trigger_implies_error (dp : gmap string float) (v : App.Verdict) (t : float)
      (s : App.State) :
  let out := App.ingest_live_point dp v t s in
  App.loop_tasks out.2 ≠ App.loop_tasks s ->
  out.1 = Raise (HTTPException 500 "name 'now' is not defined").
Proof.
  cbv zeta. intros Hne.
  destruct (ingest_tasks dp v t s) as [Heq|(_ & Herr & _)]; [congruence|exact Herr].
Qed.

(** C3, the code at the failing input.  Five feature-complete anomalous
    rows reach a service configured for three consecutive anomalies and a
    window of ten rows.  The fifth row fires the trigger: the background
    task is created with the two top features, and the response of that
    request is HTTP 500 with the text of the [NameError], in place of the
    acknowledgment with status "triggered". *)
Theorem C3_trigger_path_returns_error :
  Forall (fun r => Spec.feature_complete (App.data_point r))
         (Scenario.first_rows ++ [Scenario.row5])
  ∧ App.responses (Scenario.first_rows ++ [Scenario.row5]) Scenario.state0 !! 4%nat
    = Some (Raise (HTTPException 500 "name 'now' is not defined"))
  ∧ App.loop_tasks Scenario.state0 = []
  ∧ App.loop_tasks Scenario.state5
    = [ {| App.bt_top_features := ["Reactor Temperature"; "Reactor Pressure"] |} ].
Proof.
  split; [|split; [|split]].
  - repeat constructor; apply complete_iff_size; vm_compute; reflexivity.
  - vm_compute. reflexivity.
  - vm_compute. reflexivity.
  - vm_compute. reflexivity.
Qed.

(** ** The cooldown between triggers *)

(** C1 as stated fails.  The first trigger fired on the reactor
    temperature and pressure, and its analysis started at 1005 and has
    ended.  Row 8 arrives at 1008, inside the interval of thirty seconds;
    it is anomalous, the run of consecutive anomalies has reached the
    required three, the window holds enough context and no analysis is in
    flight.  Its top features are the reactor feed rate and level: the
    Jaccard similarity with the last-triggered set is 0, below the
    threshold.  No second trigger fires: no task is created and the
    response says [rate_limited]. *)
Lemma C1_counterexample :
  let out := App.ingest_live_point (App.data_point Scenario.row8)
               (App.verdict Scenario.row8) (App.clock Scenario.row8) Scenario.state7 in
  let first := ["Reactor Temperature"; "Reactor Pressure"] in
  let second := App.top_features_of (App.topkfeatures out.2) (items (App.live_buffer out.2)) in
  App.loop_tasks Scenario.state5 = [ {| App.bt_top_features := first |} ]
  ∧ App.gate_open (App.v_is_anom (App.verdict Scenario.row8)) out.2 = true
  ∧ App.is_analyzing (App.anomaly_state_tracker Scenario.state7) = false
  ∧ (App.clock Scenario.row8
       - App.last_llm_request_time (App.anomaly_state_tracker Scenario.state7)
     < App.min_llm_interval (App.anomaly_state_tracker Scenario.state7))%Qc
  ∧ second = ["Reactor Feed Rate"; "Reactor Level"]
  ∧ Spec.jaccard second first = 0%Qc
  ∧ (Spec.jaccard second first < App.feature_shift_jaccard_threshold out.2)%Qc
  ∧ App.loop_tasks Scenario.state7 = []
  ∧ App.loop_tasks out.2 = []
  ∧ match out.1 with
    | Ok (App.Processed r) =>
        match App.res_llm r with
        | App.rate_limited _ => True
        | _ => False
        end
    | _ => False
    end.
Proof.
  cbv zeta.
  split; [vm_compute; reflexivity|].
  split; [vm_compute; reflexivity|].
  split; [vm_compute; reflexivity|].
  split; [apply (bool_decide_unpack _); vm_compute; exact I|].
  split; [vm_compute; reflexivity|].
  split; [apply (bool_decide_unpack _); vm_compute; exact I|].
  split; [apply (bool_decide_unpack _); vm_compute; exact I|].
  split; [vm_compute; reflexivity|].
  split; [vm_compute; reflexivity|].
  vm_compute. exact I.
Qed.

(** C1 as amended.  While less than the minimum interval has passed
    since the time of the last request that the limiter has on record,
    no request fires a trigger, whatever the top features of its row are:
    no task is created, no response says [triggered], and a request that
    brings an aggregated row through the open gate while no analysis is
    in flight is answered [rate_limited], with the reason of the limiter
    (the wait rounded to one decimal, and the interval).  The time on
    record is the start time of a background analysis once it has
    started, and 0 after [/reset_lmstudio]. *)
Theorem C1_cooldown_not_overridden (dp : gmap string float) (v : App.Verdict) (t : float)
        (s : App.State) :
  (t - App.last_llm_request_time (App.anomaly_state_tracker s)
   < App.min_llm_interval (App.anomaly_state_tracker s))%Qc ->
  let out := App.ingest_live_point dp v t s in
  App.loop_tasks out.2 = App.loop_tasks s
  ∧ (∀ r features, out.1 = Ok (App.Processed r) -> App.res_llm r ≠ App.triggered features)
  ∧ (App._aggregated_count out.2 ≠ App._aggregated_count s ->
     App.gate_open (App.v_is_anom v) out.2 = true ->
     App.is_analyzing (App.anomaly_state_tracker s) = false ->
     ∃ r, out.1 = Ok (App.Processed r)
          ∧ App.res_llm r =
            App.rate_limited
              (App.TooSoon
                 (App.tenths
                    (App.min_llm_interval (App.anomaly_state_tracker s)
                     - (t - App.last_llm_request_time (App.anomaly_state_tracker s)))%Qc)
                 (App.min_llm_interval (App.anomaly_state_tracker s))))
  ∧ (∀ start_time s0,
       App.last_llm_request_time
         (App.anomaly_state_tracker (App.bg_prologue start_time s0).2) = start_time)
  ∧ (∀ s0, App.last_llm_request_time
             (App.anomaly_state_tracker (Limiter.reset_lmstudio s0).2) = 0%Qc).
Proof.
  intros Hsoon. cbv zeta.
  assert (Hsend : App.can_send_llm_request t (App.anomaly_state_tracker s)
                  = (false,
                     App.TooSoon
                       (App.tenths
                          (App.min_llm_interval (App.anomaly_state_tracker s)
                           - (t - App.last_llm_request_time (App.anomaly_state_tracker s)))%Qc)
                       (App.min_llm_interval (App.anomaly_state_tracker s)))).
  { unfold App.can_send_llm_request. by rewrite bool_decide_eq_true_2. }
  assert (Hrecord : (∀ start_time s0,
                       App.last_llm_request_time
                         (App.anomaly_state_tracker (App.bg_prologue start_time s0).2)
                       = start_time)
                    ∧ (∀ s0, App.last_llm_request_time
                               (App.anomaly_state_tracker (Limiter.reset_lmstudio s0).2)
                             = 0%Qc)) by (split; reflexivity).
  destruct Hrecord as [Hstart Hreset].
  pose proof (ingest_run dp v t s) as Hrun. cbv zeta in Hrun.
  case_decide; [rewrite Hrun; simpl; split; [done|]; split; [intros; simplify_eq|done]|].
  case_decide; [rewrite Hrun; simpl; split; [done|]; split; [intros; simplify_eq|done]|].
  destruct (App.aggregate _) as [row|e].
  2:{ rewrite Hrun. simpl. split; [done|]. split; [|done].
      intros r f Hr. destruct (is_Exception e); simplify_eq. }
  destruct Hrun as (result & Hllm & ->).
  change (App.anomaly_state_tracker (Path.scored row v _)) with (App.anomaly_state_tracker s).
  rewrite Hsend. simpl.
  destruct (App.gate_open _ _) eqn:Hgate.
  - destruct (App.is_analyzing _) eqn:Hflag; simpl.
    + split; [done|]. split; [|split; [intros; congruence|done]].
      intros r f Hr. simplify_eq. rewrite Hllm. done.
    + split; [done|]. split; [|split; [|done]].
      * intros r f Hr. simplify_eq. rewrite Hllm. done.
      * intros _ _ _. eexists. split; [reflexivity|]. by rewrite Hllm.
  - simpl. split; [done|]. split; [|split; [|done]].
    + intros r f Hr. simplify_eq. rewrite Hllm. done.
    + intros _ Hopen. congruence.
Qed.

Lemma C1_cooldown_not_overridden_witness :
  let out := App.ingest_live_point (App.data_point Scenario.row8)
               (App.verdict Scenario.row8) (App.clock Scenario.row8) Scenario.state7 in
  (App.clock Scenario.row8
     - App.last_llm_request_time (App.anomaly_state_tracker Scenario.state7)
   < App.min_llm_interval (App.anomaly_state_tracker Scenario.state7))%Qc
  ∧ App._aggregated_count out.2 ≠ App._aggregated_count Scenario.state7
  ∧ App.gate_open (App.v_is_anom (App.verdict Scenario.row8)) out.2 = true
  ∧ App.is_analyzing (App.anomaly_state_tracker Scenario.state7) = false
  ∧ App.loop_tasks out.2 = App.loop_tasks Scenario.state7
  ∧ ∃ r, out.1 = Ok (App.Processed r)
         ∧ App.res_llm r =
           App.rate_limited
             (App.TooSoon
                (App.tenths
                   (App.min_llm_interval (App.anomaly_state_tracker Scenario.state7)
                    - (App.clock Scenario.row8
                       - App.last_llm_request_time
                           (App.anomaly_state_tracker Scenario.state7)))%Qc)
                (App.min_llm_interval (App.anomaly_state_tracker Scenario.state7))).
Proof.
  cbv zeta.
  assert (Hsoon : (App.clock Scenario.row8
                     - App.last_llm_request_time (App.anomaly_state_tracker Scenario.state7)
                   < App.min_llm_interval (App.anomaly_state_tracker Scenario.state7))%Qc)
    by (apply (bool_decide_unpack _); vm_compute; exact I).
  assert (Hcount : App._aggregated_count
                     (App.ingest_live_point (App.data_point Scenario.row8)
                        (App.verdict Scenario.row8) (App.clock Scenario.row8) Scenario.state7).2
                   ≠ App._aggregated_count Scenario.state7)
    by (vm_compute; discriminate).
  assert (Hgate : App.gate_open (App.v_is_anom (App.verdict Scenario.row8))
                    (App.ingest_live_point (App.data_point Scenario.row8)
                       (App.verdict Scenario.row8) (App.clock Scenario.row8) Scenario.state7).2
                  = true)
    by (vm_compute; reflexivity).
  assert (Hflag : App.is_analyzing (App.anomaly_state_tracker Scenario.state7) = false)
    by (vm_compute; reflexivity).
  destruct (C1_cooldown_not_overridden (App.data_point Scenario.row8)
              (App.verdict Scenario.row8) (App.clock Scenario.row8) Scenario.state7 Hsoon)
    as (Htasks & _ & Hlimited & _).
  split; [exact Hsoon|]. split; [exact Hcount|]. split; [exact Hgate|].
  split; [exact Hflag|]. split; [exact Htasks|].
  exact (Hlimited Hcount Hgate Hflag).
Defined.

(** ** The in-flight flag *)

Section InFlight.
Import App.

(** Whatever the guarded body does, the [finally] clause leaves the
    flag cleared. *)
Lemma bg_guard_clears (body : M State unit) (s : State) :
  is_analyzing (anomaly_state_tracker (bg_guard body s).2) = false.
Proof.
  unfold bg_guard, try_finally, try_except, modify.
  destruct (body s) as [[u|e] s']; simpl.
  - destruct (is_analyzing (anomaly_state_tracker s')) eqn:Hf; simpl; [done|exact Hf].
  - destruct (is_TimeoutError e || is_Exception e); simpl;
      destruct (is_analyzing (anomaly_state_tracker s')) eqn:Hf; simpl; done.
Qed.

(** Run in one go or in two steps, the task ends in the same state. *)
Lemma background_two_steps (task : BackgroundTask) (start_time : float) (cy : Cycle)
      (s : State) :
  background_llm_analysis task start_time cy s = bg_resume task cy (bg_begin start_time s).
Proof. reflexivity. Qed.

End InFlight.

(** C2.  The in-flight flag is false when the handler decides to start a
    dispatch (a task is created only then), it is set by the first
    statements of the background task, and it is false when the task
    ends, on every path: whether the dispatch returns results, all the
    services fail, the overall bound of 180 s expires, the task is
    cancelled, or formatting and saving raise.  Hence no request that
    follows the end of a cycle is refused as being in progress. *)
Theorem C2_in_flight_cleared :
  (∀ dp v t s,
     App.loop_tasks (App.ingest_live_point dp v t s).2 ≠ App.loop_tasks s ->
     App.is_analyzing (App.anomaly_state_tracker s) = false)
  ∧ (∀ start_time s,
       App.is_analyzing (App.anomaly_state_tracker (App.bg_begin start_time s)) = true)
  ∧ (∀ task cy s,
       App.is_analyzing (App.anomaly_state_tracker (App.bg_resume task cy s).2) = false)
  ∧ (∀ task start_time cy s,
       App.is_analyzing
         (App.anomaly_state_tracker (App.background_llm_analysis task start_time cy s).2)
       = false)
  ∧ (∀ task cy s dp v t r,
       (App.ingest_live_point dp v t (App.bg_resume task cy s).2).1 = Ok (App.Processed r) ->
       App.res_llm r ≠ App.analyzing_in_progress).
Proof.
  split; [|split; [|split; [|split]]].
  - intros dp v t s Hne.
    destruct (ingest_tasks dp v t s) as [Heq|(_ & _ & Hflag & _)]; [congruence|exact Hflag].
  - reflexivity.
  - intros task cy s. apply bg_guard_clears.
  - intros task start_time cy s. apply bg_guard_clears.
  - intros task cy s dp v t r.
    pose proof (bg_guard_clears (App.bg_analysis task cy) s) as Hclear.
    fold (App.bg_resume task cy) in Hclear.
    set (s' := (App.bg_resume task cy s).2) in *.
    pose proof (ingest_run dp v t s') as Hrun. cbv zeta in Hrun.
    case_decide; [rewrite Hrun; simpl; intros; simplify_eq|].
    case_decide; [rewrite Hrun; simpl; intros; simplify_eq|].
    destruct (App.aggregate _) as [row|e];
      [|rewrite Hrun; simpl; destruct (is_Exception e); intros; simplify_eq].
    destruct Hrun as (result & Hllm & ->).
    change (App.anomaly_state_tracker (Path.scored row v _)) with (App.anomaly_state_tracker s').
    rewrite Hclear.
    repeat case_match; simpl; intros; simplify_eq; rewrite Hllm; done.
Qed.

Lemma C2_in_flight_cleared_witness :
  let s4 := App.ingest_all Scenario.first_rows Scenario.state0 in
  let started := App.bg_begin (of_Z 1005) Scenario.state5 in
  let task := {| App.bt_top_features := ["Reactor Temperature"; "Reactor Pressure"] |} in
  let ended := (App.bg_resume task Scenario.cycle_all_timeout started).2 in
  let next := App.ingest_live_point (Scenario.point 10 []) Scenario.anomalous (of_Z 1006) ended in
  App.loop_tasks
    (App.ingest_live_point (App.data_point Scenario.row5) (App.verdict Scenario.row5)
       (App.clock Scenario.row5) s4).2 ≠ App.loop_tasks s4
  ∧ App.is_analyzing (App.anomaly_state_tracker s4) = false
  ∧ App.is_analyzing (App.anomaly_state_tracker started) = true
  ∧ App.is_analyzing (App.anomaly_state_tracker ended) = false
  ∧ ∃ r, next.1 = Ok (App.Processed r) ∧ App.res_llm r ≠ App.analyzing_in_progress.
Proof.
  cbv zeta.
  destruct C2_in_flight_cleared as (Hbefore & Hset & Hcleared & _ & Hnext).
  assert (Hfired :
    App.loop_tasks
      (App.ingest_live_point (App.data_point Scenario.row5) (App.verdict Scenario.row5)
         (App.clock Scenario.row5) (App.ingest_all Scenario.first_rows Scenario.state0)).2
    ≠ App.loop_tasks (App.ingest_all Scenario.first_rows Scenario.state0))
    by (vm_compute; discriminate).
  split; [exact Hfired|].
  split; [exact (Hbefore _ _ _ _ Hfired)|].
  split; [apply Hset|].
  split; [apply Hcleared|].
  match goal with
  | |- ∃ r, ?out = _ ∧ _ =>
      assert (Hack : ∃ r, out = Ok (App.Processed r)) by (vm_compute; eexists; reflexivity)
  end.
  destruct Hack as [r Hr]. exists r. split; [exact Hr|]. exact (Hnext _ _ _ _ _ _ _ Hr).
Defined.

(** ** Decimation *)

Section Decimation.
Import App Path.

Lemma lastn_map {A B} (f : A -> B) (n : nat) (l : list A) :
  lastn n (map f l) = map f (lastn n l).
Proof. unfold lastn. rewrite length_map. symmetry. apply fmap_drop. Qed.

Lemma groups_short {A} (n : nat) (l : list A) :
  (length l < n)%nat -> Spec.groups n l = [].
Proof. intros H. unfold Spec.groups. by rewrite Nat.div_small. Qed.

Lemma groups_app {A} (n : nat) (c rest : list A) :
  (0 < n)%nat -> length c = n -> Spec.groups n (c ++ rest) = c :: Spec.groups n rest.
Proof.
  intros Hn Hc. unfold Spec.groups. rewrite length_app, Hc.
  replace ((n + length rest) / n)%nat with (S (length rest / n)).
  2:{ replace (n + length rest)%nat with (1 * n + length rest)%nat by lia.
      rewrite Nat.div_add_l by lia. lia. }
  simpl seq. simpl map. f_equal.
  - rewrite <- Hc. apply take_app_length.
  - rewrite <- seq_shift, map_map. apply map_ext. intros k. f_equal.
    replace (S k * n)%nat with (length c + k * n)%nat by lia.
    by rewrite drop_app_add.
Qed.

(** The request that completes a group: whichever way the gate goes,
    the accumulator is cleared, the count grows by one and the mean row
    enters the window. *)
Lemma ingest_emit_path (dp : gmap string float) (v : Verdict) (t : float) (s : State)
      (row : gmap string float) :
  size (raw_row_of dp) = length FEATURE_COLUMNS ->
  ¬ (Z.of_nat (len (_recent_raw_rows (accumulated (raw_row_of dp) s)))
     < Z.max 1 (decimation_N s))%Z ->
  aggregate (items (_recent_raw_rows (accumulated (raw_row_of dp) s))) = Ok row ->
  let s' := (ingest_live_point dp v t s).2 in
  items (_recent_raw_rows s') = []
  ∧ _aggregated_count s' = (_aggregated_count s + 1)%Z
  ∧ live_buffer s' =
    append (live_buffer s)
      {| features := row; t2_stat := v_t2 v; anomaly := v_is_anom v;
         time := (_aggregated_count s + 1)%Z; threshold := v_threshold v |}.
Proof.
  intros Hsize Hfull Hagg. cbv zeta.
  pose proof (ingest_run dp v t s) as Hrun. cbv zeta in Hrun.
  rewrite decide_False in Hrun by (by intros ?).
  rewrite decide_False in Hrun by exact Hfull.
  rewrite Hagg in Hrun. destruct Hrun as (result & _ & ->).
  repeat case_match; simpl; done.
Qed.

Lemma ingest_accumulate_path (dp : gmap string float) (v : Verdict) (t : float) (s : State) :
  size (raw_row_of dp) = length FEATURE_COLUMNS ->
  (Z.of_nat (len (_recent_raw_rows (accumulated (raw_row_of dp) s)))
   < Z.max 1 (decimation_N s))%Z ->
  (ingest_live_point dp v t s).2 = accumulated (raw_row_of dp) s.
Proof.
  intros Hsize Hlt.
  pose proof (ingest_run dp v t s) as Hrun. cbv zeta in Hrun.
  rewrite decide_False in Hrun by (by intros ?).
  rewrite decide_True in Hrun by exact Hlt.
  by rewrite Hrun.
Qed.

End Decimation.

Section DecimationRun.
Import App Path.

(** The invariant of a run of requests: the accumulator holds the raw
    rows of [pending], fewer than [n]. *)
Lemma decimation_run (n : nat) (reqs : list Request) :
  (1 ≤ n)%nat ->
  Forall (fun r => Spec.feature_complete (data_point r)) reqs ->
  ∀ (s : State) (pending : list (gmap string float)),
    decimation_N s = Z.of_nat n ->
    maxlen (_recent_raw_rows s) = n ->
    items (_recent_raw_rows s) = map raw_row_of pending ->
    (length pending < n)%nat ->
    Forall Spec.feature_complete pending ->
    (len (live_buffer s) ≤ maxlen (live_buffer s))%nat ->
    let s' := ingest_all reqs s in
    let all := pending ++ map data_point reqs in
    ∃ emitted,
      Forall2 (Spec.is_mean_of n) emitted (Spec.groups n all)
      ∧ _aggregated_count s' = (_aggregated_count s + Z.of_nat (length all / n))%Z
      ∧ map features (items (live_buffer s'))
        = lastn (maxlen (live_buffer s)) (map features (items (live_buffer s)) ++ emitted)
      ∧ items (_recent_raw_rows s') = map raw_row_of (drop (n * (length all / n)) all).
Proof.
  intros Hn Hreqs. induction Hreqs as [|r reqs Hr Hreqs IH];
    intros s pending HN Hmax Hitems Hlen Hpending Hwin; cbv zeta.
  - simpl. rewrite app_nil_r. exists [].
    rewrite groups_short by done. rewrite Nat.div_small by done.
    split; [constructor|]. split; [lia|]. split.
    + rewrite app_nil_r. rewrite lastn_all; [done|]. by rewrite length_map.
    + by rewrite Nat.mul_0_r.
  - simpl ingest_all. simpl map.
    assert (Hsize : size (raw_row_of (data_point r)) = length FEATURE_COLUMNS)
      by (by apply complete_iff_size).
    assert (Hacc : items (_recent_raw_rows (accumulated (raw_row_of (data_point r)) s))
                   = map raw_row_of (pending ++ [data_point r])).
    { simpl. rewrite Hmax, Hitems, lastn_all.
      - by rewrite map_app.
      - rewrite length_app, length_map. simpl. lia. }
    assert (Hacclen : len (_recent_raw_rows (accumulated (raw_row_of (data_point r)) s))
                      = S (length pending)).
    { unfold len. rewrite Hacc, length_map, length_app. simpl. lia. }
    destruct (decide (S (length pending) < n)%nat) as [Hlt|Hfull].
    + (* still aggregating *)
      rewrite ingest_accumulate_path by (rewrite ?Hacclen, ?HN; lia || done).
      destruct (IH (accumulated (raw_row_of (data_point r)) s) (pending ++ [data_point r]))
        as (emitted & Hmean & Hcount & Hbuf & Hrest); try done.
      * rewrite length_app. simpl. lia.
      * apply Forall_app. split; [done|]. by constructor.
      * cbv zeta in *. rewrite <- !app_assoc in *. simpl in *.
        exists emitted. done.
    + (* the group is complete *)
      assert (Hgroup : length (pending ++ [data_point r]) = n)
        by (rewrite length_app; simpl; lia).
      destruct (aggregate_mean (map raw_row_of (pending ++ [data_point r])))
        as (agg & Hagg & Hmean).
      { destruct pending; done. }
      { apply Forall_fmap. apply Forall_app. split.
        - eapply Forall_impl; [exact Hpending|]. intros dp. apply raw_complete.
        - constructor; [|constructor]. by apply raw_complete. }
      rewrite length_map, Hgroup in Hmean. apply is_mean_of_raw in Hmean.
      rewrite <- Hacc in Hagg.
      destruct (ingest_emit_path (data_point r) (verdict r) (clock r) s agg Hsize)
        as (Hclear & Hcnt & Hlive); [rewrite Hacclen, HN; lia|exact Hagg|].
      pose proof (ingest_same_settings (data_point r) (verdict r) (clock r) s)
        as (_ & _ & _ & HN' & _ & Hwmax & Hrmax).
      set (s1 := (ingest_live_point (data_point r) (verdict r) (clock r) s).2) in *.
      destruct (IH s1 []) as (emitted & Hmeans & Hcount & Hbuf & Hrest).
      * congruence.
      * congruence.
      * by rewrite Hclear.
      * simpl. lia.
      * constructor.
      * rewrite Hlive. apply len_append.
      * cbv zeta in *. simpl in Hmeans, Hcount, Hbuf, Hrest.
        exists (agg :: emitted).
        replace (pending ++ data_point r :: map data_point reqs)
          with ((pending ++ [data_point r]) ++ map data_point reqs)
          by (by rewrite <- app_assoc).
        rewrite groups_app by (lia || done).
        assert (Hdiv : (length ((pending ++ [data_point r]) ++ map data_point reqs) / n
                        = S (length (map data_point reqs) / n))%nat).
        { rewrite length_app, Hgroup.
          replace (n + length (map data_point reqs))%nat
            with (1 * n + length (map data_point reqs))%nat by lia.
          rewrite Nat.div_add_l by lia. lia. }
        rewrite Hdiv.
        split; [by constructor|]. split; [rewrite Hcount, Hcnt; lia|]. split.
        -- rewrite Hbuf, Hwmax, Hlive. simpl.
           rewrite <- lastn_map, map_app. simpl.
           rewrite lastn_app_lastn. by rewrite <- app_assoc.
        -- rewrite Hrest. f_equal.
           replace (n * S (length (map data_point reqs) / n))%nat
             with (length (pending ++ [data_point r])
                   + n * (length (map data_point reqs) / n))%nat by lia.
           by rewrite drop_app_add.
Qed.

End DecimationRun.

(** C5.  For a sequence of feature-complete raw rows and a decimation
    size [n] of at least one, starting from an empty accumulator: exactly
    [total / n] aggregated rows are emitted; the [k]-th one is, feature by
    feature, the sum of the values of the [k]-th group of [n] raw rows
    divided by [n]; the emitted rows enter the sliding window in order;
    the accumulator is left with the rows of the incomplete last group,
    so it is empty after each emission.  (Floats are rationals here: the
    mean is exact.) *)
Theorem C5_decimation (n : nat) (reqs : list App.Request) (s : App.State) :
  (1 ≤ n)%nat ->
  App.decimation_N s = Z.of_nat n ->
  maxlen (App._recent_raw_rows s) = n ->
  items (App._recent_raw_rows s) = [] ->
  (len (App.live_buffer s) ≤ maxlen (App.live_buffer s))%nat ->
  Forall (fun r => Spec.feature_complete (App.data_point r)) reqs ->
  let s' := App.ingest_all reqs s in
  let raw_rows := map App.data_point reqs in
  let total := length reqs in
  ∃ emitted,
    length emitted = (total / n)%nat
    ∧ Forall2 (Spec.is_mean_of n) emitted (Spec.groups n raw_rows)
    ∧ App._aggregated_count s' = (App._aggregated_count s + Z.of_nat (total / n))%Z
    ∧ map App.features (items (App.live_buffer s'))
      = lastn (maxlen (App.live_buffer s))
          (map App.features (items (App.live_buffer s)) ++ emitted)
    ∧ items (App._recent_raw_rows s')
      = map App.raw_row_of (drop (n * (total / n)) raw_rows)
    ∧ (total mod n = 0%nat -> items (App._recent_raw_rows s') = []).
Proof.
  intros Hn HN Hmax Hempty Hwin Hreqs. cbv zeta.
  destruct (decimation_run n reqs Hn Hreqs s [] HN Hmax) as
    (emitted & Hmeans & Hcount & Hbuf & Hrest); try done; try (simpl; lia).
  cbv zeta in *. simpl in Hmeans, Hcount, Hbuf, Hrest.
  rewrite length_map in Hcount, Hrest.
  exists emitted. split.
  { apply Forall2_length in Hmeans. rewrite Hmeans. unfold Spec.groups.
    by rewrite length_map, length_seq, length_map. }
  split; [exact Hmeans|]. split; [exact Hcount|]. split; [exact Hbuf|].
  split; [exact Hrest|].
  intros Hmod. rewrite Hrest.
  replace (n * (length reqs / n))%nat with (length reqs).
  - rewrite drop_ge; [done|]. by rewrite length_map.
  - pose proof (Nat.div_mod_eq (length reqs) n). lia.
Qed.

Lemma C5_decimation_witness :
  (1 ≤ 2)%nat
  ∧ App.decimation_N Scenario.state_pairs = Z.of_nat 2
  ∧ maxlen (App._recent_raw_rows Scenario.state_pairs) = 2%nat
  ∧ items (App._recent_raw_rows Scenario.state_pairs) = []
  ∧ (len (App.live_buffer Scenario.state_pairs)
     ≤ maxlen (App.live_buffer Scenario.state_pairs))%nat
  ∧ Forall (fun r => Spec.feature_complete (App.data_point r)) Scenario.five_raw_rows
  ∧ ∃ emitted,
      length emitted = (5 / 2)%nat
      ∧ Forall2 (Spec.is_mean_of 2) emitted
          (Spec.groups 2 (map App.data_point Scenario.five_raw_rows))
      ∧ App._aggregated_count (App.ingest_all Scenario.five_raw_rows Scenario.state_pairs)
        = (App._aggregated_count Scenario.state_pairs + Z.of_nat (5 / 2))%Z
      ∧ map App.features
          (items (App.live_buffer (App.ingest_all Scenario.five_raw_rows Scenario.state_pairs)))
        = lastn (maxlen (App.live_buffer Scenario.state_pairs))
            (map App.features (items (App.live_buffer Scenario.state_pairs)) ++ emitted)
      ∧ items (App._recent_raw_rows (App.ingest_all Scenario.five_raw_rows Scenario.state_pairs))
        = map App.raw_row_of (drop (2 * (5 / 2)) (map App.data_point Scenario.five_raw_rows))
      ∧ (5 mod 2 = 0%nat ->
         items (App._recent_raw_rows (App.ingest_all Scenario.five_raw_rows Scenario.state_pairs))
         = []).
Proof.
  assert (H1 : (1 ≤ 2)%nat) by lia.
  assert (H2 : App.decimation_N Scenario.state_pairs = Z.of_nat 2) by (vm_compute; reflexivity).
  assert (H3 : maxlen (App._recent_raw_rows Scenario.state_pairs) = 2%nat)
    by (vm_compute; reflexivity).
  assert (H4 : items (App._recent_raw_rows Scenario.state_pairs) = [])
    by (vm_compute; reflexivity).
  assert (H5 : (len (App.live_buffer Scenario.state_pairs)
                ≤ maxlen (App.live_buffer Scenario.state_pairs))%nat)
    by (vm_compute; lia).
  assert (H6 : Forall (fun r => Spec.feature_complete (App.data_point r))
                 Scenario.five_raw_rows)
    by (repeat constructor; apply complete_iff_size; vm_compute; reflexivity).
  split; [exact H1|]. split; [exact H2|]. split; [exact H3|]. split; [exact H4|].
  split; [exact H5|]. split; [exact H6|].
  exact (C5_decimation 2 Scenario.five_raw_rows Scenario.state_pairs H1 H2 H3 H4 H5 H6).
Defined.

(** ** The sliding window *)

Section Window.
Import App Path.

Create HintDb window discriminated.

Lemma kw_ret {A} (a : A) : keeps_window (mret a).
Proof. intros s. done. Qed.

Lemma kw_raise {A} (e : exn) : keeps_window (raise e : M State A).
Proof. intros s. done. Qed.

Lemma kw_lift {A} (r : result A) : keeps_window (lift r : M State A).
Proof. intros s. done. Qed.

Lemma kw_get : keeps_window (get : M State State).
Proof. intros s. done. Qed.

Lemma kw_io (raises : option exn) : keeps_window (io raises).
Proof. destruct raises; [apply kw_raise|apply kw_ret]. Qed.

Lemma kw_modify (f : State -> State) :
  (∀ s, live_buffer (f s) = live_buffer s ∧ LIVE_WINDOW_SIZE (f s) = LIVE_WINDOW_SIZE s) ->
  keeps_window (modify f).
Proof. intros H s. apply H. Qed.

Lemma kw_bind {A B} (m : M State A) (k : A -> M State B) :
  keeps_window m -> (∀ a, keeps_window (k a)) -> keeps_window (m ≫= k).
Proof.
  intros Hm Hk s. unfold mbind, M_bind, bind.
  specialize (Hm s). destruct (m s) as [[a|e] s1]; simpl in *; [|done].
  destruct (Hk a s1) as [H1 H2]. destruct Hm as [H3 H4]. split; congruence.
Qed.

Lemma kw_try_except {A} (body : M State A) (catches : exn -> bool)
      (handler : exn -> M State A) :
  keeps_window body -> (∀ e, keeps_window (handler e)) ->
  keeps_window (try_except body catches handler).
Proof.
  intros Hb Hh s. unfold try_except.
  specialize (Hb s). destruct (body s) as [[a|e] s1]; simpl in *; [done|].
  destruct (catches e); [|done].
  destruct (Hh e s1) as [H1 H2]. destruct Hb as [H3 H4]. split; congruence.
Qed.

Lemma kw_try_finally {A} (body : M State A) (cleanup : M State unit) :
  keeps_window body -> keeps_window cleanup -> keeps_window (try_finally body cleanup).
Proof.
  intros Hb Hc s. unfold try_finally.
  specialize (Hb s). destruct (body s) as [r s1]. simpl in Hb.
  specialize (Hc s1). destruct (cleanup s1) as [[u|e] s2]; simpl in *;
    destruct Hb, Hc; split; congruence.
Qed.

Lemma kw_on_client {A} (m : M MultiLLM.Client A) : keeps_window (on_client m).
Proof. intros s. unfold on_client. destruct (m (multi_llm_client s)). done. Qed.

Lemma kw_when {A} (o : option A) (k : A -> M State unit) :
  (∀ a, keeps_window (k a)) -> keeps_window (when o k).
Proof. intros Hk. destruct o; [apply Hk|apply kw_ret]. Qed.

Hint Resolve kw_ret kw_raise kw_lift kw_get kw_io kw_on_client : window.

Lemma kw_dispatch (cy : Cycle) : keeps_window (dispatch cy).
Proof. unfold dispatch. destruct (waited cy); auto with window. Qed.

Lemma kw_save_loop (task : BackgroundTask) (cy : Cycle)
      (entries : list (string * MultiLLM.Analysis)) :
  keeps_window (save_loop task cy entries).
Proof.
  induction entries as [|[name data] rest IH]; simpl; [apply kw_ret|].
  apply kw_bind; [|intros _; exact IH].
  case_decide; [|apply kw_ret].
  apply kw_bind; [apply kw_io|]. intros _. apply kw_modify. intros s.
  destruct (managers s !! name); done.
Qed.

Lemma kw_bg_analysis (task : BackgroundTask) (cy : Cycle) :
  keeps_window (bg_analysis task cy).
Proof.
  unfold bg_analysis.
  apply kw_bind.
  { apply kw_try_except; [|intros; apply kw_ret].
    apply kw_bind; [apply kw_dispatch|intros; apply kw_ret]. }
  intros llm_results. apply kw_bind; [apply kw_lift|]. intros formatted.
  apply kw_bind.
  { apply kw_try_except; [apply kw_save_loop|intros; apply kw_ret]. }
  intros _. apply kw_bind; [by apply kw_modify|]. intros _.
  apply kw_bind; [apply kw_raise|]. intros now.
  apply kw_bind; [by apply kw_modify|]. intros _.
  apply kw_try_except; [apply kw_io|intros; apply kw_ret].
Qed.

Lemma kw_bg_resume (task : BackgroundTask) (cy : Cycle) :
  keeps_window (bg_resume task cy).
Proof.
  unfold bg_resume, bg_guard. apply kw_try_finally.
  - apply kw_try_except; [apply kw_bg_analysis|intros; apply kw_ret].
  - apply kw_modify. intros s. by destruct (is_analyzing (anomaly_state_tracker s)).
Qed.

(** The window after a request: untouched, or one row appended. *)
Lemma ingest_window (dp : gmap string float) (v : Verdict) (t : float) (s : State) :
  let s' := (ingest_live_point dp v t s).2 in
  LIVE_WINDOW_SIZE s' = LIVE_WINDOW_SIZE s
  ∧ (live_buffer s' = live_buffer s ∨ ∃ row, live_buffer s' = append (live_buffer s) row).
Proof.
  cbv zeta. pose proof (ingest_run dp v t s) as Hrun. cbv zeta in Hrun.
  case_decide; [rewrite Hrun; split; [done|by left]|].
  case_decide; [rewrite Hrun; split; [done|by left]|].
  destruct (aggregate _) as [row|e]; [|rewrite Hrun; split; [done|by left]].
  destruct Hrun as (result & _ & ->).
  repeat case_match; (split; [done|right; eexists; reflexivity]).
Qed.

(** The handler of [/config/runtime] on the window, for a size that is
    a capacity: the window keeps its most recent rows, as many as the
    new size allows, and its bound is the new size. *)
Lemma reconfigure_window (payload : Payload) (s : State) :
  let s' := (update_runtime_config payload s).2 in
  match p_pca_window_size payload with
  | Some w =>
      (0 ≤ w)%Z ->
      LIVE_WINDOW_SIZE s' = w
      ∧ live_buffer s' = Deque (lastn (Z.to_nat w) (items (live_buffer s))) (Z.to_nat w)
  | None => LIVE_WINDOW_SIZE s' = LIVE_WINDOW_SIZE s ∧ live_buffer s' = live_buffer s
  end.
Proof.
  cbv zeta. unfold update_runtime_config.
  set (rest := (when (p_fault_trigger_consecutive_step payload) _ ≫= _)).
  assert (Hrest : keeps_window rest).
  { unfold rest.
    apply kw_bind; [apply kw_when; intros; by apply kw_modify|]. intros _.
    apply kw_bind.
    { apply kw_when. intros n. apply kw_bind; [by apply kw_modify|]. intros _.
      apply kw_bind; [apply kw_get|]. intros s0.
      apply kw_bind; [apply kw_lift|]. intros d. by apply kw_modify. }
    intros _. apply kw_bind.
    { apply kw_when. intros n.
      apply kw_bind; [by apply kw_modify|intros _; by apply kw_modify]. }
    intros _. apply kw_bind; [apply kw_when; intros; by apply kw_modify|].
    intros _. apply kw_when; intros; by apply kw_modify. }
  destruct (p_pca_window_size payload) as [w|]; simpl.
  - intros Hw.
    set (first := (modify (set_LIVE_WINDOW_SIZE w) ≫= _)).
    assert (Hfirst : first s =
                     (Ok tt,
                      set_live_buffer
                        (Deque (lastn (Z.to_nat w) (slice_from (- w) (items (live_buffer s))))
                           (Z.to_nat w))
                        (set_LIVE_WINDOW_SIZE w s))).
    { unfold first, mbind, M_bind, bind, modify, get, lift, deque_new. simpl.
      rewrite decide_False by lia. reflexivity. }
    unfold mbind, M_bind, bind. rewrite Hfirst.
    match goal with |- context [rest ?s1] => destruct (Hrest s1) as [Hb Hs] end.
    rewrite Hb, Hs. simpl. split; [done|]. f_equal.
    destruct (decide (w = 0%Z)) as [->|Hpos].
    + by rewrite !lastn_0.
    + rewrite slice_from_neg by lia. apply lastn_all. rewrite lastn_length. lia.
  - unfold mbind at 1, M_bind, bind. simpl. destruct (Hrest s) as [Hb Hs]. done.
Qed.

Lemma step_window_ok (ev : Event) (s : State) :
  window_ok s -> window_size_valid ev -> window_ok (step ev s).
Proof.
  intros [Hlen Hcap] Hvalid. destruct ev as [r|start|task cy|payload]; simpl.
  - destruct (ingest_window (data_point r) (verdict r) (clock r) s) as [HW [Hb|[row Hb]]];
      unfold window_ok; rewrite Hb, HW.
    + done.
    + split; [apply len_append|done].
  - destruct (loop_tasks s); done.
  - destruct (kw_bg_resume task cy s) as [Hb HW]. unfold window_ok. by rewrite Hb, HW.
  - pose proof (reconfigure_window payload s) as Hre. cbv zeta in Hre. simpl in Hvalid.
    destruct (p_pca_window_size payload) as [w|].
    + destruct (Hre Hvalid) as [HW Hb]. unfold window_ok. rewrite Hb, HW. simpl.
      unfold len. simpl. rewrite lastn_length. split; lia.
    + destruct Hre as [HW Hb]. unfold window_ok. by rewrite Hb, HW.
Qed.

Lemma run_window_ok (evs : list Event) (s : State) :
  window_ok s -> Forall window_size_valid evs -> window_ok (run evs s).
Proof.
  revert s. induction evs as [|ev evs IH]; intros s Hok Hvalid; [done|].
  inversion Hvalid; subst. unfold run. simpl. apply IH; [|done].
  by apply step_window_ok.
Qed.

(** The state built at start-up has its window in order. *)
Lemma startup_window_ok (cfg : Config) (client : MultiLLM.Client)
      (mgrs : gmap string Manager.IndependentModelManager) (s : State) :
  startup cfg client mgrs = Ok s -> window_ok s.
Proof.
  unfold startup, load_config, deque_new, rbind. intros Hs.
  repeat case_decide; simplify_eq.
  unfold window_ok, len. simpl. split; lia.
Qed.

End Window.

(** What the handler does with a negative window size: the new size is
    stored, the deque constructor refuses it, and the window stays as it
    was. *)
Lemma reconfigure_negative_window (payload : App.Payload) (w : Z) (s : App.State) :
  App.p_pca_window_size payload = Some w -> (w < 0)%Z ->
  App.update_runtime_config payload s
  = (Raise (ValueError "maxlen must be non-negative"), App.set_LIVE_WINDOW_SIZE w s).
Proof.
  intros Hp Hw. unfold App.update_runtime_config. rewrite Hp. simpl.
  unfold mbind, M_bind, bind, modify, get, lift, deque_new. simpl.
  rewrite decide_True by lia. reflexivity.
Qed.

(** C6.  The bound of the window is broken by a negative window
    size.  The service has taken five rows into a window of capacity 10.
    A request to [/config/runtime] with [pca_window_size] = -1 stores
    [LIVE_WINDOW_SIZE] = -1, then the deque constructor raises
    [ValueError]: the request fails and the five rows stay in the window,
    which now holds more than [LIVE_WINDOW_SIZE] rows.  The handler clamps
    the sibling settings, [decimation_N] at 1 and
    [llm_min_interval_seconds] at 0, and does not clamp this one. *)
Theorem C6_negative_window_size_breaks_bound :
  let s := App.run (map App.Ingest (Scenario.first_rows ++ [Scenario.row5])) Scenario.state0 in
  let out := App.update_runtime_config Scenario.negative_window s in
  App.startup Scenario.config Scenario.client0 {[ "gemini" := Scenario.manager0 ]}
  = Ok Scenario.state0
  ∧ (len (App.live_buffer s) = 5%nat ∧ App.LIVE_WINDOW_SIZE s = 10%Z)
  ∧ out.1 = Raise (ValueError "maxlen must be non-negative")
  ∧ App.step (App.Reconfigure Scenario.negative_window) s = out.2
  ∧ (len (App.live_buffer out.2) = 5%nat
     ∧ maxlen (App.live_buffer out.2) = 10%nat
     ∧ App.LIVE_WINDOW_SIZE out.2 = (-1)%Z)
  ∧ ¬ (Z.of_nat (len (App.live_buffer out.2)) ≤ App.LIVE_WINDOW_SIZE out.2)%Z
  ∧ (App.decimation_N (App.step (App.Reconfigure Scenario.negative_siblings) s) = 1%Z
     ∧ App.llm_min_interval_seconds
         (App.step (App.Reconfigure Scenario.negative_siblings) s) = 0%Z).
Proof.
  cbv zeta.
  split; [reflexivity|].
  split; [split; vm_compute; reflexivity|].
  rewrite (reconfigure_negative_window Scenario.negative_window (-1)%Z) by (reflexivity || lia).
  split; [reflexivity|].
  split.
  { cbn [App.step]. rewrite (reconfigure_negative_window Scenario.negative_window (-1)%Z)
      by (reflexivity || lia). reflexivity. }
  split; [repeat split; vm_compute; reflexivity|].
  split; [vm_compute; intros H; apply H; reflexivity|].
  split; vm_compute; reflexivity.
Qed.

(** X19.  In every state that the service reaches from start-up through
    requests to [/ingest], background analyses and reconfigurations
    (whose window size, when given, is a capacity, that is, not
    negative), the sliding window holds at most [LIVE_WINDOW_SIZE] rows;
    and a reconfiguration to the size [w] leaves in the window exactly
    its most recent [w] rows, so the bound holds across a shrink. *)
Theorem X19_window_bounded_for_valid_sizes (cfg : App.Config) (client : MultiLLM.Client)
        (mgrs : gmap string Manager.IndependentModelManager)
        (s : App.State) (evs : list App.Event) :
  App.startup cfg client mgrs = Ok s ->
  Forall Path.window_size_valid evs ->
  let s' := App.run evs s in
  (Z.of_nat (len (App.live_buffer s')) ≤ App.LIVE_WINDOW_SIZE s')%Z
  ∧ ∀ payload w,
      App.p_pca_window_size payload = Some w -> (0 ≤ w)%Z ->
      let s'' := App.step (App.Reconfigure payload) s' in
      App.LIVE_WINDOW_SIZE s'' = w
      ∧ items (App.live_buffer s'') = lastn (Z.to_nat w) (items (App.live_buffer s'))
      ∧ (Z.of_nat (len (App.live_buffer s'')) ≤ w)%Z.
Proof.
  intros Hstart Hvalid. cbv zeta.
  pose proof (run_window_ok evs s (startup_window_ok _ _ _ _ Hstart) Hvalid) as [Hlen Hcap].
  split; [lia|].
  intros payload w Hp Hw. simpl.
  pose proof (reconfigure_window payload (App.run evs s)) as Hre. cbv zeta in Hre.
  rewrite Hp in Hre. destruct (Hre Hw) as [HW Hb].
  rewrite HW, Hb. simpl. split; [done|]. split; [done|].
  unfold len. simpl. rewrite lastn_length. lia.
Qed.

Lemma X19_window_bounded_for_valid_sizes_witness :
  let evs := map App.Ingest (Scenario.first_rows ++ [Scenario.row5]) in
  let s' := App.run evs Scenario.state0 in
  let s'' := App.step (App.Reconfigure Scenario.shrink) s' in
  App.startup Scenario.config Scenario.client0 {[ "gemini" := Scenario.manager0 ]}
  = Ok Scenario.state0
  ∧ Forall Path.window_size_valid evs
  ∧ App.p_pca_window_size Scenario.shrink = Some 3%Z
  ∧ (0 ≤ 3)%Z
  ∧ (Z.of_nat (len (App.live_buffer s')) ≤ App.LIVE_WINDOW_SIZE s')%Z
  ∧ App.LIVE_WINDOW_SIZE s'' = 3%Z
  ∧ items (App.live_buffer s'') = lastn (Z.to_nat 3) (items (App.live_buffer s'))
  ∧ (Z.of_nat (len (App.live_buffer s'')) ≤ 3)%Z.
Proof.
  cbv zeta.
  assert (Hstart : App.startup Scenario.config Scenario.client0
                     {[ "gemini" := Scenario.manager0 ]} = Ok Scenario.state0)
    by reflexivity.
  assert (Hvalid : Forall Path.window_size_valid
                     (map App.Ingest (Scenario.first_rows ++ [Scenario.row5])))
    by (repeat constructor).
  assert (Hw : (0 ≤ 3)%Z) by lia.
  destruct (X19_window_bounded_for_valid_sizes _ _ _ _ _ Hstart Hvalid) as [Hbound Hshrink].
  destruct (Hshrink Scenario.shrink 3%Z eq_refl Hw) as (HW & Hitems & Hlen).
  split; [exact Hstart|]. split; [exact Hvalid|]. split; [reflexivity|].
  split; [exact Hw|]. split; [exact Hbound|]. split; [exact HW|].
  split; [exact Hitems|exact Hlen].
Defined.

(** ** The stream of the latest row *)

Section Stream.
Import App Path.

Lemma peek_last_append (buf : deque AggregatedRow) (row r : AggregatedRow) :
  peek_last (append buf row) = Some r -> r = row.
Proof.
  unfold peek_last, append, lastn. simpl. intros H.
  apply last_Some in H as [l' Hl'].
  assert (Hsuffix : (l' ++ [r]) `suffix_of` (items buf ++ [row])).
  { rewrite <- Hl'. apply suffix_drop. }
  destruct Hsuffix as [k Hk]. rewrite app_assoc in Hk.
  by apply app_inj_tail in Hk as [_ ?].
Qed.

Lemma peek_last_append_bounded (buf : deque AggregatedRow) (row : AggregatedRow) :
  (1 ≤ maxlen buf)%nat -> peek_last (append buf row) = Some row.
Proof.
  intros Hm. unfold peek_last, append, lastn. simpl.
  rewrite length_app. simpl.
  rewrite drop_app_le by lia. rewrite last_snoc. done.
Qed.

(** A turn emits the latest row, and only if its sequence index is not
    the one emitted last. *)
Lemma turn_emits (buf : deque AggregatedRow) (last_seen : option Z) :
  event_generator_turn buf last_seen = ([], last_seen)
  ∨ ∃ row, peek_last buf = Some row
           ∧ Some (time row) ≠ last_seen
           ∧ event_generator_turn buf last_seen = ([Data row], Some (time row)).
Proof.
  unfold event_generator_turn. destruct (peek_last buf) as [row|]; [|by left].
  case_decide; [right; by exists row|by left].
Qed.

(** With ascending rows, the frames carry strictly increasing sequence
    indices, all above the one seen last: no row is delivered twice. *)
Lemma stream_increasing (actions : list StreamAction) :
  ∀ (buf : deque AggregatedRow) (last_seen : option Z) (hi : Z),
    ascending hi actions ->
    (∀ row, peek_last buf = Some row -> (time row ≤ hi)%Z) ->
    (∀ t, last_seen = Some t ->
          (t ≤ hi)%Z ∧ ∀ row, peek_last buf = Some row -> (t ≤ time row)%Z) ->
    let times := map frame_time (stream actions buf last_seen) in
    StronglySorted Z.lt times
    ∧ Forall (fun x => ∀ t, last_seen = Some t -> (t < x)%Z) times.
Proof.
  induction actions as [|[row|] rest IH]; intros buf last_seen hi Hasc Hbuf Hlast; cbv zeta.
  - simpl. split; constructor.
  - destruct Hasc as [Hhi Hasc]. simpl.
    apply (IH (append buf row) last_seen (time row) Hasc).
    + intros r Hr. apply peek_last_append in Hr. subst. lia.
    + intros t Ht. destruct (Hlast t Ht) as [Hle _]. split; [lia|].
      intros r Hr. apply peek_last_append in Hr. subst. lia.
  - simpl in Hasc. simpl.
    destruct (turn_emits buf last_seen) as [->|(row & Hrow & Hne & ->)]; simpl.
    + by apply (IH buf last_seen hi).
    + destruct (IH buf (Some (time row)) hi Hasc Hbuf) as [Hsorted Hall].
      { intros t [= <-]. split; [by apply Hbuf|].
        intros r Hr. rewrite Hrow in Hr. by simplify_eq. }
      cbv zeta in Hsorted, Hall.
      assert (Habove : ∀ t, last_seen = Some t -> (t < time row)%Z).
      { intros t Ht. destruct (Hlast t Ht) as [_ Hle]. specialize (Hle row Hrow).
        assert (t ≠ time row) by congruence. lia. }
      split.
      * constructor; [exact Hsorted|].
        eapply Forall_impl; [exact Hall|]. intros x Hx. by apply Hx.
      * constructor; [exact Habove|].
        eapply Forall_impl; [exact Hall|]. intros x Hx.
        intros t Ht. specialize (Habove t Ht). specialize (Hx _ eq_refl). lia.
Qed.

(** When the generator takes a turn after each new row, every row is
    emitted, once and in order. *)
Lemma stream_one_turn_per_row (rows : list AggregatedRow) :
  ∀ (buf : deque AggregatedRow) (last_seen : option Z) (hi : Z),
    (1 ≤ maxlen buf)%nat ->
    ascending hi (one_turn_per_row rows) ->
    (∀ t, last_seen = Some t -> (t ≤ hi)%Z) ->
    stream (one_turn_per_row rows) buf last_seen = map Data rows.
Proof.
  induction rows as [|row rows IH]; intros buf last_seen hi Hm Hasc Hlast; [done|].
  destruct Hasc as [Hhi Hasc]. simpl in Hasc.
  change (one_turn_per_row (row :: rows)) with (Push row :: Turn :: one_turn_per_row rows).
  simpl. unfold event_generator_turn.
  rewrite peek_last_append_bounded by done.
  rewrite decide_True.
  2:{ intros Heq. symmetry in Heq. specialize (Hlast _ Heq). lia. }
  simpl. f_equal. apply (IH _ _ (time row)); [done|done|].
  intros t [= <-]. lia.
Qed.

(** While no new row arrives after the latest one was emitted, the
    turns of the generator send nothing. *)
Lemma stream_idle (k : nat) (buf : deque AggregatedRow) (row : AggregatedRow) :
  peek_last buf = Some row ->
  stream (replicate k Turn) buf (Some (time row)) = [].
Proof.
  intros Hrow. induction k as [|k IH]; [done|].
  simpl. unfold event_generator_turn. rewrite Hrow.
  rewrite decide_False by (by intros ?). simpl. exact IH.
Qed.

End Stream.

(** C9 as stated fails.  A subscriber receives row 1; during the sixty
    turns (seconds) that follow, with no new row, the generator sends
    nothing at all: there is no heartbeat.  And two rows that arrive
    between two turns of the generator yield one event, not two. *)
Lemma C9_counterexample :
  map App.frame_time
      (App.stream [App.Push (Scenario.numbered 1); App.Turn] Scenario.empty_window None)
  = [1%Z]
  ∧ App.stream (replicate 60 App.Turn)
      (append Scenario.empty_window (Scenario.numbered 1)) (Some 1%Z) = []
  ∧ map App.frame_time
        (App.stream (App.Push (Scenario.numbered 1) :: App.Turn :: replicate 60 App.Turn)
           Scenario.empty_window None)
    = [1%Z]
  ∧ Path.ascending 0 [App.Push (Scenario.numbered 1); App.Push (Scenario.numbered 2); App.Turn]
  ∧ map App.frame_time
        (App.stream [App.Push (Scenario.numbered 1); App.Push (Scenario.numbered 2); App.Turn]
           Scenario.empty_window None)
    = [2%Z].
Proof.
  split; [vm_compute; reflexivity|].
  split; [vm_compute; reflexivity|].
  split; [vm_compute; reflexivity|].
  split; [simpl; lia|].
  vm_compute. reflexivity.
Qed.

(** C9 as amended.  A turn of the generator emits the latest row of the
    window, and only when its sequence index differs from the one emitted
    last; so, for rows with strictly increasing sequence indices, the
    events carry strictly increasing indices and no row is delivered
    twice.  When the generator takes a turn after each new row, [n] rows
    yield exactly [n] events, the rows in order.  While the stream is
    idle the generator sends nothing: there is no heartbeat. *)
Theorem C9_stream_dedup :
  (∀ buf last_seen,
     App.event_generator_turn buf last_seen = ([], last_seen)
     ∨ ∃ row, peek_last buf = Some row
              ∧ Some (App.time row) ≠ last_seen
              ∧ App.event_generator_turn buf last_seen
                = ([App.Data row], Some (App.time row)))
  ∧ (∀ actions buf hi,
       Path.ascending hi actions ->
       (∀ row, peek_last buf = Some row -> (App.time row ≤ hi)%Z) ->
       StronglySorted Z.lt (map App.frame_time (App.stream actions buf None)))
  ∧ (∀ rows buf hi,
       (1 ≤ maxlen buf)%nat ->
       Path.ascending hi (Path.one_turn_per_row rows) ->
       App.stream (Path.one_turn_per_row rows) buf None = map App.Data rows
       ∧ length (App.stream (Path.one_turn_per_row rows) buf None) = length rows)
  ∧ (∀ k buf row,
       peek_last buf = Some row ->
       App.stream (replicate k App.Turn) buf (Some (App.time row)) = []).
Proof.
  split; [exact turn_emits|]. split; [|split].
  - intros actions buf hi Hasc Hbuf.
    apply (stream_increasing actions buf None hi Hasc Hbuf). intros t Ht. discriminate.
  - intros rows buf hi Hm Hasc.
    rewrite (stream_one_turn_per_row rows buf None hi Hm Hasc) by (intros t Ht; discriminate).
    split; [done|]. by rewrite length_map.
  - exact stream_idle.
Qed.

Lemma C9_stream_dedup_witness :
  Path.ascending 0 (Path.one_turn_per_row Scenario.five_rows)
  ∧ (∀ row, peek_last Scenario.empty_window = Some row -> (App.time row ≤ 0)%Z)
  ∧ (1 ≤ maxlen Scenario.empty_window)%nat
  ∧ peek_last (append Scenario.empty_window (Scenario.numbered 1)) = Some (Scenario.numbered 1)
  ∧ StronglySorted Z.lt
      (map App.frame_time
         (App.stream (Path.one_turn_per_row Scenario.five_rows) Scenario.empty_window None))
  ∧ App.stream (Path.one_turn_per_row Scenario.five_rows) Scenario.empty_window None
    = map App.Data Scenario.five_rows
  ∧ length (App.stream (Path.one_turn_per_row Scenario.five_rows) Scenario.empty_window None)
    = 5%nat
  ∧ App.stream (replicate 60 App.Turn)
      (append Scenario.empty_window (Scenario.numbered 1))
      (Some (App.time (Scenario.numbered 1))) = [].
Proof.
  destruct C9_stream_dedup as (_ & Hsorted & Hexact & Hidle).
  assert (Hasc : Path.ascending 0 (Path.one_turn_per_row Scenario.five_rows))
    by (simpl; lia).
  assert (Hbuf : ∀ row, peek_last Scenario.empty_window = Some row -> (App.time row ≤ 0)%Z)
    by (intros row Hrow; discriminate).
  assert (Hm : (1 ≤ maxlen Scenario.empty_window)%nat) by (simpl; lia).
  assert (Hrow : peek_last (append Scenario.empty_window (Scenario.numbered 1))
                 = Some (Scenario.numbered 1)) by reflexivity.
  destruct (Hexact Scenario.five_rows Scenario.empty_window 0%Z Hm Hasc) as [Hmap Hlen].
  split; [exact Hasc|]. split; [exact Hbuf|]. split; [exact Hm|]. split; [exact Hrow|].
  split; [exact (Hsorted _ _ _ Hasc Hbuf)|]. split; [exact Hmap|]. split; [exact Hlen|].
  exact (Hidle 60%nat _ _ Hrow).
Defined.


(** ** The callers of [/ingest] *)

Section Callers.
Import App Bridge.

(** The keys that [process_data_point] can post are the 22 measurement
    names of [variable_mapping]. *)
Lemma process_data_point_dom (now : float) (tep_data : gmap string float) :
  dom (process_data_point now tep_data) ⊆ (list_to_set (map snd variable_mapping) : gset string).
Proof.
  intros k. rewrite elem_of_dom, elem_of_list_to_set. intros [x Hx].
  unfold process_data_point in Hx. cbv zeta in Hx.
  apply map_lookup_filter_Some in Hx. simpl in Hx. tauto.
Qed.

Lemma raw_row_of_dom_mono (dp : gmap string float) :
  dom (raw_row_of dp) ⊆ dom dp.
Proof.
  intros k. rewrite !elem_of_dom. intros [x Hx]. unfold raw_row_of in Hx.
  apply map_lookup_filter_Some in Hx. exists x. tauto.
Qed.

End Callers.

(** X1.  Whatever record the simulation produces, the data point that
    tep_faultexplainer_bridge.py posts carries at most the 22 measurement
    columns, while [/ingest] requires all 33 feature columns (the 22
    measurements and the 11 manipulated variables): every such request is
    answered "ignored" and leaves the state of the service untouched. *)
Theorem X1_bridge_points_are_ignored (now : float) (tep_data : gmap string float)
        (v : App.Verdict) (t : float) (s : App.State) :
  let dp := Bridge.process_data_point now tep_data in
  (size (App.raw_row_of dp) ≤ 22)%nat
  ∧ length App.FEATURE_COLUMNS = 33%nat
  ∧ ¬ Spec.feature_complete dp
  ∧ App.ingest_live_point dp v t s
    = (Ok (App.Ignored (map fst (map_to_list (App.raw_row_of dp)))), s).
Proof.
  cbv zeta.
  assert (Hsize : (size (App.raw_row_of (Bridge.process_data_point now tep_data)) ≤ 22)%nat).
  { rewrite <- size_dom.
    transitivity (size (list_to_set (map snd Bridge.variable_mapping) : gset string)).
    - apply subseteq_size. etransitivity; [apply raw_row_of_dom_mono|].
      apply process_data_point_dom.
    - rewrite size_list_to_set; [simpl; lia|].
      apply (bool_decide_unpack _). vm_compute. exact I. }
  assert (Hlen : length App.FEATURE_COLUMNS = 33%nat) by reflexivity.
  split; [exact Hsize|]. split; [exact Hlen|]. split.
  - rewrite complete_iff_size. lia.
  - pose proof (ingest_run (Bridge.process_data_point now tep_data) v t s) as Hrun.
    cbv zeta in Hrun. rewrite decide_True in Hrun by lia. exact Hrun.
Qed.

Section Console.
Import App Bridge.

(** Every row built by unified_console.py has a value under each of the
    33 feature columns. *)
Lemma console_row_complete (data_point : gmap string float) :
  Spec.feature_complete (map_to_faultexplainer_features data_point).
Proof.
  intros c Hc. unfold FEATURE_COLUMNS in Hc.
  repeat (apply elem_of_cons in Hc as [->|Hc]; [vm_compute; eexists; reflexivity|]).
  by apply elem_of_nil in Hc.
Qed.

(** The value under a feature is the simulation's value under the
    column of its table, and 0.0 when the record lacks that column. *)
Lemma console_row_values (data_point : gmap string float) :
  Forall (fun '(i, name) =>
            map_to_faultexplainer_features data_point !! name
            = Some (default 0%Qc (data_point !! ("XMEAS_" +:+ pretty i))))
         xmeas_to_name
  ∧ Forall (fun '(i, name) =>
              map_to_faultexplainer_features data_point !! name
              = Some (default 0%Qc (data_point !! ("XMV_" +:+ pretty i))))
           xmv_to_name.
Proof.
  split; unfold xmeas_to_name, xmv_to_name;
    repeat (apply Forall_cons; split; [vm_compute; reflexivity|]); constructor.
Qed.

End Console.

(** A request with a feature-complete data point is never answered
    "ignored". *)
Lemma ingest_not_ignored (dp : gmap string float) (v : App.Verdict) (t : float)
      (s : App.State) (present : list string) :
  size (App.raw_row_of dp) = length App.FEATURE_COLUMNS ->
  (App.ingest_live_point dp v t s).1 ≠ Ok (App.Ignored present).
Proof.
  intros Hsize.
  pose proof (ingest_run dp v t s) as Hrun.
  cbv zeta in Hrun. rewrite decide_False in Hrun by (by intros ?).
  case_decide; [rewrite Hrun; simpl; intros ?; simplify_eq|].
  destruct (App.aggregate _) as [r|e];
    [|rewrite Hrun; simpl; destruct (is_Exception e); intros ?; simplify_eq].
  destruct Hrun as (result & _ & ->).
  repeat case_match; simpl; intros ?; simplify_eq.
Qed.

(** X2.  Whatever record the simulation produces, the row that
    unified_console.py posts is feature-complete: a column missing from
    the record is sent as 0.0.  So [/ingest] never answers "ignored" to
    it; even the empty record is accepted, as a row of zeros. *)
Theorem X2_console_points_are_complete (data_point : gmap string float)
        (v : App.Verdict) (t : float) (s : App.State) :
  let row := Bridge.map_to_faultexplainer_features data_point in
  Spec.feature_complete row
  ∧ size (App.raw_row_of row) = length App.FEATURE_COLUMNS
  ∧ (∀ i name, (i, name) ∈ Bridge.xmeas_to_name ->
       row !! name = Some (default 0%Qc (data_point !! ("XMEAS_" +:+ pretty i))))
  ∧ (∀ i name, (i, name) ∈ Bridge.xmv_to_name ->
       row !! name = Some (default 0%Qc (data_point !! ("XMV_" +:+ pretty i))))
  ∧ (∀ c, c ∈ App.FEATURE_COLUMNS ->
       Bridge.map_to_faultexplainer_features ∅ !! c = Some 0%Qc)
  ∧ ∀ present, (App.ingest_live_point row v t s).1 ≠ Ok (App.Ignored present).
Proof.
  cbv zeta.
  pose proof (console_row_complete data_point) as Hc.
  pose proof (console_row_values data_point) as [Hx Hv].
  generalize dependent (Bridge.map_to_faultexplainer_features data_point).
  intros row Hc Hx Hv.
  assert (Hsize : size (App.raw_row_of row) = length App.FEATURE_COLUMNS)
    by (by apply complete_iff_size).
  split; [exact Hc|]. split; [exact Hsize|].
  split; [intros i name Hin; rewrite Forall_forall in Hx; exact (Hx _ Hin)|].
  split; [intros i name Hin; rewrite Forall_forall in Hv; exact (Hv _ Hin)|].
  split.
  - intros c Hin. unfold App.FEATURE_COLUMNS in Hin.
    repeat (apply elem_of_cons in Hin as [->|Hin]; [vm_compute; reflexivity|]).
    by apply elem_of_nil in Hin.
  - intros present. by apply ingest_not_ignored.
Qed.


(** ** What each handler leaves alone *)

Section Frames.
Import App Path Inv.

(** A computation that leaves a view [f] of the state alone. *)
Definition keeps {X A} (f : State -> X) (m : M State A) : Prop :=
  ∀ s, f (m s).2 = f s.

Context {X : Type} (f : State -> X).

Lemma keeps_ret {A} (a : A) : keeps f (mret a).
Proof. intros s. done. Qed.

Lemma keeps_raise {A} (e : exn) : keeps f (raise e : M State A).
Proof. intros s. done. Qed.

Lemma keeps_lift {A} (r : result A) : keeps f (lift r : M State A).
Proof. intros s. done. Qed.

Lemma keeps_io (raises : option exn) : keeps f (io raises).
Proof. destruct raises; [apply keeps_raise|apply keeps_ret]. Qed.

Lemma keeps_modify (g : State -> State) :
  (∀ s, f (g s) = f s) -> keeps f (modify g).
Proof. intros H s. apply H. Qed.

Lemma keeps_bind {A B} (m : M State A) (k : A -> M State B) :
  keeps f m -> (∀ a, keeps f (k a)) -> keeps f (m ≫= k).
Proof.
  intros Hm Hk s. unfold mbind, M_bind, bind.
  specialize (Hm s). destruct (m s) as [[a|e] s1]; simpl in *; [|done].
  rewrite <- Hm. apply Hk.
Qed.

Lemma keeps_try_except {A} (body : M State A) (catches : exn -> bool)
      (handler : exn -> M State A) :
  keeps f body -> (∀ e, keeps f (handler e)) -> keeps f (try_except body catches handler).
Proof.
  intros Hb Hh s. unfold try_except.
  specialize (Hb s). destruct (body s) as [[a|e] s1]; simpl in *; [done|].
  destruct (catches e); [|done]. rewrite <- Hb. apply Hh.
Qed.

Lemma keeps_try_finally {A} (body : M State A) (cleanup : M State unit) :
  keeps f body -> keeps f cleanup -> keeps f (try_finally body cleanup).
Proof.
  intros Hb Hc s. unfold try_finally.
  specialize (Hb s). destruct (body s) as [r s1]. simpl in Hb.
  specialize (Hc s1). destruct (cleanup s1) as [[u|e] s2]; simpl in *; congruence.
Qed.

End Frames.

Section BackgroundFrame.
Import App Path Inv.

Lemma keeps_on_client {A} (m : M MultiLLM.Client A) : keeps pipeline (on_client m).
Proof. intros s. unfold on_client. destruct (m (multi_llm_client s)). done. Qed.

Lemma keeps_dispatch (cy : Cycle) : keeps pipeline (dispatch cy).
Proof.
  unfold dispatch. destruct (waited cy);
    [apply keeps_on_client|apply keeps_raise|apply keeps_raise].
Qed.

Lemma keeps_save_loop (task : BackgroundTask) (cy : Cycle)
      (entries : list (string * MultiLLM.Analysis)) :
  keeps pipeline (save_loop task cy entries).
Proof.
  induction entries as [|[name data] rest IH]; simpl; [apply keeps_ret|].
  apply keeps_bind; [|intros _; exact IH].
  case_decide; [|apply keeps_ret].
  apply keeps_bind; [apply keeps_io|]. intros _. apply keeps_modify. intros s.
  destruct (managers s !! name); done.
Qed.

Lemma keeps_bg_analysis (task : BackgroundTask) (cy : Cycle) :
  keeps pipeline (bg_analysis task cy).
Proof.
  unfold bg_analysis.
  apply keeps_bind.
  { apply keeps_try_except; [|intros; apply keeps_ret].
    apply keeps_bind; [apply keeps_dispatch|intros; apply keeps_ret]. }
  intros llm_results. apply keeps_bind; [apply keeps_lift|]. intros formatted.
  apply keeps_bind.
  { apply keeps_try_except; [apply keeps_save_loop|intros; apply keeps_ret]. }
  intros _. apply keeps_bind; [by apply keeps_modify|]. intros _.
  apply keeps_bind; [apply keeps_raise|]. intros now.
  apply keeps_bind; [by apply keeps_modify|]. intros _.
  apply keeps_try_except; [apply keeps_io|intros; apply keeps_ret].
Qed.

(** The background task, from its start to its end, writes neither the
    settings of the pipeline nor its buffers and counters. *)
Lemma bg_resume_pipeline (task : BackgroundTask) (cy : Cycle) (s : State) :
  pipeline (bg_resume task cy s).2 = pipeline s.
Proof.
  revert s. change (keeps pipeline (bg_resume task cy)).
  unfold bg_resume, bg_guard. apply keeps_try_finally.
  - apply keeps_try_except; [apply keeps_bg_analysis|intros; apply keeps_ret].
  - apply keeps_modify. intros s. by destruct (is_analyzing (anomaly_state_tracker s)).
Qed.

Lemma pipeline_fields (s s' : State) :
  pipeline s' = pipeline s ->
  LIVE_WINDOW_SIZE s' = LIVE_WINDOW_SIZE s
  ∧ decimation_N s' = decimation_N s
  ∧ llm_min_interval_seconds s' = llm_min_interval_seconds s
  ∧ min_llm_interval (anomaly_state_tracker s') = min_llm_interval (anomaly_state_tracker s)
  ∧ live_buffer s' = live_buffer s
  ∧ _recent_raw_rows s' = _recent_raw_rows s
  ∧ _aggregated_count s' = _aggregated_count s
  ∧ _consecutive_anomalies s' = _consecutive_anomalies s
  ∧ loop_tasks s' = loop_tasks s.
Proof. unfold pipeline. intros [= ? ? ? ? ? ? ? ? ?]. done. Qed.

Lemma bg_begin_pipeline (start_time : float) (s : State) :
  pipeline (bg_begin start_time s) = pipeline s.
Proof. reflexivity. Qed.

End BackgroundFrame.

(** ** The handler of [/config/runtime], key by key *)

Section Reconfigure.
Import App Path Inv.

(** The handler raises only on a negative window size, after storing
    it; otherwise it runs to its end. *)
Lemma reconfigure_run (payload : Payload) (s : State) :
  update_runtime_config payload s =
  match p_pca_window_size payload with
  | Some w =>
      if decide (w < 0)%Z
      then (Raise (ValueError "maxlen must be non-negative"), set_LIVE_WINDOW_SIZE w s)
      else (Ok tt, reconfigured payload s)
  | None => (Ok tt, reconfigured payload s)
  end.
Proof.
  unfold update_runtime_config, reconfigured.
  destruct payload as [w c n i j m]. cbn [p_pca_window_size p_fault_trigger_consecutive_step
    p_decimation_N p_llm_min_interval_seconds p_feature_shift_jaccard_threshold
    p_feature_shift_min_interval_seconds].
  destruct w as [w|]; [destruct (decide (w < 0)%Z) as [Hneg|Hpos]|].
  - unfold when at 1. unfold mbind, M_bind, bind, modify, get, lift, deque_new. simpl.
    rewrite decide_True by lia. reflexivity.
  - unfold when, mbind, M_bind, bind, modify, get, lift, deque_new, mret, M_ret, ret.
    cbn [fst snd LIVE_WINDOW_SIZE set_LIVE_WINDOW_SIZE].
    rewrite (decide_False (P := (w < 0)%Z)) by lia.
    destruct c as [c|], n as [n|], i as [i|], j as [j|], m as [m|];
      try rewrite (decide_False (P := (Z.max 1 n < 0)%Z)) by lia; reflexivity.
  - unfold when, mbind, M_bind, bind, modify, get, lift, deque_new, mret, M_ret, ret.
    destruct c as [c|], n as [n|], i as [i|], j as [j|], m as [m|];
      try rewrite (decide_False (P := (Z.max 1 n < 0)%Z)) by lia; reflexivity.
Qed.

End Reconfigure.

(** ** What a request does to the buffers and the counters *)

Section IngestEffect.
Import App Path Inv.

(** A request is ignored and changes nothing; or its raw row joins the
    accumulator; or it completes an aggregated row, which enters the
    window under the next sequence index while the accumulator is
    cleared. *)
Lemma ingest_effect (dp : gmap string float) (v : Verdict) (t : float) (s : State) :
  let s' := (ingest_live_point dp v t s).2 in
  (size (raw_row_of dp) ≠ length FEATURE_COLUMNS ∧ s' = s)
  ∨ (size (raw_row_of dp) = length FEATURE_COLUMNS
     ∧ _aggregated_count s' = _aggregated_count s
     ∧ live_buffer s' = live_buffer s
     ∧ _consecutive_anomalies s' = _consecutive_anomalies s
     ∧ loop_tasks s' = loop_tasks s
     ∧ _recent_raw_rows s' = append (_recent_raw_rows s) (raw_row_of dp))
  ∨ (size (raw_row_of dp) = length FEATURE_COLUMNS
     ∧ ¬ (Z.of_nat (len (append (_recent_raw_rows s) (raw_row_of dp)))
          < Z.max 1 (decimation_N s))%Z
     ∧ _aggregated_count s' = (_aggregated_count s + 1)%Z
     ∧ (∃ row, time row = (_aggregated_count s + 1)%Z
               ∧ anomaly row = v_is_anom v
               ∧ live_buffer s' = append (live_buffer s) row)
     ∧ _recent_raw_rows s' = clear (append (_recent_raw_rows s) (raw_row_of dp))).
Proof.
  cbv zeta. pose proof (ingest_run dp v t s) as Hrun. cbv zeta in Hrun.
  case_decide as Hsize; [left; by rewrite Hrun|].
  assert (Hsz : size (raw_row_of dp) = length FEATURE_COLUMNS)
    by (destruct (decide (size (raw_row_of dp) = length FEATURE_COLUMNS)); [done|by destruct Hsize]).
  right. case_decide as Hlt; [left; rewrite Hrun; done|].
  destruct (aggregate _) as [row|e]; [|left; rewrite Hrun; done].
  destruct Hrun as (result & _ & ->). right.
  split; [done|]. split; [exact Hlt|].
  repeat case_match; simpl; (split; [done|]); (split; [|done]);
    eexists; (split; [|split; [|reflexivity]]); done.
Qed.

(** The settings and the tracker are only read (see
    [ingest_same_settings]); in particular the bound of the accumulator
    and the decimation size stay. *)
Lemma ingest_decimation (dp : gmap string float) (v : Verdict) (t : float) (s : State) :
  let s' := (ingest_live_point dp v t s).2 in
  decimation_N s' = decimation_N s
  ∧ maxlen (_recent_raw_rows s') = maxlen (_recent_raw_rows s)
  ∧ anomaly_state_tracker s' = anomaly_state_tracker s.
Proof.
  cbv zeta. destruct (ingest_same_settings dp v t s) as (_ & _ & _ & HN & Ht & _ & Hm).
  done.
Qed.

End IngestEffect.

Section Suffixes.
Context {A : Type}.
Implicit Types l : list A.

Lemma lastn_is_drop (n : nat) l : ∃ k, lastn n l = drop k l.
Proof. by eexists. Qed.

Lemma slice_from_is_drop (z : Z) l : ∃ k, slice_from z l = drop k l.
Proof. unfold slice_from. case_decide; by eexists. Qed.

Lemma last_drop_Some (k : nat) l (x : A) : last (drop k l) = Some x -> last l = Some x.
Proof.
  intros H. rewrite <- (take_drop k l). apply last_app_Some. by left.
Qed.

Lemma last_lastn_snoc (n : nat) l (x y : A) :
  last (lastn n (l ++ [x])) = Some y -> y = x.
Proof.
  intros H. apply last_drop_Some in H. rewrite last_snoc in H. by simplify_eq.
Qed.

End Suffixes.

(** ** Sequence indices of the window *)

Section Indices.
Import App Path Inv.

Lemma sorted_drop (k : nat) (rows : list AggregatedRow) :
  StronglySorted Z.lt (map time rows) -> StronglySorted Z.lt (map time (drop k rows)).
Proof.
  intros H. rewrite <- (take_drop k rows), map_app in H.
  by apply StronglySorted_app_1_r in H.
Qed.

Lemma indices_suffix (k : nat) (rows : list AggregatedRow) (c : Z) (s s' : State) :
  indices_ok s ->
  items (live_buffer s') = drop k (items (live_buffer s)) ->
  _aggregated_count s' = _aggregated_count s ->
  indices_ok s'.
Proof.
  intros (Hs & Hall & Hc & Hlast) Hb Hcount. unfold indices_ok, peek_last.
  rewrite Hb, Hcount. split; [by apply sorted_drop|]. split; [by apply Forall_drop|].
  split; [done|]. intros row Hrow. apply Hlast. by apply last_drop_Some in Hrow.
Qed.

Lemma indices_append (row : AggregatedRow) (s s' : State) :
  indices_ok s ->
  time row = (_aggregated_count s + 1)%Z ->
  live_buffer s' = append (live_buffer s) row ->
  _aggregated_count s' = (_aggregated_count s + 1)%Z ->
  indices_ok s'.
Proof.
  intros (Hs & Hall & Hc & Hlast) Ht Hb Hcount. unfold indices_ok, peek_last.
  rewrite Hb, Hcount. unfold append. cbn [items].
  destruct (lastn_is_drop (maxlen (live_buffer s)) (items (live_buffer s) ++ [row])) as [k Hk].
  rewrite Hk.
  assert (Hall' : Forall (fun r => (1 ≤ time r ≤ _aggregated_count s + 1)%Z)
                         (items (live_buffer s) ++ [row])).
  { apply Forall_app. split.
    - eapply Forall_impl; [exact Hall|]. intros r Hr. simpl in Hr. lia.
    - constructor; [lia|constructor]. }
  split; [|split; [by apply Forall_drop|split; [lia|]]].
  - apply sorted_drop. rewrite map_app. apply StronglySorted_app_2.
    + intros x1 x2 Hx1 Hx2. apply list_elem_of_fmap in Hx1 as (r1 & -> & Hr1).
      simpl in Hx2. apply list_elem_of_singleton in Hx2. subst x2.
      rewrite Forall_forall in Hall. specialize (Hall r1 Hr1). simpl in Hall. lia.
    + exact Hs.
    + simpl. repeat constructor.
  - intros r Hr. apply last_drop_Some in Hr. rewrite last_snoc in Hr. by simplify_eq.
Qed.

Lemma step_indices_ok (ev : Event) (s : State) :
  indices_ok s -> indices_ok (step ev s).
Proof.
  intros Hok. destruct ev as [r|start|task cy|payload]; simpl.
  - destruct (ingest_effect (data_point r) (verdict r) (clock r) s)
      as [[_ ->]|[(_ & Hc & Hb & _)|(_ & _ & Hc & (row & Ht & _ & Hb) & _)]].
    + done.
    + apply (indices_suffix 0 (items (live_buffer s)) 0 s); [done| |done].
      by rewrite Hb.
    + by apply (indices_append row s).
  - destruct (loop_tasks s); [done|].
    apply (indices_suffix 0 (items (live_buffer s)) 0 s); done.
  - destruct (pipeline_fields _ _ (bg_resume_pipeline task cy s))
      as (_ & _ & _ & _ & Hb & _ & Hc & _).
    apply (indices_suffix 0 (items (live_buffer s)) 0 s); [done| |done]. by rewrite Hb.
  - rewrite reconfigure_run.
    assert (Hre : indices_ok (reconfigured payload s)).
    { unfold reconfigured.
      destruct (p_pca_window_size payload) as [w|].
      - destruct (slice_from_is_drop (- w) (items (live_buffer s))) as [k1 Hk1].
        destruct (lastn_is_drop (Z.to_nat w) (slice_from (- w) (items (live_buffer s))))
          as [k2 Hk2].
        apply (indices_suffix (k1 + k2) (items (live_buffer s)) 0 s); [done| |].
        + repeat case_match; simpl; by rewrite Hk2, Hk1, drop_drop.
        + repeat case_match; done.
      - apply (indices_suffix 0 (items (live_buffer s)) 0 s); [done| |];
          repeat case_match; done. }
    destruct (p_pca_window_size payload) as [w|]; [|exact Hre].
    case_decide; [|exact Hre].
    apply (indices_suffix 0 (items (live_buffer s)) 0 s); done.
Qed.

Lemma run_invariant (P : State -> Prop) (evs : list Event) (s : State) :
  (∀ ev s, P s -> P (step ev s)) -> P s -> P (run evs s).
Proof.
  intros Hstep. revert s. induction evs as [|ev evs IH]; intros s Hs; [done|].
  unfold run. simpl. apply IH. by apply Hstep.
Qed.

Lemma startup_indices_ok (cfg : Config) (client : MultiLLM.Client)
      (mgrs : gmap string Manager.IndependentModelManager) (s : State) :
  startup cfg client mgrs = Ok s -> indices_ok s.
Proof.
  unfold startup, load_config, deque_new, rbind. intros Hs.
  repeat case_decide; simplify_eq.
  unfold indices_ok, peek_last. simpl. unfold lastn. simpl.
  split; [constructor|]. split; [constructor|]. split; [done|]. done.
Qed.

End Indices.

(** X3.  In every state the service reaches from start-up (requests to
    [/ingest], background analyses, reconfigurations of any kind), the
    rows of the sliding window carry strictly increasing sequence indices
    between 1 and [_aggregated_count], and the newest row carries
    [_aggregated_count] itself.  So the first event of a new subscriber
    of [/stream] is the row of the current aggregated count. *)
Theorem X3_window_indices (cfg : App.Config) (client : MultiLLM.Client)
        (mgrs : gmap string Manager.IndependentModelManager)
        (s : App.State) (evs : list App.Event) :
  App.startup cfg client mgrs = Ok s ->
  let s' := App.run evs s in
  StronglySorted Z.lt (map App.time (items (App.live_buffer s')))
  ∧ (∀ row, row ∈ items (App.live_buffer s') ->
       (1 ≤ App.time row ≤ App._aggregated_count s')%Z)
  ∧ (∀ row, peek_last (App.live_buffer s') = Some row ->
       App.time row = App._aggregated_count s')
  ∧ (∀ frames seen, App.event_generator_turn (App.live_buffer s') None = (frames, seen) ->
       frames = [] ∧ items (App.live_buffer s') = []
       ∨ ∃ row, frames = [App.Data row] ∧ App.time row = App._aggregated_count s').
Proof.
  intros Hstart. cbv zeta.
  assert (Hok : Inv.indices_ok (App.run evs s)).
  { apply run_invariant; [apply step_indices_ok|]. by eapply startup_indices_ok. }
  destruct Hok as (Hs & Hall & _ & Hlast).
  split; [exact Hs|]. split; [by apply Forall_forall|]. split; [exact Hlast|].
  intros frames seen. unfold App.event_generator_turn.
  destruct (peek_last (App.live_buffer (App.run evs s))) as [row|] eqn:Hrow.
  - rewrite decide_True by done. intros [= <- <-]. right. exists row. split; [done|].
    by apply Hlast.
  - intros [= <- <-]. left. split; [done|]. by apply last_None.
Qed.

Lemma X3_window_indices_witness :
  let evs := map App.Ingest (Scenario.first_rows ++ [Scenario.row5])
             ++ [App.Reconfigure Scenario.shrink] in
  let s' := App.run evs Scenario.state0 in
  App.startup Scenario.config Scenario.client0 {[ "gemini" := Scenario.manager0 ]}
  = Ok Scenario.state0
  ∧ map App.time (items (App.live_buffer s')) = [3; 4; 5]%Z
  ∧ App._aggregated_count s' = 5%Z
  ∧ StronglySorted Z.lt (map App.time (items (App.live_buffer s')))
  ∧ (∀ row, peek_last (App.live_buffer s') = Some row ->
       App.time row = App._aggregated_count s').
Proof.
  cbv zeta.
  assert (Hstart : App.startup Scenario.config Scenario.client0
                     {[ "gemini" := Scenario.manager0 ]} = Ok Scenario.state0)
    by reflexivity.
  destruct (X3_window_indices _ _ _ _
              (map App.Ingest (Scenario.first_rows ++ [Scenario.row5])
               ++ [App.Reconfigure Scenario.shrink]) Hstart) as (Hs & _ & Hlast & _).
  split; [exact Hstart|]. split; [vm_compute; reflexivity|].
  split; [vm_compute; reflexivity|]. split; [exact Hs|exact Hlast].
Defined.

(** ** The accumulator of raw rows *)

Section Accumulator.
Import App Path Inv.

Lemma feature_complete_raw (dp : gmap string float) :
  size (raw_row_of dp) = length FEATURE_COLUMNS -> Spec.feature_complete (raw_row_of dp).
Proof. intros H. apply raw_complete. by apply complete_iff_size. Qed.






End Accumulator.




(** ** A decimation size of zero *)

Section Starvation.
Import App Path Inv.

Lemma set_raw_same (s : State) : set__recent_raw_rows (_recent_raw_rows s) s = s.
Proof. by destruct s. Qed.

(** With an accumulator of bound zero a request changes nothing, and
    is answered "ignored" or "aggregating" with no row held. *)
Lemma zero_bound_request (dp : gmap string float) (v : Verdict) (t : float) (s : State) :
  _recent_raw_rows s = Deque [] 0 ->
  (ingest_live_point dp v t s).2 = s
  ∧ ((∃ present, (ingest_live_point dp v t s).1 = Ok (Ignored present))
     ∨ (ingest_live_point dp v t s).1 = Ok (Aggregating 0 (decimation_N s))).
Proof.
  intros Hraw. pose proof (ingest_run dp v t s) as Hrun. cbv zeta in Hrun.
  case_decide; [rewrite Hrun; split; [done|left; by eexists]|].
  assert (Hacc : accumulated (raw_row_of dp) s = s).
  { unfold accumulated. rewrite Hraw. unfold append. cbn [items maxlen].
    rewrite lastn_0. rewrite <- Hraw. apply set_raw_same. }
  rewrite Hacc in Hrun. rewrite Hraw in Hrun. unfold len in Hrun. cbn [items length] in Hrun.
  rewrite decide_True in Hrun by lia.
  rewrite Hrun. split; [done|by right].
Qed.

End Starvation.

(** X5.  The decimation size of the configuration file is not clamped
    at start-up (the handler of [/config/runtime] clamps it to at least
    one).  With [decimation_N] = 0 the accumulator has the bound zero and
    never holds a row: every request is answered "ignored" or
    "aggregating" with [have] = 0, no aggregated row is ever produced and
    the state of the service never changes. *)
Theorem X5_zero_decimation_starves (cfg : App.Config) (client : MultiLLM.Client)
        (mgrs : gmap string Manager.IndependentModelManager)
        (s : App.State) (reqs : list App.Request) :
  App.startup cfg client mgrs = Ok s ->
  App.cfg_decimation_N cfg = Some 0%Z ->
  App.ingest_all reqs s = s
  ∧ App._aggregated_count (App.ingest_all reqs s) = 0%Z
  ∧ items (App.live_buffer (App.ingest_all reqs s)) = []
  ∧ Forall (fun resp => (∃ present, resp = Ok (App.Ignored present))
                        ∨ resp = Ok (App.Aggregating 0 0))
           (App.responses reqs s).
Proof.
  intros Hstart Hzero.
  assert (Hs : App._recent_raw_rows s = Deque [] 0 ∧ App.decimation_N s = 0%Z
               ∧ App._aggregated_count s = 0%Z ∧ items (App.live_buffer s) = []).
  { revert Hstart. unfold App.startup, App.load_config, rbind.
    repeat case_decide; try done. rewrite Hzero. unfold deque_new. simpl.
    repeat case_decide; intros; simplify_eq. simpl. unfold lastn. by simpl. }
  destruct Hs as (Hraw & HN & Hcount & Hbuf).
  assert (Hrun : App.ingest_all reqs s = s
                 ∧ Forall (fun resp => (∃ present, resp = Ok (App.Ignored present))
                                       ∨ resp = Ok (App.Aggregating 0 0))
                          (App.responses reqs s)).
  { induction reqs as [|r reqs IH]; [split; [done|constructor]|].
    destruct (zero_bound_request (App.data_point r) (App.verdict r) (App.clock r) s Hraw)
      as [Hsame Hresp].
    simpl. rewrite Hsame. destruct IH as [IH1 IH2]. split; [exact IH1|].
    constructor; [|exact IH2]. rewrite HN in Hresp. exact Hresp. }
  destruct Hrun as [Hsame Hall]. rewrite Hsame. done.
Qed.

Lemma X5_zero_decimation_starves_witness :
  App.startup Examples.config_zero Scenario.client0 {[ "gemini" := Scenario.manager0 ]}
  = Ok Examples.state_zero
  ∧ App.cfg_decimation_N Examples.config_zero = Some 0%Z
  ∧ App.ingest_all Scenario.five_raw_rows Examples.state_zero = Examples.state_zero
  ∧ App._aggregated_count (App.ingest_all Scenario.five_raw_rows Examples.state_zero) = 0%Z
  ∧ Forall (fun resp => (∃ present, resp = Ok (App.Ignored present))
                        ∨ resp = Ok (App.Aggregating 0 0))
           (App.responses Scenario.five_raw_rows Examples.state_zero).
Proof.
  assert (Hstart : App.startup Examples.config_zero Scenario.client0
                     {[ "gemini" := Scenario.manager0 ]} = Ok Examples.state_zero)
    by reflexivity.
  destruct (X5_zero_decimation_starves _ _ _ _ Scenario.five_raw_rows Hstart eq_refl)
    as (Hsame & Hcount & _ & Hall).
  split; [exact Hstart|]. split; [reflexivity|]. split; [exact Hsame|].
  split; [exact Hcount|exact Hall].
Defined.

(** ** Errors of the ingest handler, and the in-flight flag *)

Section IngestErrors.
Import App Path Inv.

(** The rows of the accumulator stay feature-complete. *)
Lemma ingest_raw_complete (dp : gmap string float) (v : Verdict) (t : float) (s : State) :
  Forall Spec.feature_complete (items (_recent_raw_rows s)) ->
  Forall Spec.feature_complete (items (_recent_raw_rows (ingest_live_point dp v t s).2)).
Proof.
  intros Hall.
  destruct (ingest_effect dp v t s)
    as [[_ ->]|[(Hsz & _ & _ & _ & _ & Hraw)|(Hsz & _ & _ & _ & Hraw)]].
  - done.
  - rewrite Hraw. unfold append. cbn [items]. apply Forall_drop. apply Forall_app.
    split; [done|]. constructor; [by apply feature_complete_raw|constructor].
  - rewrite Hraw. constructor.
Qed.

(** Aggregating a full accumulator of feature-complete rows raises
    nothing. *)
Lemma aggregate_accumulated (dp : gmap string float) (s : State) :
  Forall Spec.feature_complete (items (_recent_raw_rows s)) ->
  size (raw_row_of dp) = length FEATURE_COLUMNS ->
  ¬ (Z.of_nat (len (_recent_raw_rows (accumulated (raw_row_of dp) s)))
     < Z.max 1 (decimation_N s))%Z ->
  ∃ row, aggregate (items (_recent_raw_rows (accumulated (raw_row_of dp) s))) = Ok row.
Proof.
  intros Hall Hsz Hfull.
  destruct (aggregate_mean (items (_recent_raw_rows (accumulated (raw_row_of dp) s))))
    as (row & Hrow & _).
  - intros Hnil. unfold len in Hfull. rewrite Hnil in Hfull. simpl in Hfull. lia.
  - unfold accumulated, append. cbn [_recent_raw_rows set__recent_raw_rows items].
    apply Forall_drop. apply Forall_app. split; [done|].
    constructor; [by apply feature_complete_raw|constructor].
  - by exists row.
Qed.

(** The one error a request can meet is the unbound name of the trigger
    path; the acknowledgment "triggered" is never sent. *)
Lemma ingest_outcome (dp : gmap string float) (v : Verdict) (t : float) (s : State) :
  Forall Spec.feature_complete (items (_recent_raw_rows s)) ->
  let out := ingest_live_point dp v t s in
  (∃ ack, out.1 = Ok ack
          ∧ loop_tasks out.2 = loop_tasks s
          ∧ (∀ r, ack = Processed r ->
               (res_llm r = not_triggered
                ∨ (res_llm r = analyzing_in_progress
                   ∧ is_analyzing (anomaly_state_tracker s) = true
                   ∧ v_is_anom v = true)
                ∨ (∃ seconds, res_llm r = rate_limited seconds
                              ∧ (can_send_llm_request t (anomaly_state_tracker s)).1 = false
                              ∧ is_analyzing (anomaly_state_tracker s) = false
                              ∧ v_is_anom v = true))
               ∧ (v_is_anom v = false -> _consecutive_anomalies out.2 = 0%Z)))
  ∨ (out.1 = Raise (HTTPException 500 "name 'now' is not defined")
     ∧ (∃ task, loop_tasks out.2 = loop_tasks s ++ [task])
     ∧ v_is_anom v = true
     ∧ is_analyzing (anomaly_state_tracker s) = false
     ∧ (can_send_llm_request t (anomaly_state_tracker s)).1 = true
     ∧ _consecutive_anomalies out.2 = 0%Z).
Proof.
  intros Hall. cbv zeta.
  pose proof (ingest_run dp v t s) as Hrun. cbv zeta in Hrun.
  case_decide as Hsize.
  { rewrite Hrun. left. eexists. split; [done|]. split; [done|]. intros r Hr. simplify_eq. }
  assert (Hsz : size (raw_row_of dp) = length FEATURE_COLUMNS)
    by (destruct (decide (size (raw_row_of dp) = length FEATURE_COLUMNS)); [done|by destruct Hsize]).
  case_decide as Hlt.
  { rewrite Hrun. left. eexists. split; [done|]. split; [done|]. intros r Hr. simplify_eq. }
  destruct (aggregate_accumulated dp s Hall Hsz Hlt) as [row Hrow].
  rewrite Hrow in Hrun. destruct Hrun as (result & Hllm & ->).
  change (anomaly_state_tracker (scored row v _)) with (anomaly_state_tracker s).
  destruct (gate_open (v_is_anom v) (scored row v (accumulated (raw_row_of dp) s))) eqn:Hgate.
  - assert (Hanom : v_is_anom v = true).
    { unfold gate_open in Hgate. destruct (v_is_anom v); [done|]. simpl in Hgate. done. }
    destruct (is_analyzing (anomaly_state_tracker s)) eqn:Hflag.
    + left. eexists. split; [done|]. split; [done|]. intros r Hr. simplify_eq.
      rewrite Hllm. split; [right; left; done|]. intros Hn. congruence.
    + destruct (can_send_llm_request t (anomaly_state_tracker s)).1 eqn:Hsend.
      * right. split; [done|]. split; [by eexists|]. done.
      * left. eexists. split; [done|]. split; [done|]. intros r Hr. simplify_eq.
        rewrite Hllm. split; [right; right; by eexists|]. intros Hn. congruence.
  - left. eexists. split; [done|]. split; [done|]. intros r Hr. simplify_eq.
    rewrite Hllm. split; [by left|]. intros Hn. simpl. by rewrite Hn.
Qed.

End IngestErrors.

(** X6.  While a background analysis is in flight, no request creates
    another analysis task and every request is acknowledged (none meets
    the error of the trigger path): the rows that pass the gate are
    answered "analyzing_in_progress", the others "not_triggered". *)
Theorem X6_no_trigger_while_in_flight (reqs : list App.Request) (s : App.State) :
  App.is_analyzing (App.anomaly_state_tracker s) = true ->
  Forall Spec.feature_complete (items (App._recent_raw_rows s)) ->
  let s' := App.ingest_all reqs s in
  App.loop_tasks s' = App.loop_tasks s
  ∧ App.is_analyzing (App.anomaly_state_tracker s') = true
  ∧ Forall (fun resp =>
              ∃ ack, resp = Ok ack
                     ∧ ∀ r, ack = App.Processed r ->
                         App.res_llm r = App.analyzing_in_progress
                         ∨ App.res_llm r = App.not_triggered)
           (App.responses reqs s).
Proof.
  cbv zeta. revert s. induction reqs as [|r reqs IH]; intros s Hflag Hall.
  { split; [done|]. split; [done|constructor]. }
  simpl.
  destruct (ingest_decimation (App.data_point r) (App.verdict r) (App.clock r) s)
    as (_ & _ & Htr).
  pose proof (ingest_raw_complete (App.data_point r) (App.verdict r) (App.clock r) s Hall)
    as Hall'.
  destruct (ingest_outcome (App.data_point r) (App.verdict r) (App.clock r) s Hall)
    as [(ack & Hack & Htasks & Hllm)|(_ & _ & _ & Hno & _)]; [|congruence].
  destruct (IH (App.ingest_live_point (App.data_point r) (App.verdict r) (App.clock r) s).2)
    as (IH1 & IH2 & IH3); [by rewrite Htr|exact Hall'|].
  split; [by rewrite IH1|]. split; [exact IH2|].
  constructor; [|exact IH3].
  exists ack. split; [exact Hack|]. intros res Hres.
  destruct (Hllm res Hres) as [[Hn|[[Hp _]|(sec & _ & _ & Hno & _)]] _].
  - by right.
  - by left.
  - congruence.
Qed.

Lemma X6_no_trigger_while_in_flight_witness :
  let started := App.bg_begin (of_Z 1005) Scenario.state5 in
  App.is_analyzing (App.anomaly_state_tracker started) = true
  ∧ Forall Spec.feature_complete (items (App._recent_raw_rows started))
  ∧ App.loop_tasks (App.ingest_all Scenario.next_rows started) = App.loop_tasks started
  ∧ App.is_analyzing (App.anomaly_state_tracker (App.ingest_all Scenario.next_rows started))
    = true
  ∧ Forall (fun resp =>
              ∃ ack, resp = Ok ack
                     ∧ ∀ r, ack = App.Processed r ->
                         App.res_llm r = App.analyzing_in_progress
                         ∨ App.res_llm r = App.not_triggered)
           (App.responses Scenario.next_rows started).
Proof.
  cbv zeta.
  assert (Hflag : App.is_analyzing
                    (App.anomaly_state_tracker (App.bg_begin (of_Z 1005) Scenario.state5)) = true)
    by reflexivity.
  assert (Hall : Forall Spec.feature_complete
                   (items (App._recent_raw_rows (App.bg_begin (of_Z 1005) Scenario.state5)))).
  { replace (items (App._recent_raw_rows (App.bg_begin (of_Z 1005) Scenario.state5)))
      with (@nil (gmap string float)) by (vm_compute; reflexivity).
    constructor. }
  split; [exact Hflag|]. split; [exact Hall|].
  exact (X6_no_trigger_while_in_flight Scenario.next_rows _ Hflag Hall).
Defined.

(** X7.  With feature-complete rows in the accumulator, a request to
    [/ingest] fails in exactly one situation: it creates the background
    analysis task.  Then the response is HTTP 500 with the text of the
    unbound name, the task stays created and the run of consecutive
    anomalies is reset.  Every other request is acknowledged and creates
    no task; in particular a row that the detector does not flag is
    always acknowledged, and resets the run of consecutive anomalies when
    it completes an aggregated row.  No acknowledgment ever carries the
    status "triggered". *)
Theorem X7_ingest_fails_exactly_on_trigger (dp : gmap string float) (v : App.Verdict)
        (t : float) (s : App.State) :
  Forall Spec.feature_complete (items (App._recent_raw_rows s)) ->
  let out := App.ingest_live_point dp v t s in
  (is_Ok out.1 = false ↔ App.loop_tasks out.2 ≠ App.loop_tasks s)
  ∧ (∀ e, out.1 = Raise e ->
       e = HTTPException 500 "name 'now' is not defined"
       ∧ (∃ task, App.loop_tasks out.2 = App.loop_tasks s ++ [task])
       ∧ App._consecutive_anomalies out.2 = 0%Z
       ∧ App.v_is_anom v = true)
  ∧ (App.v_is_anom v = false ->
       ∃ ack, out.1 = Ok ack
              ∧ ∀ r, ack = App.Processed r ->
                  App.res_llm r = App.not_triggered
                  ∧ App._consecutive_anomalies out.2 = 0%Z)
  ∧ (∀ r features, out.1 = Ok (App.Processed r) -> App.res_llm r ≠ App.triggered features).
Proof.
  intros Hall. cbv zeta.
  destruct (ingest_outcome dp v t s Hall)
    as [(ack & Hack & Htasks & Hllm)|(Herr & (task & Htask) & Hanom & _ & _ & Hzero)].
  - rewrite Hack, Htasks. split; [split; [done|intros Hne; by destruct Hne]|].
    split; [intros e He; discriminate He|]. split.
    + intros Hn. exists ack. split; [done|]. intros r Hr.
      destruct (Hllm r Hr) as [Hres Hcons]. split; [|by apply Hcons].
      destruct Hres as [Hnt|[(_ & _ & Ha)|(sec & _ & _ & _ & Ha)]]; [done| |]; congruence.
    + intros r features Hr. rewrite Hr in Hack. simplify_eq.
      destruct (Hllm r eq_refl) as [[H1|[[H1 _]|(? & H1 & _)]] _]; rewrite H1; discriminate.
  - rewrite Herr, Htask. split.
    { split; [intros _ Heq|done].
      apply (f_equal length) in Heq. rewrite length_app in Heq. simpl in Heq. lia. }
    split; [intros e He; simplify_eq; split; [done|]; split; [by eexists|done]|].
    split; [intros Hn; congruence|]. intros r features Hr. discriminate Hr.
Qed.

Lemma X7_ingest_fails_exactly_on_trigger_witness :
  let s4 := App.ingest_all Scenario.first_rows Scenario.state0 in
  let out := App.ingest_live_point (App.data_point Scenario.row5) (App.verdict Scenario.row5)
               (App.clock Scenario.row5) s4 in
  Forall Spec.feature_complete (items (App._recent_raw_rows s4))
  ∧ (is_Ok out.1 = false ↔ App.loop_tasks out.2 ≠ App.loop_tasks s4)
  ∧ out.1 = Raise (HTTPException 500 "name 'now' is not defined")
  ∧ App._consecutive_anomalies out.2 = 0%Z.
Proof.
  cbv zeta.
  assert (Hall : Forall Spec.feature_complete
                   (items (App._recent_raw_rows
                             (App.ingest_all Scenario.first_rows Scenario.state0)))).
  { replace (items (App._recent_raw_rows (App.ingest_all Scenario.first_rows Scenario.state0)))
      with (@nil (gmap string float)) by (vm_compute; reflexivity).
    constructor. }
  destruct (X7_ingest_fails_exactly_on_trigger (App.data_point Scenario.row5)
              (App.verdict Scenario.row5) (App.clock Scenario.row5) _ Hall)
    as (Hiff & Herr & _ & _).
  assert (Hout : (App.ingest_live_point (App.data_point Scenario.row5)
                    (App.verdict Scenario.row5) (App.clock Scenario.row5)
                    (App.ingest_all Scenario.first_rows Scenario.state0)).1
                 = Raise (HTTPException 500 "name 'now' is not defined"))
    by (vm_compute; reflexivity).
  split; [exact Hall|]. split; [exact Hiff|]. split; [exact Hout|].
  destruct (Herr _ Hout) as (_ & _ & Hzero & _). exact Hzero.
Defined.

(** ** The interval of the rate limiter *)

Section Interval.
Import App Path Inv.




End Interval.






(** ** The rate limiter and its other users *)

Section RateLimiter.
Import App Limiter.
Local Open Scope Qc_scope.

Lemma can_send_iff (t : float) (tr : AnomalyStateTracker) :
  (can_send_llm_request t tr).1 = true
  ↔ min_llm_interval tr <= t - last_llm_request_time tr.
Proof.
  unfold can_send_llm_request. case_bool_decide as Hlt; simpl.
  - split; [done|]. intros Hle. exfalso. by apply Qcle_not_lt in Hle.
  - split; [|done]. intros _. by apply Qcnot_lt_le.
Qed.

(** A refusal carries the wait still needed, rounded to one decimal,
    and the interval. *)
Lemma can_send_reason (t : float) (tr : AnomalyStateTracker) :
  (can_send_llm_request t tr).1 = false ->
  (can_send_llm_request t tr).2
  = TooSoon (tenths (min_llm_interval tr - (t - last_llm_request_time tr)))
            (min_llm_interval tr)
  ∧ t - last_llm_request_time tr < min_llm_interval tr.
Proof.
  unfold can_send_llm_request. case_bool_decide as Hlt; simpl; done.
Qed.

Lemma Qc_le_sub_iff (a b c : float) : a <= b - c ↔ c + a <= b.
Proof.
  rewrite (Qcle_minus_iff a (b - c)), (Qcle_minus_iff (c + a) b).
  by replace (b - c + - a) with (b + - (c + a)) by ring.
Qed.

(** Requests to [/ingest] inside the interval create no task and leave
    the limiter as it is. *)
Lemma ingest_all_cooldown (reqs : list Request) (s : State) :
  Forall (fun r => clock r - last_llm_request_time (anomaly_state_tracker s)
                   < min_llm_interval (anomaly_state_tracker s)) reqs ->
  loop_tasks (ingest_all reqs s) = loop_tasks s
  ∧ anomaly_state_tracker (ingest_all reqs s) = anomaly_state_tracker s.
Proof.
  revert s. induction reqs as [|r reqs IH]; intros s Hall; [done|].
  apply Forall_cons in Hall as [Hr Hall]. cbn [ingest_all foldl].
  destruct (ingest_decimation (data_point r) (verdict r) (clock r) s) as (_ & _ & Htr).
  cbv zeta in Htr.
  assert (Htasks : loop_tasks (ingest_live_point (data_point r) (verdict r) (clock r) s).2
                   = loop_tasks s).
  { destruct (ingest_tasks (data_point r) (verdict r) (clock r) s)
      as [Heq|(_ & _ & _ & Hyes)]; [exact Heq|].
    exfalso. apply can_send_iff in Hyes. by apply Qcle_not_lt in Hyes. }
  specialize (IH (ingest_live_point (data_point r) (verdict r) (clock r) s).2).
  unfold ingest_all in IH. rewrite Htr in IH. destruct (IH Hall) as [-> ->]. done.
Qed.

End RateLimiter.

(** X9.  The rate limiter of [AnomalyStateTracker].  After a request
    was marked at [t0], a request at [t] is allowed exactly when
    [min_llm_interval] seconds have gone by, that is from [t0 +
    min_llm_interval] on and at no earlier time.  A refusal comes with
    the reason "Too soon", which names the wait still needed rounded to
    one decimal and the interval: the wait itself is positive, but the
    number in the text can read 0.0.  [/reset_lmstudio] puts the time of
    the last request back to 0 and keeps the interval, after which the
    limiter depends on the clock alone. *)
Theorem X9_rate_limiter_opens_after_the_interval (tr : App.AnomalyStateTracker)
        (t0 t : float) :
  let tr' := App.mark_llm_request_sent t0 tr in
  ((App.can_send_llm_request t tr').1 = true ↔ (App.min_llm_interval tr ≤ t - t0)%Qc)
  ∧ ((App.can_send_llm_request t tr').1 = true ↔ (t0 + App.min_llm_interval tr ≤ t)%Qc)
  ∧ ((App.can_send_llm_request t tr').1 = false ->
       (App.can_send_llm_request t tr').2
       = App.TooSoon (App.tenths (App.min_llm_interval tr - (t - t0))%Qc)
                     (App.min_llm_interval tr)
       ∧ (0 < App.min_llm_interval tr - (t - t0))%Qc)
  ∧ App.can_send_llm_request (Q2Qc (2996 # 100))
      (App.mark_llm_request_sent 0%Qc (App.tracker_init (of_Z 5) (of_Z 30)))
    = (false, App.TooSoon 0 (of_Z 30))
  ∧ (∀ (s : App.State) (now : float),
       let s' := (Limiter.reset_lmstudio s).2 in
       App.min_llm_interval (App.anomaly_state_tracker s')
       = App.min_llm_interval (App.anomaly_state_tracker s)
       ∧ App.last_llm_request_time (App.anomaly_state_tracker s') = 0%Qc
       ∧ ((App.can_send_llm_request now (App.anomaly_state_tracker s')).1 = true
          ↔ (App.min_llm_interval (App.anomaly_state_tracker s) ≤ now)%Qc)).
Proof.
  cbv zeta. split; [|split; [|split; [|split]]].
  - rewrite can_send_iff. done.
  - rewrite can_send_iff. simpl. apply Qc_le_sub_iff.
  - intros Hno. destruct (can_send_reason _ _ Hno) as [Hw Hlt].
    simpl in Hw, Hlt. split; [exact Hw|].
    apply Qclt_minus_iff in Hlt. exact Hlt.
  - by vm_compute.
  - intros s now. cbv zeta. split; [reflexivity|]. split; [reflexivity|].
    rewrite can_send_iff. simpl.
    replace (now - 0)%Qc with now by ring. done.
Qed.

(** X10.  [/explain] and [/ingest] share the one rate limiter.  An
    admitted [/explain] marks it, so of the requests to [/ingest] that
    follow, none made less than [min_llm_interval] seconds after the mark
    starts a background analysis.  A refused [/explain] gets status 429
    and changes nothing; its reason names the wait still needed rounded
    to one decimal, and its [retry_after] is the full interval, after
    which the request is allowed when the time on record is not ahead of
    the clock. *)
Theorem X10_explain_and_ingest_share_the_cooldown (s : App.State)
        (checked_at marked_at : float) :
  let out := Limiter.explain_admission checked_at marked_at s in
  let interval := App.min_llm_interval (App.anomaly_state_tracker s) in
  let last := App.last_llm_request_time (App.anomaly_state_tracker s) in
  (out.1 = Ok Limiter.Passed ->
     (interval ≤ checked_at - last)%Qc
     ∧ ∀ reqs,
         Forall (fun r => (App.clock r - marked_at < interval)%Qc) reqs ->
         App.loop_tasks (App.ingest_all reqs out.2) = App.loop_tasks s)
  ∧ (∀ status_code reason retry_after,
       out.1 = Ok (Limiter.Refused status_code reason retry_after) ->
       out.2 = s
       ∧ status_code = 429%Z
       ∧ retry_after = interval
       ∧ reason = App.TooSoon (App.tenths (interval - (checked_at - last))%Qc) interval
       ∧ (checked_at - last < interval)%Qc
       ∧ ((last ≤ checked_at)%Qc ->
          (App.can_send_llm_request (checked_at + retry_after)%Qc
             (App.anomaly_state_tracker s)).1 = true))
  ∧ (∃ a, out.1 = Ok a).
Proof.
  cbv zeta. unfold Limiter.explain_admission, mbind, M_bind, bind, get, modify.
  cbn [fst snd].
  destruct (App.can_send_llm_request checked_at (App.anomaly_state_tracker s))
    as [[|] w] eqn:Hsend; simpl.
  - split; [|split; [intros; simplify_eq|by eexists]].
    intros _. split.
    + apply can_send_iff. by rewrite Hsend.
    + intros reqs Hall.
      match goal with |- App.loop_tasks (App.ingest_all reqs ?s1) = _ =>
        destruct (ingest_all_cooldown reqs s1 Hall) as [Htasks _] end.
      exact Htasks.
  - split; [intros; simplify_eq|]. split; [|by eexists].
    intros status_code reason retry_after [= <- <- <-].
    assert (Hno : (App.can_send_llm_request checked_at (App.anomaly_state_tracker s)).1 = false)
      by (by rewrite Hsend).
    destruct (can_send_reason _ _ Hno) as [Hw Hlt]. rewrite Hsend in Hw. simpl in Hw.
    split; [done|]. split; [done|]. split; [done|]. split; [exact Hw|]. split; [exact Hlt|].
    intros Hclock. apply can_send_iff. apply Qcle_minus_iff.
    replace (checked_at + App.min_llm_interval (App.anomaly_state_tracker s)
             - App.last_llm_request_time (App.anomaly_state_tracker s)
             + - App.min_llm_interval (App.anomaly_state_tracker s))%Qc
      with (checked_at + - App.last_llm_request_time (App.anomaly_state_tracker s))%Qc by ring.
    by apply Qcle_minus_iff in Hclock.
Qed.


(** ** The order of [sorted] *)

Section StringOrder.
Import Change.

Lemma ascii_compare_lt_trans (a b c : Ascii.ascii) :
  Ascii.compare a b = Lt -> Ascii.compare b c = Lt -> Ascii.compare a c = Lt.
Proof.
  unfold Ascii.compare. rewrite !N.compare_lt_iff. lia.
Qed.

Lemma string_compare_trans (a : string) :
  ∀ b c, String.compare a b ≠ Gt -> String.compare b c ≠ Gt -> String.compare a c ≠ Gt.
Proof.
  induction a as [|x a IH]; intros [|y b] [|z c]; simpl; try done.
  destruct (Ascii.compare x y) eqn:Hxy; [|intros _|done].
  - apply Ascii.compare_eq_iff in Hxy. subst y.
    destruct (Ascii.compare x z) eqn:Hxz; [apply IH|done|done].
  - destruct (Ascii.compare y z) eqn:Hyz; [|intros _|done].
    + apply Ascii.compare_eq_iff in Hyz. subst z. by rewrite Hxy.
    + by rewrite (ascii_compare_lt_trans x y z).
Qed.

#[local] Instance str_le_trans : Transitive str_le.
Proof.
  intros a b c. unfold str_le, String.leb. intros Hab Hbc.
  pose proof (string_compare_trans a b c) as H.
  destruct (String.compare a b); try done;
    destruct (String.compare b c); try done;
    destruct (String.compare a c); try done; exfalso; by apply H.
Qed.

#[local] Instance str_le_total : Total str_le.
Proof. intros a b. apply String.leb_total. Qed.

#[local] Instance str_le_antisym : AntiSymm (=) str_le.
Proof. intros a b. apply String.leb_antisym. Qed.

(** [sorted] does not depend on the order of its argument. *)
Lemma sorted_perm (l l' : list string) : l ≡ₚ l' -> sorted l = sorted l'.
Proof.
  intros Hp. apply (Sorted_unique str_le).
  - apply Sorted_merge_sort; apply _.
  - apply Sorted_merge_sort; apply _.
  - unfold sorted. by rewrite !merge_sort_Permutation.
Qed.

End StringOrder.

(** ** A repeated report of the same anomaly state *)

Section ChangeDetection.
Import Change.
Variable round : float -> Z -> float.
Variable digest : StateRepr -> string.

Lemma compute_state_hash_perm (features features' : list string)
      (data : gmap string (list float)) :
  features ≡ₚ features' ->
  _compute_state_hash round digest features data
  = _compute_state_hash round digest features' data.
Proof. intros Hp. unfold _compute_state_hash. by rewrite (sorted_perm _ _ Hp). Qed.

(** After a check, the stored hash is the hash of the state checked. *)
Lemma has_state_changed_hash (now : float) (features : list string)
      (data : gmap string (list float)) (t : Tracker) :
  last_state_hash (has_state_changed round digest now features data t).2
  = Some (_compute_state_hash round digest features data).
Proof.
  unfold has_state_changed. destruct (last_state_hash t) as [h|] eqn:Hh; [|done].
  case_decide as Hne; [done|].
  assert (_compute_state_hash round digest features data = h) as ->
    by (destruct (decide (_compute_state_hash round digest features data = h)); [done|by destruct Hne]).
  by case_bool_decide.
Qed.

(** A check of the state whose hash is stored answers "no change" and
    leaves the tracker as it is. *)
Lemma has_state_changed_same (now : float) (features : list string)
      (data : gmap string (list float)) (t : Tracker) :
  last_state_hash t = Some (_compute_state_hash round digest features data) ->
  (has_state_changed round digest now features data t).1.1 = false
  ∧ (has_state_changed round digest now features data t).2 = t.
Proof.
  intros Hh. unfold has_state_changed. rewrite Hh.
  rewrite decide_False by (by intros ?). by case_bool_decide.
Qed.

Definition nonempty (kv : string * list float) : Prop := (0 < length kv.2)%nat.

#[local] Instance nonempty_dec kv : Decision (nonempty kv).
Proof. unfold nonempty. apply _. Defined.

Lemma collect_anomalies_snoc (data : list (string * list float)) (feature : string)
      (values : list float) :
  collect_anomalies (data ++ [(feature, values)])
  = if decide (0 < length values)%nat
    then ((collect_anomalies data).1 ++ [feature],
          <[feature := values]> (collect_anomalies data).2)
    else collect_anomalies data.
Proof.
  unfold collect_anomalies. rewrite foldl_snoc.
  destruct (foldl _ _ data) as [fs d]. done.
Qed.

Lemma collect_anomalies_features (data : list (string * list float)) :
  (collect_anomalies data).1 = map fst (filter nonempty data).
Proof.
  induction data as [|[feature values] data IH] using rev_ind; [done|].
  rewrite collect_anomalies_snoc, filter_app, map_app. rewrite <- IH.
  case_decide as Hne.
  - rewrite filter_cons_True by done. done.
  - rewrite filter_cons_False by done. simpl. by rewrite app_nil_r.
Qed.

Lemma collect_anomalies_lookup (data : list (string * list float)) (k : string)
      (v : list float) :
  NoDup (map fst data) ->
  (collect_anomalies data).2 !! k = Some v ↔ (k, v) ∈ filter nonempty data.
Proof.
  induction data as [|[feature values] data IH] using rev_ind; intros Hnd.
  - simpl. rewrite lookup_empty. split; [done|]. intros H. by apply elem_of_nil in H.
  - rewrite map_app in Hnd. apply NoDup_app in Hnd as (Hnd & Hfresh & _).
    specialize (IH Hnd).
    assert (Hf : ∀ v', (feature, v') ∉ filter nonempty data).
    { intros v' Hin. apply list_elem_of_filter in Hin as [_ Hin].
      apply (Hfresh feature); [|simpl; left].
      apply list_elem_of_fmap. by exists (feature, v'). }
    rewrite collect_anomalies_snoc, filter_app, elem_of_app.
    case_decide as Hne.
    + rewrite filter_cons_True by done. cbn [snd].
      destruct (decide (k = feature)) as [->|Hk].
      * rewrite lookup_insert_eq. split.
        -- intros [= ->]. right. by apply list_elem_of_singleton.
        -- intros [Hin|Hin]; [by apply Hf in Hin|].
           apply list_elem_of_singleton in Hin. by simplify_eq.
      * rewrite lookup_insert_ne by done. rewrite IH. split; [by left|].
        intros [Hin|Hin]; [done|]. apply list_elem_of_singleton in Hin. by simplify_eq.
    + rewrite filter_cons_False by done. rewrite IH. split; [by left|].
      intros [Hin|Hin]; [done|]. by apply elem_of_nil in Hin.
Qed.

(** Two requests that list the same non-empty series, in whatever order
    and with whatever empty series besides, describe the same state. *)
Lemma collect_anomalies_perm (data data' : list (string * list float)) :
  NoDup (map fst data) -> NoDup (map fst data') ->
  filter nonempty data ≡ₚ filter nonempty data' ->
  (collect_anomalies data).1 ≡ₚ (collect_anomalies data').1
  ∧ (collect_anomalies data).2 = (collect_anomalies data').2.
Proof.
  intros Hnd Hnd' Hp. split.
  - rewrite !collect_anomalies_features. by rewrite Hp.
  - apply map_eq. intros k. apply option_eq. intros v.
    rewrite !collect_anomalies_lookup by done. by rewrite Hp.
Qed.

End ChangeDetection.

(** X11.  [/check_anomaly_change] after a first report of an anomaly
    state: a second report of the same state (the same non-empty series,
    listed in any order, with any number of empty series besides) is
    answered "no change", whenever it comes, and leaves the tracker
    untouched, so the time of the last check is not refreshed.  The very
    first report is always answered as a change. *)
Theorem X11_same_anomaly_state_is_no_change (round : float -> Z -> float)
        (digest : Change.StateRepr -> string) (t : Change.Tracker)
        (t1 t2 : float) (data data' : list (string * list float)) :
  NoDup (map fst data) ->
  NoDup (map fst data') ->
  filter (fun kv => (0 < length kv.2)%nat) data
    ≡ₚ filter (fun kv => (0 < length kv.2)%nat) data' ->
  let first := Change.check_anomaly_change round digest t1 data t in
  let second := Change.check_anomaly_change round digest t2 data' first.2 in
  Change.should_analyze second.1 = false
  ∧ second.2 = first.2
  ∧ Change.reply_last_check_time second.1 = Change.last_check_time first.2
  ∧ Change.current_anomaly_count second.1 = Change.current_anomaly_count first.1
  ∧ (Change.last_state_hash t = None ->
       Change.should_analyze first.1 = true
       ∧ Change.reason first.1 = Change.FirstDetection
       ∧ Change.last_check_time first.2 = t1).
Proof.
  intros Hnd Hnd' Hp. cbv zeta.
  destruct (collect_anomalies_perm data data' Hnd Hnd' Hp) as [Hfs Hd].
  unfold Change.check_anomaly_change.
  destruct (Change.collect_anomalies data) as [fs d] eqn:Hc.
  destruct (Change.collect_anomalies data') as [fs' d'] eqn:Hc'.
  simpl in Hfs, Hd. subst d'.
  pose proof (has_state_changed_hash round digest t1 fs d t) as Hhash.
  destruct (Change.has_state_changed round digest t1 fs d t) as [[c1 w1] tr1] eqn:H1.
  cbn [fst snd] in *.
  rewrite (compute_state_hash_perm round digest fs fs' d Hfs) in Hhash.
  destruct (has_state_changed_same round digest t2 fs' d tr1 Hhash) as [Hno Hsame].
  destruct (Change.has_state_changed round digest t2 fs' d tr1) as [[c2 w2] tr2] eqn:H2.
  simpl in Hno, Hsame. subst c2 tr2. simpl.
  split; [done|]. split; [done|]. split; [done|].
  split; [symmetry; by apply Permutation_length|].
  intros Hnone. revert H1. unfold Change.has_state_changed. rewrite Hnone.
  intros [= <- <- <-]. done.
Qed.

Lemma X11_same_anomaly_state_is_no_change_witness :
  let t := Change.tracker_init (of_Z 5) in
  let first := Change.check_anomaly_change ChangeExamples.plain_round
                 ChangeExamples.names_digest (of_Z 100) ChangeExamples.report1 t in
  let second := Change.check_anomaly_change ChangeExamples.plain_round
                  ChangeExamples.names_digest (of_Z 160) ChangeExamples.report2 first.2 in
  NoDup (map fst ChangeExamples.report1)
  ∧ NoDup (map fst ChangeExamples.report2)
  ∧ filter (fun kv => (0 < length kv.2)%nat) ChangeExamples.report1
      ≡ₚ filter (fun kv => (0 < length kv.2)%nat) ChangeExamples.report2
  ∧ Change.should_analyze first.1 = true
  ∧ Change.should_analyze second.1 = false
  ∧ second.2 = first.2
  ∧ Change.reply_last_check_time second.1 = of_Z 100.
Proof.
  cbv zeta.
  assert (Hnd : NoDup (map fst ChangeExamples.report1))
    by (apply (bool_decide_unpack _); vm_compute; exact I).
  assert (Hnd' : NoDup (map fst ChangeExamples.report2))
    by (apply (bool_decide_unpack _); vm_compute; exact I).
  assert (Hp : filter (fun kv => (0 < length kv.2)%nat) ChangeExamples.report1
               ≡ₚ filter (fun kv => (0 < length kv.2)%nat) ChangeExamples.report2).
  { change (filter (fun kv => (0 < length kv.2)%nat) ChangeExamples.report1)
      with [ ("Reactor Pressure", [of_Z 2705; of_Z 2710]); ("Reactor Level", [of_Z 75]) ].
    change (filter (fun kv => (0 < length kv.2)%nat) ChangeExamples.report2)
      with [ ("Reactor Level", [of_Z 75]); ("Reactor Pressure", [of_Z 2705; of_Z 2710]) ].
    apply Permutation_swap. }
  destruct (X11_same_anomaly_state_is_no_change ChangeExamples.plain_round
              ChangeExamples.names_digest (Change.tracker_init (of_Z 5)) (of_Z 100) (of_Z 160)
              ChangeExamples.report1 ChangeExamples.report2 Hnd Hnd' Hp)
    as (Hno & Hsame & Htime & _ & Hfirst).
  destruct (Hfirst eq_refl) as (Hyes & _ & Hlast).
  split; [exact Hnd|]. split; [exact Hnd'|]. split; [exact Hp|].
  split; [exact Hyes|]. split; [exact Hno|]. split; [exact Hsame|].
  rewrite Htime. exact Hlast.
Defined.


(** ** Run-time toggles and the premium session *)

Section Toggles.
Import MultiLLM Toggle.

Lemma elem_of_active (c : Client) (m : string) :
  m ∈ get_active_models c
  ↔ (m ∈ enabled_models c ∧ ("disabled_" +:+ m) ∉ runtime_enabled_models c)
    ∨ (m ∈ runtime_enabled_models c ∧ String.prefix "disabled_" m = false).
Proof.
  unfold get_active_models. rewrite elem_of_union, !elem_of_filter, elem_of_list_to_set.
  tauto.
Qed.

Lemma known_not_marked (m : string) :
  m ∈ known_models -> String.prefix "disabled_" m = false ∧ ∀ x, m ≠ "disabled_" +:+ x.
Proof.
  unfold known_models. intros Hm.
  repeat (apply elem_of_cons in Hm as [->|Hm]; [split; [reflexivity|intros x; discriminate]|]).
  by apply elem_of_nil in Hm.
Qed.

Lemma marked_prefix (m : string) : String.prefix "disabled_" ("disabled_" +:+ m) = true.
Proof. simpl. by destruct m. Qed.

Lemma marked_inj (m m' : string) : "disabled_" +:+ m = "disabled_" +:+ m' -> m = m'.
Proof. simpl. by intros [=]. Qed.

Lemma client_init_well_formed (models : list (string * bool)) :
  well_formed (client_init models).
Proof.
  unfold well_formed, client_init. simpl. split; [|split].
  - intros m. rewrite elem_of_list_to_set, list_elem_of_fmap.
    intros ([k e] & -> & Hin). apply list_elem_of_filter in Hin as [Hk _]. exact Hk.
  - intros m. rewrite elem_of_list_to_set, !list_elem_of_fmap.
    intros ([k e] & -> & Hin). apply list_elem_of_filter in Hin as [_ Hin].
    by exists (k, e).
  - intros x Hx. by apply not_elem_of_empty in Hx.
Qed.

(** The active models of a well-formed client are among its clients. *)
Lemma active_subseteq_clients (c : Client) :
  well_formed c -> get_active_models c ⊆ clients c.
Proof.
  intros (Hk & He & Hr) m. rewrite elem_of_active.
  intros [[Hm _]|[Hm Hp]]; [by apply He|].
  destruct (Hr m Hm) as [[Hc _]|(m' & _ & ->)]; [done|].
  by rewrite marked_prefix in Hp.
Qed.

(** What [toggle_model] does to a model that has a client. *)
Lemma toggle_model_run (now : float) (m : string) (enabled : bool) (s : Session) :
  m ∈ clients (client s) ->
  let runtime := runtime_enabled_models (client s) in
  let runtime' :=
    if enabled then
      (if bool_decide (m ∈ enabled_models (client s)) then runtime else {[ m ]} ∪ runtime)
      ∖ {[ "disabled_" +:+ m ]}
    else if bool_decide (m ∈ enabled_models (client s))
         then {[ "disabled_" +:+ m ]} ∪ runtime
         else runtime ∖ {[ m ]} in
  let s1 := set_client (set_runtime_enabled_models runtime' (client s)) s in
  let s' := if enabled && _is_premium_model m then _start_premium_session_timer now s1 else s1 in
  toggle_model now m enabled s
  = (Ok (ToggleSuccess m enabled (get_active_models (client s'))), s').
Proof.
  intros Hm. cbv zeta.
  unfold toggle_model, try_except, mbind, M_bind, bind, get, runtime_add, runtime_discard,
    modify, mret, M_ret, ret.
  cbn [fst snd]. rewrite decide_False by (by intros H; apply H).
  destruct enabled; cbn [andb];
    destruct (bool_decide (m ∈ enabled_models (client s))); cbn [negb];
    try destruct (_is_premium_model m); reflexivity.
Qed.

Lemma toggle_model_unknown (now : float) (m : string) (enabled : bool) (s : Session) :
  m ∉ clients (client s) ->
  toggle_model now m enabled s
  = (Ok (ToggleError ("Model " +:+ m +:+ " not available")), s).
Proof.
  intros Hm. unfold toggle_model, try_except, mbind, M_bind, bind, get. cbn [fst snd].
  by rewrite decide_True.
Qed.

Lemma start_timer_client (now : float) (s : Session) :
  client (_start_premium_session_timer now s) = client s.
Proof. unfold _start_premium_session_timer. by destruct (premium_session_start s). Qed.

(** The client after a toggle of a model that has a client. *)
Lemma toggle_model_client (now : float) (m : string) (enabled : bool) (s : Session) :
  m ∈ clients (client s) ->
  let runtime := runtime_enabled_models (client s) in
  client (toggle_model now m enabled s).2
  = set_runtime_enabled_models
      (if enabled then
         (if bool_decide (m ∈ enabled_models (client s)) then runtime else {[ m ]} ∪ runtime)
         ∖ {[ "disabled_" +:+ m ]}
       else if bool_decide (m ∈ enabled_models (client s))
            then {[ "disabled_" +:+ m ]} ∪ runtime
            else runtime ∖ {[ m ]})
      (client s).
Proof.
  intros Hm. cbv zeta. rewrite (toggle_model_run now m enabled s Hm). cbn [snd].
  destruct (enabled && _is_premium_model m); [rewrite start_timer_client|]; done.
Qed.

Lemma toggle_model_well_formed (now : float) (m : string) (enabled : bool) (s : Session) :
  well_formed (client s) -> well_formed (client (toggle_model now m enabled s).2).
Proof.
  intros Hwf. destruct (decide (m ∈ clients (client s))) as [Hm|Hm].
  2:{ by rewrite toggle_model_unknown. }
  rewrite toggle_model_client by done. destruct Hwf as (Hk & He & Hr).
  split; [exact Hk|]. split; [exact He|]. cbn [runtime_enabled_models set_runtime_enabled_models
    clients enabled_models].
  intros x. destruct enabled; case_bool_decide as Hen.
  - rewrite elem_of_difference. intros [Hx _]. by apply Hr.
  - rewrite elem_of_difference, elem_of_union, elem_of_singleton.
    intros [[->|Hx] _]; [by left|by apply Hr].
  - rewrite elem_of_union, elem_of_singleton. intros [->|Hx]; [right; by exists m|by apply Hr].
  - rewrite elem_of_difference. intros [Hx _]. by apply Hr.
Qed.

(** The active models after a toggle: the model joins them or leaves
    them, and no other model moves. *)
Lemma toggle_model_active (now : float) (m : string) (enabled : bool) (s : Session) :
  well_formed (client s) -> m ∈ clients (client s) ->
  get_active_models (client (toggle_model now m enabled s).2)
  = if enabled then get_active_models (client s) ∪ {[ m ]}
    else get_active_models (client s) ∖ {[ m ]}.
Proof.
  intros (Hk & He & Hr) Hm. rewrite toggle_model_client by done.
  destruct (known_not_marked m (Hk m Hm)) as [Hprefix Hplain].
  apply set_eq. intros x.
  assert (Hmark : "disabled_" +:+ x = "disabled_" +:+ m ↔ x = m).
  { split; [apply marked_inj|by intros ->]. }
  assert (Hxm' : String.prefix "disabled_" x = false -> x ≠ "disabled_" +:+ m).
  { intros Hp ->. by rewrite marked_prefix in Hp. }
  assert (Hm_rt : m ∈ runtime_enabled_models (client s) -> m ∉ enabled_models (client s)).
  { intros Hin. destruct (Hr m Hin) as [[_ Hno]|(m' & _ & Heq)]; [done|]. by apply Hplain in Heq. }
  assert (Hmk_rt : "disabled_" +:+ m ∈ runtime_enabled_models (client s) ->
                   m ∈ enabled_models (client s)).
  { intros Hin. destruct (Hr _ Hin) as [[Hc _]|(m' & Hin' & Heq)].
    - apply Hk, known_not_marked in Hc as [Hc _]. by rewrite marked_prefix in Hc.
    - apply marked_inj in Heq. by subst m'. }
  destruct enabled; case_bool_decide as Hen;
    rewrite ?elem_of_union, ?elem_of_difference, !elem_of_active, ?elem_of_singleton;
    cbn [runtime_enabled_models set_runtime_enabled_models enabled_models];
    set_unfold.
  all: pose proof (Hplain x) as Hpx; pose proof (Hplain m) as Hpm.
  all: destruct (String.prefix "disabled_" x) eqn:Hp; [clear Hxm'|specialize (Hxm' eq_refl)].
  all: destruct (decide (x = m)) as [->|Hne];
    [|assert ("disabled_" +:+ x ≠ "disabled_" +:+ m) by (by rewrite Hmark)].
  all: clear Hmark Hplain Hr Hk He.
  all: intuition (try discriminate; try congruence).
Qed.

Lemma toggles_snoc (reqs : list Request) (r : Request) (s : Session) :
  toggles (reqs ++ [r]) s = (toggle_model (at_ r) (model r) (on r) (toggles reqs s)).2.
Proof. unfold toggles. by rewrite foldl_snoc. Qed.

Lemma toggles_cons (r : Request) (reqs : list Request) (s : Session) :
  toggles (r :: reqs) s = toggles reqs (toggle_model (at_ r) (model r) (on r) s).2.
Proof. reflexivity. Qed.

Lemma toggle_model_clients (now : float) (m : string) (enabled : bool) (s : Session) :
  clients (client (toggle_model now m enabled s).2) = clients (client s)
  ∧ enabled_models (client (toggle_model now m enabled s).2) = enabled_models (client s).
Proof.
  destruct (decide (m ∈ clients (client s))) as [Hm|Hm].
  - by rewrite toggle_model_client.
  - by rewrite toggle_model_unknown.
Qed.

Lemma toggles_clients (reqs : list Request) (s : Session) :
  clients (client (toggles reqs s)) = clients (client s)
  ∧ enabled_models (client (toggles reqs s)) = enabled_models (client s).
Proof.
  induction reqs as [|r reqs IH] using rev_ind; [done|].
  rewrite toggles_snoc.
  destruct (toggle_model_clients (at_ r) (model r) (on r) (toggles reqs s)) as [-> ->].
  exact IH.
Qed.

Lemma toggles_well_formed (reqs : list Request) (s : Session) :
  well_formed (client s) -> well_formed (client (toggles reqs s)).
Proof.
  intros Hwf. induction reqs as [|r reqs IH] using rev_ind; [done|].
  rewrite toggles_snoc. by apply toggle_model_well_formed.
Qed.

(** Switching models off only removes models from the active ones. *)
Lemma toggles_off_active (offs : list Request) (s : Session) :
  well_formed (client s) ->
  Forall (fun r => on r = false) offs ->
  ∀ x, x ∈ get_active_models (client (toggles offs s)) ->
       x ∈ get_active_models (client s)
       ∧ ¬ (x ∈ clients (client s) ∧ x ∈ model <$> offs).
Proof.
  intros Hwf Hoff. induction offs as [|r offs IH] using rev_ind; intros x.
  - intros Hx. split; [done|]. intros [_ Hin]. by apply elem_of_nil in Hin.
  - apply Forall_app in Hoff as [Hoff Hr]. apply (Forall_inv (P := fun r => on r = false)) in Hr. simpl in Hr.
    rewrite toggles_snoc, Hr, fmap_app. cbn [fmap list_fmap].
    destruct (decide (model r ∈ clients (client (toggles offs s)))) as [Hm|Hm].
    + rewrite (toggle_model_active _ _ false _ (toggles_well_formed offs s Hwf) Hm).
      rewrite elem_of_difference, elem_of_singleton. intros [Hx Hne].
      destruct (IH Hoff x Hx) as [Hact Hnot]. split; [done|].
      rewrite elem_of_app, list_elem_of_singleton. tauto.
    + rewrite toggle_model_unknown by done. cbn [snd]. intros Hx.
      destruct (IH Hoff x Hx) as [Hact Hnot]. split; [done|].
      rewrite elem_of_app, list_elem_of_singleton. intros [Hc [Hin| ->]]; [tauto|].
      apply Hm. by rewrite (proj1 (toggles_clients offs s)).
Qed.

(** The start of the premium session under a toggle. *)
Lemma toggle_model_session (now : float) (m : string) (enabled : bool) (s : Session) :
  premium_session_duration_minutes (toggle_model now m enabled s).2
  = premium_session_duration_minutes s
  ∧ premium_session_start (toggle_model now m enabled s).2
    = match premium_session_start s with
      | Some t0 => Some t0
      | None => if decide (enabled = true ∧ _is_premium_model m = true ∧ m ∈ clients (client s))
                then Some now else None
      end.
Proof.
  destruct (decide (m ∈ clients (client s))) as [Hm|Hm].
  - rewrite (toggle_model_run now m enabled s Hm). cbn [snd].
    unfold _start_premium_session_timer.
    destruct enabled, (_is_premium_model m), (premium_session_start s) eqn:Hs;
      cbn [andb premium_session_start premium_session_duration_minutes set_client
           set_premium_session_start];
      rewrite ?Hs; (split; [done|]); try done;
      ((rewrite decide_True by done) || (rewrite decide_False by naive_solver)); done.
  - rewrite toggle_model_unknown by done. cbn [snd]. split; [done|].
    destruct (premium_session_start s); [done|]. by rewrite decide_False by tauto.
Qed.

Lemma toggles_duration (reqs : list Request) (s : Session) :
  premium_session_duration_minutes (toggles reqs s) = premium_session_duration_minutes s.
Proof.
  induction reqs as [|r reqs IH] using rev_ind; [done|].
  rewrite toggles_snoc. by rewrite (proj1 (toggle_model_session _ _ _ _)).
Qed.

End Toggles.

(** X12.  Run-time toggles of [MultiLLMClient] are exact.  In every
    state that toggles can reach from a freshly built client, the active
    models are models that have a client; switching such a model on adds
    exactly this model to the active ones and switching it off removes
    exactly this model, whether or not the configuration enables it, and
    the reply lists the new active models; a name without a client is
    answered with the error "Model <name> not available" and changes
    nothing. *)
Theorem X12_toggle_is_exact (models : list (string * bool)) (duration : float)
        (reqs : list Toggle.Request) (now : float) (m : string) (enabled : bool) :
  let s := Toggle.toggles reqs (Toggle.session_init models duration) in
  let active := MultiLLM.get_active_models (Toggle.client s) in
  let out := Toggle.toggle_model now m enabled s in
  active ⊆ MultiLLM.clients (Toggle.client s)
  ∧ (m ∈ MultiLLM.clients (Toggle.client s) ->
       let active' := if enabled then active ∪ {[ m ]} else active ∖ {[ m ]} in
       out.1 = Ok (Toggle.ToggleSuccess m enabled active')
       ∧ MultiLLM.get_active_models (Toggle.client out.2) = active')
  ∧ (m ∉ MultiLLM.clients (Toggle.client s) ->
       out = (Ok (Toggle.ToggleError ("Model " +:+ m +:+ " not available")), s)).
Proof.
  cbv zeta.
  assert (Hwf : Toggle.well_formed
                  (Toggle.client (Toggle.toggles reqs (Toggle.session_init models duration)))).
  { apply toggles_well_formed. apply client_init_well_formed. }
  split; [by apply active_subseteq_clients|]. split.
  - intros Hm. pose proof (toggle_model_active now m enabled _ Hwf Hm) as Hact.
    split; [|exact Hact]. rewrite <- Hact.
    by rewrite (toggle_model_run now m enabled _ Hm).
  - intros Hm. by apply toggle_model_unknown.
Qed.

(** X13.  The premium session of [MultiLLMClient] starts once and is
    never restarted.  Whatever toggles are applied, the session starts at
    the first request that switches on a premium model ("anthropic" or
    "gemini") that has a client, and keeps that start and its duration
    from then on: switching the premium models off, or on again, does not
    move it.  From the start on, [get_session_status] reports
    [auto_shutdown] exactly when the minutes elapsed reach the duration,
    and then a remaining time of 0. *)
Theorem X13_premium_session_starts_once (s : Toggle.Session) (reqs : list Toggle.Request) :
  let s' := Toggle.toggles reqs s in
  let starts (r : Toggle.Request) :=
    Toggle.on r = true ∧ Toggle._is_premium_model (Toggle.model r) = true
    ∧ Toggle.model r ∈ MultiLLM.clients (Toggle.client s) in
  Toggle.premium_session_duration_minutes s' = Toggle.premium_session_duration_minutes s
  ∧ Toggle.premium_session_start s'
    = match Toggle.premium_session_start s with
      | Some t0 => Some t0
      | None => (fun ir => Toggle.at_ ir.2) <$> list_find starts reqs
      end
  ∧ ∀ t0 now,
      Toggle.premium_session_start s' = Some t0 ->
      let status := Toggle.get_session_status now s' in
      Toggle.premium_session_active status = true
      ∧ (Toggle.auto_shutdown status = Some true
         ↔ (Toggle.premium_session_duration_minutes s ≤ (now - t0) / of_Z 60)%Qc)
      ∧ (Toggle.auto_shutdown status = Some true -> Toggle.remaining_time_minutes status = 0%Z).
Proof.
  cbv zeta. split; [|split].
  - apply toggles_duration.
  - revert s. induction reqs as [|r reqs IH]; intros s.
    + simpl. by destruct (Toggle.premium_session_start s).
    + rewrite toggles_cons, IH.
      destruct (toggle_model_session (Toggle.at_ r) (Toggle.model r) (Toggle.on r) s)
        as [_ ->].
      destruct (toggle_model_clients (Toggle.at_ r) (Toggle.model r) (Toggle.on r) s)
        as [-> _].
      destruct (Toggle.premium_session_start s) as [t0|]; [done|].
      cbn [list_find]. case_decide as Hr; [done|].
      by destruct (list_find _ reqs) as [[i r']|].
  - intros t0 now Hstart. unfold Toggle.get_session_status. rewrite Hstart.
    cbn [Toggle.premium_session_active Toggle.auto_shutdown Toggle.remaining_time_minutes].
    rewrite toggles_duration. split; [done|].
    set (d := Toggle.premium_session_duration_minutes s).
    set (e := ((now - t0) / of_Z 60)%Qc).
    assert (Hsub : ((d - e ≤ 0)%Qc ↔ (d ≤ e)%Qc)).
    { rewrite (Qcle_minus_iff (d - e) 0), (Qcle_minus_iff d e).
      by replace (0 + - (d - e))%Qc with (e + - d)%Qc by ring. }
    unfold fmax. destruct (bool_decide (0 < d - e)%Qc) eqn:Hpos.
    + apply bool_decide_eq_true in Hpos.
      assert (Hno : ¬ (d - e ≤ 0)%Qc) by (intros Hle; by apply Qcle_not_lt in Hle).
      rewrite bool_decide_eq_false_2 by done.
      split; [|done]. split; [done|]. intros Hle. by apply Hsub in Hle.
    + apply bool_decide_eq_false in Hpos.
      rewrite bool_decide_eq_true_2 by apply Qcle_refl.
      split; [|done]. split; [|done]. intros _. apply Hsub. by apply Qcnot_lt_le.
Qed.


(** X14.  Switching every model off silences the dispatch.  From any
    state that toggles can reach, once each model that has a client has
    been switched off, no model is active, and
    [get_analysis_from_all_models] answers with the error "No models
    enabled", an empty result and no model queried, and leaves the client
    as it is: no request is sent and no usage is counted. *)
Theorem X14_all_switched_off (models : list (string * bool)) (duration : float)
        (reqs offs : list Toggle.Request) (b : MultiLLM.Backends) :
  let s := Toggle.toggles reqs (Toggle.session_init models duration) in
  let s' := Toggle.toggles offs s in
  Forall (fun r => Toggle.on r = false) offs ->
  MultiLLM.clients (Toggle.client s) ⊆ list_to_set (Toggle.model <$> offs) ->
  MultiLLM.get_active_models (Toggle.client s') = ∅
  ∧ MultiLLM.get_analysis_from_all_models b (Toggle.client s')
    = (Ok {| MultiLLM.error := Some "No models enabled";
             MultiLLM.results := ∅;
             MultiLLM.models_queried := [] |}, Toggle.client s').
Proof.
  cbv zeta. intros Hoff Hall.
  set (s := Toggle.toggles reqs (Toggle.session_init models duration)) in *.
  assert (Hwf : Toggle.well_formed (Toggle.client s)).
  { apply toggles_well_formed. apply client_init_well_formed. }
  assert (Hnone : MultiLLM.get_active_models (Toggle.client (Toggle.toggles offs s)) = ∅).
  { apply set_eq. intros x. split; [|intros Hx; by apply not_elem_of_empty in Hx].
    intros Hx. destruct (toggles_off_active offs s Hwf Hoff x Hx) as [Hact Hnot].
    exfalso. apply Hnot.
    pose proof (active_subseteq_clients _ Hwf x Hact) as Hc. split; [done|].
    apply Hall in Hc. by apply elem_of_list_to_set in Hc. }
  split; [exact Hnone|].
  unfold MultiLLM.get_analysis_from_all_models, mbind, M_bind, bind, gets. cbn [fst snd].
  rewrite Hnone, elements_empty. by rewrite decide_True.
Qed.

Lemma X14_all_switched_off_witness :
  let s := Toggle.toggles [ {| Toggle.at_ := of_Z 5; Toggle.model := "anthropic"; Toggle.on := true |} ]
             ToggleExamples.session0 in
  let offs := [ {| Toggle.at_ := of_Z 9; Toggle.model := "gemini"; Toggle.on := false |};
                {| Toggle.at_ := of_Z 9; Toggle.model := "lmstudio"; Toggle.on := false |};
                {| Toggle.at_ := of_Z 9; Toggle.model := "anthropic"; Toggle.on := false |} ] in
  MultiLLM.get_active_models (Toggle.client (Toggle.toggles offs s)) = ∅
  ∧ MultiLLM.get_analysis_from_all_models Scenario.all_answer (Toggle.client (Toggle.toggles offs s))
    = (Ok {| MultiLLM.error := Some "No models enabled";
             MultiLLM.results := ∅;
             MultiLLM.models_queried := [] |}, Toggle.client (Toggle.toggles offs s)).
Proof.
  cbv zeta.
  apply (X14_all_switched_off
           [("lmstudio", true); ("anthropic", false); ("gemini", true)] (of_Z 30)
           [ {| Toggle.at_ := of_Z 5; Toggle.model := "anthropic"; Toggle.on := true |} ]).
  - repeat constructor.
  - apply (bool_decide_unpack _). by vm_compute.
Defined.

Section Usage.
Import MultiLLM.

(** The usage counters after one query: the counter of the model is
    raised when the query returned, and left alone when it raised. *)
Lemma query_model_usage (b : Backends) (m : string) (c : Client) :
  usage_stats (query_model b m c).2
  = if decide (status (settled c b m) = "success")
    then <[m := (default 0 (usage_stats c !! m) + 1)%Z]> (usage_stats c)
    else usage_stats c.
Proof.
  unfold query_model, settled, try_except, mbind, M_bind, bind, get, run_query, count_usage, modify.
  destruct (query_backend c b m 0) as [[response|e] n] eqn:Hq; simpl.
  - done.
  - assert (He : is_Exception e = true).
    { apply (query_backend_Exception c b m). by rewrite Hq. }
    rewrite He. done.
Qed.

Lemma gather_usage (b : Backends) (names : list string) (c : Client) (m : string) :
  NoDup names ->
  usage_stats (gather (map (query_model b) names) c).2 !! m
  = if decide (m ∈ names ∧ status (settled c b m) = "success")
    then Some (default 0 (usage_stats c !! m) + 1)%Z
    else usage_stats c !! m.
Proof.
  revert c. induction names as [|n names IH]; intros c Hnd.
  - cbn [map gather]. case_decide as Hin; [|done]. destruct Hin as [Hin _].
    by apply elem_of_nil in Hin.
  - apply NoDup_cons in Hnd as [Hn Hnd]. cbn [map gather].
    destruct (query_model_settles b n c) as (c1 & Hq & Hs1).
    pose proof (query_model_usage b n c) as Hu. rewrite Hq in Hu |- *. cbn [snd] in Hu.
    destruct (gather (map (query_model b) names) c1) as [rs c2] eqn:Hg. cbn [snd].
    specialize (IH c1 Hnd). rewrite Hg in IH. cbn [snd] in IH. rewrite IH.
    rewrite <- (settled_setup c c1 b m Hs1). rewrite Hu.
    destruct (decide (m = n)) as [->|Hne].
    + rewrite (decide_False (P := n ∈ names ∧ _)) by tauto.
      destruct (decide (status (settled c b n) = "success")) as [Hok|Hok].
      * rewrite lookup_insert_eq. rewrite decide_True; [done|]. split; [by left|done].
      * rewrite decide_False; [done|]. tauto.
    + assert (Hsame : (if decide (status (settled c b n) = "success")
                       then <[n := (default 0 (usage_stats c !! n) + 1)%Z]> (usage_stats c)
                       else usage_stats c) !! m = usage_stats c !! m).
      { case_decide; [by rewrite lookup_insert_ne|done]. }
      rewrite Hsame. clear Hsame Hu.
      destruct (decide (m ∈ names ∧ status (settled c b m) = "success")) as [Hok|Hok].
      * rewrite decide_True; [done|]. destruct Hok. split; [by right|done].
      * rewrite decide_False; [done|]. rewrite elem_of_cons. tauto.
Qed.

End Usage.

(** X15.  The usage statistics count successes only.  After a call of
    [get_analysis_from_all_models], the usage counter of a model is one
    higher exactly when the model was active and its entry in the result
    has the status "success"; the counter of a model whose query raised,
    and of every model that is not active, is what it was. *)
Theorem X15_usage_counts_successes (b : MultiLLM.Backends) (c : MultiLLM.Client) (m : string) :
  let c' := (MultiLLM.get_analysis_from_all_models b c).2 in
  MultiLLM.usage_stats c' !! m
  = if decide (m ∈ MultiLLM.get_active_models c
               ∧ MultiLLM.status (MultiLLM.settled c b m) = "success")
    then Some (default 0 (MultiLLM.usage_stats c !! m) + 1)%Z
    else MultiLLM.usage_stats c !! m.
Proof.
  cbv zeta.
  unfold MultiLLM.get_analysis_from_all_models, mbind, M_bind, bind, gets. cbn [fst snd].
  case_decide as Hempty.
  - cbn [snd]. apply elements_empty_inv in Hempty. apply leibniz_equiv in Hempty.
    rewrite Hempty. rewrite decide_False; [done|]. intros [Hin _].
    by apply not_elem_of_empty in Hin.
  - pose proof (gather_usage b (elements (MultiLLM.get_active_models c)) c m
                  (NoDup_elements _)) as Hu.
    destruct (MultiLLM.gather _ c) as [rs c'] eqn:Hg. cbn [snd] in Hu |- *.
    assert (Hsnd : ∀ X (k : X -> MultiLLM.Bundle) (r : result X),
               (match r with
                | Ok a => (mret (k a) : M MultiLLM.Client MultiLLM.Bundle) c'
                | Raise e => (Raise e, c')
                end).2 = c') by (by intros X k [a|e]).
    rewrite Hsnd, Hu. clear Hu Hsnd Hg.
    destruct (decide (m ∈ MultiLLM.get_active_models c ∧ _)) as [Hok|Hok].
    + rewrite decide_True; [done|]. by rewrite elem_of_elements.
    + rewrite decide_False; [done|]. by rewrite elem_of_elements.
Qed.


(** ** The system of managers and the toggle endpoint *)

Section Managers.
Import Manager System.

Lemma system_init_lookup (c : MultiLLM.Client) (m : string) :
  system_init c !! m
  = if decide (m ∈ MultiLLM.enabled_models c)
    then Some (init m (display_duration_of m)) else None.
Proof.
  unfold system_init.
  assert (Hgen : ∀ (l : list string) (acc : gmap string IndependentModelManager),
            foldl (fun managers model_name =>
                     <[model_name := init model_name (display_duration_of model_name)]> managers)
                  acc l !! m
            = if decide (m ∈ l) then Some (init m (display_duration_of m)) else acc !! m).
  { induction l as [|n l IH] using rev_ind; intros acc.
    - cbn [foldl]. case_decide as Hin; [by apply elem_of_nil in Hin|done].
    - rewrite foldl_snoc. destruct (decide (m = n)) as [->|Hne].
      + rewrite lookup_insert_eq. rewrite decide_True; [done|].
        rewrite elem_of_app, list_elem_of_singleton. by right.
      + rewrite lookup_insert_ne by done. rewrite IH.
        destruct (decide (m ∈ l)) as [Hin|Hnin].
        * rewrite decide_True; [done|]. rewrite elem_of_app. by left.
        * rewrite decide_False; [done|].
          rewrite elem_of_app, list_elem_of_singleton. tauto. }
  rewrite Hgen. by rewrite lookup_empty.
Qed.

Lemma dom_insert_present (mgrs : gmap string IndependentModelManager) (m : string)
      (old new : IndependentModelManager) :
  mgrs !! m = Some old -> dom (<[m := new]> mgrs) = dom mgrs.
Proof.
  intros Hm. rewrite dom_insert_L.
  assert (m ∈ dom mgrs) by (apply elem_of_dom; by eexists). set_solver.
Qed.

(** No operation of the system adds or removes a manager. *)
Lemma system_keeps_dom (now : float) (m : string) (mgrs : gmap string IndependentModelManager) :
  (∀ mgrs', analyze_with_model_begin now m mgrs = inl mgrs' -> dom mgrs' = dom mgrs)
  ∧ dom (freeze_model_display m mgrs) = dom mgrs
  ∧ dom (unfreeze_model_display now m mgrs) = dom mgrs.
Proof.
  unfold analyze_with_model_begin, freeze_model_display, unfreeze_model_display.
  destruct (mgrs !! m) as [manager|] eqn:Hm; [|by split; [intros; simplify_eq|]].
  split; [|split]; try by apply (dom_insert_present _ _ manager).
  intros mgrs'. destruct (analyze_fault_begin now manager); intros; simplify_eq.
  by apply (dom_insert_present _ _ manager).
Qed.

End Managers.

(** X16.  The independent system does not follow the run-time toggles.
    Its managers are created at start-up, one for each model that the
    configuration enables, and no operation adds or removes one.  So a
    model outside the configuration that is switched on at run time is
    active for the dispatch, yet an independent analysis with it is
    answered "Model <name> not available"; and a model of the
    configuration that is switched off at run time is no longer active,
    yet its manager is still there and an independent analysis with it is
    not answered "not available". *)
Theorem X16_managers_ignore_toggles (models : list (string * bool)) (duration : float)
        (reqs : list Toggle.Request) (now : float) (m : string)
        (mgrs : gmap string Manager.IndependentModelManager) :
  let s0 := Toggle.session_init models duration in
  let s := Toggle.toggles reqs s0 in
  dom (System.system_init (Toggle.client s0))
  = list_to_set (MultiLLM.enabled_models (Toggle.client s))
  ∧ ((∀ mgrs', System.analyze_with_model_begin now m mgrs = inl mgrs' -> dom mgrs' = dom mgrs)
     ∧ dom (System.freeze_model_display m mgrs) = dom mgrs
     ∧ dom (System.unfreeze_model_display now m mgrs) = dom mgrs)
  ∧ (dom mgrs = dom (System.system_init (Toggle.client s0)) ->
     (m ∈ MultiLLM.clients (Toggle.client s) ->
      m ∉ MultiLLM.enabled_models (Toggle.client s) ->
        m ∈ MultiLLM.get_active_models (Toggle.client (Toggle.toggle_model now m true s).2)
        ∧ System.analyze_with_model_begin now m mgrs
          = inr (System.NotAvailable ("Model " +:+ m +:+ " not available")))
     ∧ (m ∈ MultiLLM.enabled_models (Toggle.client s) ->
          (m ∉ MultiLLM.get_active_models (Toggle.client (Toggle.toggle_model now m false s).2))
          ∧ ∃ manager,
              mgrs !! m = Some manager
              ∧ System.analyze_with_model_begin now m mgrs
                = match Manager.analyze_fault_begin now manager with
                  | inl manager' => inl (<[m := manager']> mgrs)
                  | inr reply => inr (System.Refused reply)
                  end)).
Proof.
  cbv zeta.
  assert (Hwf : Toggle.well_formed
                  (Toggle.client (Toggle.toggles reqs (Toggle.session_init models duration)))).
  { apply toggles_well_formed. apply client_init_well_formed. }
  destruct (toggles_clients reqs (Toggle.session_init models duration)) as [_ Hen].
  assert (Hdom : dom (System.system_init (Toggle.client (Toggle.session_init models duration)))
                 = list_to_set (MultiLLM.enabled_models
                     (Toggle.client (Toggle.toggles reqs (Toggle.session_init models duration))))).
  { rewrite Hen. apply set_eq. intros x.
    rewrite elem_of_dom, system_init_lookup, elem_of_list_to_set.
    case_decide; split; intros Hx; try done; try (by eexists); by destruct Hx. }
  split; [exact Hdom|]. split; [apply system_keeps_dom|].
  intros Hmgrs. rewrite Hdom in Hmgrs. split.
  - intros Hm Hno. split.
    + rewrite toggle_model_active by done. set_solver.
    + unfold System.analyze_with_model_begin.
      assert (Hnone : mgrs !! m = None).
      { apply not_elem_of_dom. rewrite Hmgrs, elem_of_list_to_set. done. }
      by rewrite Hnone.
  - intros Hm. split.
    + rewrite toggle_model_active; [set_solver|done|]. by apply Hwf.
    + assert (Hsome : m ∈ dom mgrs) by (by rewrite Hmgrs, elem_of_list_to_set).
      apply elem_of_dom in Hsome as [manager Hmgr]. exists manager. split; [done|].
      unfold System.analyze_with_model_begin. by rewrite Hmgr.
Qed.

Section ToggleEndpoint.
Import Toggle.

Lemma endpoint_run (now : float) (payload : Endpoint.TogglePayload) (s : Session) :
  Endpoint.toggle_model now payload s
  = match Endpoint.p_model_name payload with
    | None => (Raise (HTTPException 500 "model_name is required"), s)
    | Some model_name =>
        if decide (model_name = "")
        then (Raise (HTTPException 500 "model_name is required"), s)
        else if decide (model_name ∈ MultiLLM.clients (client s))
        then Toggle.toggle_model now model_name (default false (Endpoint.p_enabled payload)) s
        else (Raise (HTTPException 500 ("Model " +:+ model_name +:+ " not available")), s)
    end.
Proof.
  unfold Endpoint.toggle_model.
  destruct (Endpoint.p_model_name payload) as [name|]; [|reflexivity].
  destruct (decide (name = "")) as [->|Hname]; [reflexivity|].
  unfold try_except, mbind, M_bind, bind. cbn [fst snd].
  destruct (decide (name ∈ MultiLLM.clients (client s))) as [Hin|Hnin].
  - by rewrite (toggle_model_run now name _ s Hin).
  - by rewrite (toggle_model_unknown now name _ s Hnin).
Qed.

End ToggleEndpoint.

(** X17.  The endpoint [/models/toggle] never answers with status 400.
    The two errors that its body raises with status 400, for a request
    without a model name and for a model that has no client, are caught
    by the handler of the same function and leave it with status 500; in
    both cases the toggles are as they were.  Every other request
    succeeds and is answered by the reply of the client's
    [toggle_model]. *)
Theorem X17_toggle_endpoint_statuses (now : float) (payload : Endpoint.TogglePayload)
        (s : Toggle.Session) :
  let out := Endpoint.toggle_model now payload s in
  let named :=
    ∃ model_name, Endpoint.p_model_name payload = Some model_name
                  ∧ model_name ≠ ""
                  ∧ model_name ∈ MultiLLM.clients (Toggle.client s) in
  (∀ e, out.1 = Raise e -> (∃ detail, e = HTTPException 500 detail) ∧ out.2 = s ∧ ¬ named)
  ∧ (∀ reply, out.1 = Ok reply ->
       ∃ model_name,
         Endpoint.p_model_name payload = Some model_name
         ∧ model_name ∈ MultiLLM.clients (Toggle.client s)
         ∧ out = Toggle.toggle_model now model_name
                   (default false (Endpoint.p_enabled payload)) s
         ∧ reply = Toggle.ToggleSuccess model_name (default false (Endpoint.p_enabled payload))
                     (MultiLLM.get_active_models (Toggle.client out.2))).
Proof.
  cbv zeta. rewrite endpoint_run.
  destruct (Endpoint.p_model_name payload) as [name|] eqn:Hname.
  2:{ split; [|intros; simplify_eq]. intros e [= <-]. split; [by eexists|]. split; [done|].
      intros (n & ? & _); simplify_eq. }
  destruct (decide (name = "")) as [->|Hne].
  { split; [|intros; simplify_eq]. intros e [= <-]. split; [by eexists|]. split; [done|].
    intros (n & ? & ? & _); simplify_eq. }
  destruct (decide (name ∈ MultiLLM.clients (Toggle.client s))) as [Hin|Hnin].
  - pose proof (toggle_model_run now name (default false (Endpoint.p_enabled payload)) s Hin)
      as Hrun. cbv zeta in Hrun.
    destruct (Toggle.toggle_model now name (default false (Endpoint.p_enabled payload)) s)
      as [r s'] eqn:Hout.
    injection Hrun as Hr Hs. cbn [fst snd].
    split; [intros e He; rewrite Hr in He; discriminate|].
    intros reply Hreply. exists name. split; [done|]. split; [done|]. split; [by rewrite Hout|].
    rewrite Hr in Hreply. injection Hreply as <-. by rewrite Hs.
  - split; [|intros; simplify_eq]. intros e [= <-]. split; [by eexists|]. split; [done|].
    intros (n & ? & ? & ?); simplify_eq.
Qed.

Section Busy.
Import Manager.
Local Open Scope Qc_scope.




End Busy.


